(** * certificate-init-container: a shallow embedding of [main.go]

    The program is one Go file: [main] (flag handling, secret preflight,
    key and request construction, the signing-request protocol and the
    output sink) and four pure helpers that derive DNS names.

    The embedding keeps the order of the statements of [main].  Every call
    that leaves the process (control plane, filesystem, random source,
    clock) is recorded in a trace and answered by a [World] of oracles;
    [log.Printf] lines are not recorded.  The process ends by [os.Exit],
    by [log.Fatal] or by a run-time panic (an index out of range, a nil
    pointer dereference).  The two [for] loops of [main] have no bound in
    the source; the embedding runs them for a given number of iterations
    and reports a loop that is still waiting after that as [Blocked]. *)

From Stdlib Require Import ZArith Strings.String Strings.Ascii Strings.Byte.
From stdpp Require Import base strings list gmap.

Local Open Scope string_scope.
Local Open Scope list_scope.
Local Open Scope Z_scope.

(** ** The Go [strings] functions used by the program

    The module is named [gostrings] to keep it apart from the string
    library loaded above. *)

Module gostrings.

(** [s[n:]], total: dropping beyond the end leaves the empty string. *)
Fixpoint drop (n : nat) (s : string) : string :=
  match n, s with
  | O, _ => s
  | S n', String _ s' => drop n' s'
  | S _, EmptyString => EmptyString
  end.

(** One string per byte, the result of splitting on an empty separator
    (on ASCII input; the program never passes an empty separator). *)
Fixpoint explode (s : string) : list string :=
  match s with
  | EmptyString => []
  | String c s' => String c EmptyString :: explode s'
  end.

(** The scan of [strings.Split] for a non-empty separator: a match of
    [sep] at the current position closes the current field and skips the
    separator, any other byte extends the current field.  [fuel] bounds
    the number of positions visited. *)
Fixpoint splitLoop (fuel : nat) (s sep : string) : list string :=
  match fuel, s with
  | _, EmptyString => [EmptyString]
  | O, _ => [s]
  | S f, String c s' =>
      if String.prefix sep s
      then EmptyString :: splitLoop f (drop (String.length sep) s) sep
      else match splitLoop f s' sep with
           | field :: rest => String c field :: rest
           | [] => [String c EmptyString]
           end
  end.

(** [strings.Split(s, sep)]. *)
Definition Split (s sep : string) : list string :=
  match sep with
  | EmptyString => explode s
  | _ => splitLoop (String.length s) s sep
  end.

(** The scan of [strings.Replace] for a non-empty [old]: leftmost
    non-overlapping matches are replaced while the count [n] is not
    exhausted; a negative [n] never reaches zero. *)
Fixpoint replaceLoop (fuel : nat) (s old new : string) (n : Z) : string :=
  match fuel, s with
  | _, EmptyString => EmptyString
  | O, _ => s
  | S f, String c s' =>
      if n =? 0 then s
      else if String.prefix old s
      then new +:+ replaceLoop f (drop (String.length old) s) old new (n - 1)
      else String c (replaceLoop f s' old new n)
  end.

(** [strings.Replace(s, old, new, n)] for a non-empty [old] (the only
    use in the program is [Replace(ip, ".", "-", -1)]). *)
Definition Replace (s old new : string) (n : Z) : string :=
  if (String.eqb old new || (n =? 0))%bool then s
  else replaceLoop (String.length s) s old new n.

End gostrings.

(** ** The DNS-name helpers (main.go, lines 351-377) *)

(** [fmt.Sprintf("%s.%s.svc.%s", name, namespace, domain)] *)
Definition serviceDomainName (name namespace domain : string) : string :=
  name +:+ "." +:+ namespace +:+ ".svc." +:+ domain.

(** [fmt.Sprintf("%s.%s.pod.%s", strings.Replace(ip, ".", "-", -1), namespace, domain)] *)
Definition podDomainName (ip namespace domain : string) : string :=
  gostrings.Replace ip "." "-" (-1) +:+ "." +:+ namespace +:+ ".pod." +:+ domain.

Definition podHeadlessDomainName (hostname subdomain namespace domain : string) : string :=
  if (String.eqb hostname "" || String.eqb subdomain "")%bool then ""
  else hostname +:+ "." +:+ subdomain +:+ "." +:+ namespace +:+ ".svc." +:+ domain.

(** [defaultDNSNames] reads the package-level flag [headlessNameAsCN]; the
    embedding takes it as its first argument. *)
Definition defaultDNSNames (headlessNameAsCN : bool)
    (ip hostname subdomain namespace clusterDomain : string) : list string :=
  let ns := [podDomainName ip namespace clusterDomain] in
  if (negb (String.eqb hostname "") && negb (String.eqb subdomain ""))%bool then
    let headlessName := podHeadlessDomainName hostname subdomain namespace clusterDomain in
    if headlessNameAsCN then [headlessName] ++ ns else ns ++ [headlessName]
  else ns.

(** ** Data model: the Go values the program handles *)

(** [[]byte]; the nil slice is the empty list. *)
Abbreviation bytes := (list Byte.byte).

(** A Go [(value, error)] pair; an error is kept as its message. *)
Inductive result (A : Type) : Type :=
| Ok (a : A)
| Err (e : string).
Arguments Ok {A} a.
Arguments Err {A} e.

(** [net.IP] is a byte slice; [nil] is the empty list. *)
Module net.

Abbreviation IP := (list Byte.byte).

Definition IPv4len : nat := 4.
Definition IPv6len : nat := 16.

Definition v4InV6Prefix : IP :=
  [x00; x00; x00; x00; x00; x00; x00; x00; x00; x00; xff; xff].

Definition IPv4 (a b c d : Byte.byte) : IP := v4InV6Prefix ++ [a; b; c; d].

Definition isZeros (p : IP) : bool := forallb (Byte.eqb x00) p.

Definition isFF (b : option Byte.byte) : bool :=
  match b with Some b => Byte.eqb b xff | None => false end.

Definition To4 (ip : IP) : IP :=
  if Nat.eqb (length ip) IPv4len then ip
  else if (Nat.eqb (length ip) IPv6len && isZeros (take 10 ip)
           && isFF (ip !! 10%nat) && isFF (ip !! 11%nat))%bool
  then take 4 (drop 12 ip)
  else [].

Definition To16 (ip : IP) : IP :=
  if Nat.eqb (length ip) IPv4len then
    match ip with
    | [a; b; c; d] => IPv4 a b c d
    | _ => []
    end
  else if Nat.eqb (length ip) IPv6len then ip
  else [].

Definition isNil (ip : IP) : bool :=
  match ip with [] => true | _ => false end.

End net.

(** [rsa.PrivateKey], as far as the program sees it: an opaque value that
    is generated once and handed to the encoders and the signer. *)
Record PrivateKey : Type := { N : Z; E : Z; D : Z; Primes : list Z }.

Module pem.
Record Block : Type := { Type_ : string; Bytes : bytes }.
End pem.

Module pkix.
Record Name : Type :=
  { CommonName : string;
    Country : list string;
    Organization : list string;
    OrganizationalUnit : list string }.
End pkix.

Module x509.
Inductive SignatureAlgorithm : Type := SHA256WithRSA.
Record CertificateRequest : Type :=
  { Subject : pkix.Name;
    SignatureAlgorithm_ : SignatureAlgorithm;
    DNSNames : list string;
    IPAddresses : list net.IP }.
End x509.

(** The generated protobuf structs of the client library: optional scalar
    fields are pointers ([option]), sub-messages are pointers, getters are
    nil-safe. *)
Module v1.
Record ObjectMeta : Type :=
  { Name : option string;
    Namespace : option string;
    Labels : gmap string string }.
End v1.

Module apiv1.
Record Secret : Type :=
  { Metadata : option v1.ObjectMeta;
    Data : gmap string bytes;
    StringData : gmap string string;
    Type_ : option string }.

Definition GetData (s : Secret) : gmap string bytes := Data s.
End apiv1.

Module certificates.
Record CertificateSigningRequestCondition : Type :=
  { Type_ : option string;
    Reason : option string;
    Message : option string }.

Record CertificateSigningRequestStatus : Type :=
  { Conditions : list CertificateSigningRequestCondition;
    Certificate : bytes }.

Record CertificateSigningRequestSpec : Type :=
  { Groups : list string;
    Request : bytes;
    KeyUsage : list string }.

Record CertificateSigningRequest : Type :=
  { Metadata : option v1.ObjectMeta;
    Spec : option CertificateSigningRequestSpec;
    Status : option CertificateSigningRequestStatus }.

Definition GetStatus (m : CertificateSigningRequest) : option CertificateSigningRequestStatus :=
  Status m.

Definition GetConditions (m : option CertificateSigningRequestStatus)
  : list CertificateSigningRequestCondition :=
  match m with
  | Some st => Conditions st
  | None => []
  end.
End certificates.

(** The package-level variables set by the flags (main.go, lines 39-58). *)
Record Flags : Type :=
  { additionalDNSNames : string;
    certDir : string;
    clusterDomain : string;
    headlessNameAsCN : bool;
    hostname : string;
    namespace : string;
    pkcs8Format : bool;
    podIP : string;
    podName : string;
    serviceIPs : string;
    serviceNames : string;
    subdomain : string;
    labels : string;
    secretName : string;
    keysize : Z;
    countries : string;
    organizations : string;
    organizationalUnits : string }.

(** The defaults of the flag declarations (main.go, lines 61-78). *)
Definition defaultFlags : Flags :=
  {| additionalDNSNames := ""; certDir := ""; clusterDomain := "cluster.local";
     headlessNameAsCN := false; hostname := ""; namespace := "default";
     pkcs8Format := false; podIP := ""; podName := ""; serviceIPs := "";
     serviceNames := ""; subdomain := ""; labels := ""; secretName := "";
     keysize := 2048; countries := ""; organizations := "";
     organizationalUnits := "" |}.

(** ** External collaborators

    Every call that leaves the process is an [event] of the trace.  The
    answers come from a [World]: pure library functions are functions of
    their arguments, the two calls the program repeats in a loop
    ([GetSecret], [GetCertificateSigningRequest]) are answered by the
    number of the call, so that a world can fail, stay pending and then
    approve. *)

Inductive event : Type :=
| EvNewInClusterClient
| EvGetSecret (name ns : string)
| EvSleep (d : Z)
| EvGenerateKey (bits : Z)
| EvWriteFile (filename : string) (data : bytes) (perm : Z)
| EvCreateCertificateRequest (template : x509.CertificateRequest) (key : PrivateKey)
| EvDeleteCertificateSigningRequest (name : string)
| EvGetCertificateSigningRequest (name : string)
| EvCreateCertificateSigningRequest (csr : certificates.CertificateSigningRequest)
| EvReadFile (filename : string)
| EvUpdateSecret (secret : apiv1.Secret).

Record World : Type :=
  { k8s_NewInClusterClient : result unit;
    core_GetSecret : nat -> string -> string -> result apiv1.Secret;
    rsa_GenerateKey : Z -> result PrivateKey;
    pkcs8_ConvertPrivateKeyToPKCS8 : PrivateKey -> result bytes;
    x509_MarshalPKCS1PrivateKey : PrivateKey -> bytes;
    pem_EncodeToMemory : pem.Block -> bytes;
    path_Join : string -> string -> string;
    ioutil_WriteFile : string -> bytes -> Z -> option string;
    net_ParseIP : string -> net.IP;
    x509_CreateCertificateRequest : x509.CertificateRequest -> PrivateKey -> result bytes;
    certs_GetCertificateSigningRequest : nat -> string -> result certificates.CertificateSigningRequest;
    certs_CreateCertificateSigningRequest :
      certificates.CertificateSigningRequest -> result certificates.CertificateSigningRequest;
    ioutil_ReadFile : string -> result bytes }.

(** How the process ends: [os.Exit(code)], [log.Fatal] (which exits with
    status 1 after printing [msg]) or a run-time panic. *)
Inductive outcome : Type :=
| Exit (code : Z)
| Fatal (msg : string)
| Panic (msg : string).

(** The state threaded through [main]: the trace so far, oldest event
    first, and the numbers of the next [GetSecret] and
    [GetCertificateSigningRequest] calls. *)
Record state : Type :=
  { trace : list event;
    secretCalls : nat;
    csrCalls : nat }.

Definition initial : state := {| trace := []; secretCalls := 0; csrCalls := 0 |}.

(** One step of the program: a value to go on with, the end of the process,
    or [Blocked]: a retry loop that used up the iterations it was given and
    is still waiting. *)
Inductive step (A : Type) : Type :=
| Next (a : A)
| Halt (o : outcome)
| Blocked.
Arguments Next {A} a.
Arguments Halt {A} o.
Arguments Blocked {A}.

Definition M (A : Type) : Type := state -> state * step A.

Definition ret {A} (a : A) : M A := fun s => (s, Next a).

Definition bind {A B} (m : M A) (k : A -> M B) : M B :=
  fun s =>
    match m s with
    | (s', Next a) => k a s'
    | (s', Halt o) => (s', Halt o)
    | (s', Blocked) => (s', Blocked)
    end.

Notation "'let*' x ':=' m 'in' k" := (bind m (fun x => k))
  (at level 10, x name, m at level 100, k at level 200).
Notation "m ';;' k" := (bind m (fun _ => k))
  (at level 100, k at level 200, right associativity).

Definition halt {A} (o : outcome) : M A := fun s => (s, Halt o).
Definition blocked {A} : M A := fun s => (s, Blocked).

Definition emit (e : event) : M unit :=
  fun s => ({| trace := trace s ++ [e];
               secretCalls := secretCalls s;
               csrCalls := csrCalls s |}, Next tt).

(** [time.Second], a [time.Duration] in nanoseconds. *)
Definition Second : Z := 1000000000.

Definition Sleep (d : Z) : M unit := emit (EvSleep d).

Definition NewInClusterClient (w : World) : M (result unit) :=
  emit EvNewInClusterClient ;; ret (k8s_NewInClusterClient w).

Definition GetSecret (w : World) (name ns : string) : M (result apiv1.Secret) :=
  fun s =>
    ({| trace := trace s ++ [EvGetSecret name ns];
        secretCalls := S (secretCalls s);
        csrCalls := csrCalls s |},
     Next (core_GetSecret w (secretCalls s) name ns)).

Definition GenerateKey (w : World) (bits : Z) : M (result PrivateKey) :=
  emit (EvGenerateKey bits) ;; ret (rsa_GenerateKey w bits).

Definition WriteFile (w : World) (filename : string) (data : bytes) (perm : Z)
  : M (option string) :=
  emit (EvWriteFile filename data perm) ;; ret (ioutil_WriteFile w filename data perm).

Definition CreateCertificateRequest (w : World)
    (template : x509.CertificateRequest) (key : PrivateKey) : M (result bytes) :=
  emit (EvCreateCertificateRequest template key) ;;
  ret (x509_CreateCertificateRequest w template key).

Definition DeleteCertificateSigningRequest (name : string) : M unit :=
  emit (EvDeleteCertificateSigningRequest name).

Definition GetCertificateSigningRequest (w : World) (name : string)
  : M (result certificates.CertificateSigningRequest) :=
  fun s =>
    ({| trace := trace s ++ [EvGetCertificateSigningRequest name];
        secretCalls := secretCalls s;
        csrCalls := S (csrCalls s) |},
     Next (certs_GetCertificateSigningRequest w (csrCalls s) name)).

Definition CreateCertificateSigningRequest (w : World)
    (csr : certificates.CertificateSigningRequest)
  : M (result certificates.CertificateSigningRequest) :=
  emit (EvCreateCertificateSigningRequest csr) ;;
  ret (certs_CreateCertificateSigningRequest w csr).

Definition ReadFile (w : World) (filename : string) : M (result bytes) :=
  emit (EvReadFile filename) ;; ret (ioutil_ReadFile w filename).

Definition UpdateSecret (secret : apiv1.Secret) : M unit :=
  emit (EvUpdateSecret secret).

(** ** [main] (main.go, lines 60-349), phase by phase *)

Definition certificateSigningRequestName (f : Flags) : string :=
  podName f +:+ "-" +:+ namespace f.

(** Lines 107-113: the first of the three files that is not a key of the
    secret's data, if any; finding one makes the loop keep the secret. *)
Definition requiredFiles : list string := ["tls.key"; "tls.crt"; "ca.crt"].

Definition missingFile (secretData : gmap string bytes) : option string :=
  find (fun file => match secretData !! file with Some _ => false | None => true end)
       requiredFiles.

(** Lines 99-119: the preflight loop of the secret-store mode.  It returns
    the secret it keeps for the final update, or ends the process with
    status 0. *)
Fixpoint preflight (w : World) (f : Flags) (fuel : nat) : M apiv1.Secret :=
  match fuel with
  | O => blocked
  | S fuel' =>
      let* r := GetSecret w (secretName f) (namespace f) in
      match r with
      | Err _ => Sleep (5 * Second) ;; preflight w f fuel'
      | Ok ks =>
          let secretData := apiv1.GetData ks in
          match missingFile secretData with
          | Some _ => ret ks
          | None => halt (Exit 0)
          end
      end
  end.

(** Lines 124-154: generate the key, encode it, and write it in filesystem
    mode.  The result is the key and its PEM bytes. *)
Definition keyPhase (w : World) (f : Flags) (certDir : string) : M (PrivateKey * bytes) :=
  let* r := GenerateKey w (keysize f) in
  match r with
  | Err err => halt (Fatal ("unable to genarate the private key: " +:+ err))
  | Ok key =>
      let* enc :=
        (if pkcs8Format f then
           match pkcs8_ConvertPrivateKeyToPKCS8 w key with
           | Err err => halt (Panic err)
           | Ok pkey => ret ("PRIVATE KEY", pkey)
           end
         else ret ("RSA PRIVATE KEY", x509_MarshalPKCS1PrivateKey w key)) in
      let pemKeyBytes :=
        pem_EncodeToMemory w {| pem.Type_ := fst enc; pem.Bytes := snd enc |} in
      (if String.eqb (secretName f) "" then
         let keyFile := path_Join w certDir "tls.key" in
         let* err := WriteFile w keyFile pemKeyBytes 420 in
         match err with
         | Some err => halt (Fatal ("unable to write to " +:+ keyFile +:+ ": " +:+ err))
         | None => ret tt
         end
       else ret tt) ;;
      ret (key, pemKeyBytes)
  end.

(** Lines 159-169: the label loop.  [None] is the run-time panic of
    [s[1]] on a slice of length 1 (index out of range). *)
Fixpoint labelsLoop (entries : list string) (labelsMap : gmap string string)
  : option (gmap string string) :=
  match entries with
  | [] => Some labelsMap
  | n :: rest =>
      if String.eqb n "" then labelsLoop rest labelsMap
      else
        let s := gostrings.Split n "=" in
        match s !! 0%nat, s !! 1%nat with
        | Some label, Some key =>
            if String.eqb label "" then labelsLoop rest labelsMap
            else labelsLoop rest (<[label := key]> labelsMap)
        | _, _ => None
        end
  end.

Definition gatherLabels (f : Flags) : option (gmap string string) :=
  labelsLoop (gostrings.Split (labels f) ",") ∅.

(** Lines 176 and 187: [ip.To4() == nil && ip.To16() == nil]. *)
Definition invalidIP (ip : net.IP) : bool :=
  (net.isNil (net.To4 ip) && net.isNil (net.To16 ip))%bool.

(** Lines 182-191: the service-IP loop; [None] is [log.Fatal]. *)
Fixpoint serviceIPLoop (w : World) (entries : list string) (ipaddresses : list net.IP)
  : option (list net.IP) :=
  match entries with
  | [] => Some ipaddresses
  | s :: rest =>
      if String.eqb s "" then serviceIPLoop w rest ipaddresses
      else
        let ip := net_ParseIP w s in
        if invalidIP ip then None
        else serviceIPLoop w rest (ipaddresses ++ [ip])
  end.

(** Lines 175-191: the IP addresses of the request, or the fatal message. *)
Definition gatherIPs (w : World) (f : Flags) : result (list net.IP) :=
  let ip := net_ParseIP w (podIP f) in
  if invalidIP ip then Err "invalid pod IP address"
  else
    match serviceIPLoop w (gostrings.Split (serviceIPs f) ",") [ip] with
    | None => Err "invalid service IP address"
    | Some ipaddresses => Ok ipaddresses
    end.

(** Lines 203-217: the DNS names of the request. *)
Definition gatherDNSNames (f : Flags) : list string :=
  let dnsNames :=
    defaultDNSNames (headlessNameAsCN f) (podIP f) (hostname f) (subdomain f)
                    (namespace f) (clusterDomain f) in
  let dnsNames :=
    fold_left (fun (dnsNames : list string) n =>
                 if String.eqb n "" then dnsNames else dnsNames ++ [n])
              (gostrings.Split (additionalDNSNames f) ",") dnsNames in
  fold_left (fun (dnsNames : list string) n =>
               if String.eqb n "" then dnsNames
               else dnsNames ++ [serviceDomainName n (namespace f) (clusterDomain f)])
            (gostrings.Split (serviceNames f) ",") dnsNames.

(** Lines 226-234: a subject field stays nil unless its flag is set. *)
Definition subjectField (flag : string) : list string :=
  if (0 <? String.length flag)%nat then gostrings.Split flag "," else [].

(** Lines 236-246: the request template; [None] is the panic of
    [dnsNames[0]] on an empty slice. *)
Definition certificateRequestTemplate (f : Flags) (dnsNames : list string)
    (ipaddresses : list net.IP) : option x509.CertificateRequest :=
  match dnsNames !! 0%nat with
  | None => None
  | Some cn =>
      Some {| x509.Subject :=
                {| pkix.CommonName := cn;
                   pkix.Country := subjectField (countries f);
                   pkix.Organization := subjectField (organizations f);
                   pkix.OrganizationalUnit := subjectField (organizationalUnits f) |};
              x509.SignatureAlgorithm_ := x509.SHA256WithRSA;
              x509.DNSNames := dnsNames;
              x509.IPAddresses := ipaddresses |}
  end.

(** Lines 248-262: sign the request, encode it, and write it in filesystem
    mode.  The result is the PEM bytes of the request. *)
Definition requestPhase (w : World) (f : Flags) (certDir : string)
    (template : x509.CertificateRequest) (key : PrivateKey) : M bytes :=
  let* r := CreateCertificateRequest w template key in
  match r with
  | Err err => halt (Fatal ("unable to generate the certificate request: " +:+ err))
  | Ok certificateRequest =>
      let certificateRequestBytes :=
        pem_EncodeToMemory w {| pem.Type_ := "CERTIFICATE REQUEST";
                                pem.Bytes := certificateRequest |} in
      (if String.eqb (secretName f) "" then
         let csrFile := path_Join w certDir "tls.csr" in
         let* err := WriteFile w csrFile certificateRequestBytes 420 in
         match err with
         | Some err => halt (Fatal ("unable to " +:+ csrFile +:+ ", error: " +:+ err))
         | None => ret tt
         end
       else ret tt) ;;
      ret certificateRequestBytes
  end.

(** Lines 266-276: the object submitted to the control plane. *)
Definition certificateSigningRequest (f : Flags) (labelsMap : gmap string string)
    (certificateRequestBytes : bytes) : certificates.CertificateSigningRequest :=
  {| certificates.Metadata :=
       Some {| v1.Name := Some (certificateSigningRequestName f);
               v1.Namespace := None;
               v1.Labels := labelsMap |};
     certificates.Spec :=
       Some {| certificates.Groups := ["system:authenticated"];
               certificates.Request := certificateRequestBytes;
               certificates.KeyUsage :=
                 ["digital signature"; "key encipherment"; "server auth"; "client auth"] |};
     certificates.Status := None |}.

(** Lines 278-291: delete, look the request up, create it when the lookup
    fails.  The result of the delete is dropped by the program. *)
Definition submit (w : World) (name : string)
    (csr : certificates.CertificateSigningRequest) : M unit :=
  DeleteCertificateSigningRequest name ;;
  let* r := GetCertificateSigningRequest w name in
  match r with
  | Err _ =>
      let* c := CreateCertificateSigningRequest w csr in
      match c with
      | Err err => halt (Fatal ("unable to create the certificate signing request: " +:+ err))
      | Ok _ => ret tt
      end
  | Ok _ => ret tt
  end.

(** What one fetched request makes the poll loop do (lines 302-317). *)
Inductive verdict : Type :=
| Issued (certificate : bytes)
| Retry
| Crash (msg : string).

Definition nilDereference : string :=
  "runtime error: invalid memory address or nil pointer dereference".

Definition inspect (csr : certificates.CertificateSigningRequest) : verdict :=
  let conditions := certificates.GetConditions (certificates.GetStatus csr) in
  if (0 <? length conditions)%nat then
    match conditions !! 0%nat with
    | None => Crash "runtime error: index out of range"
    | Some c =>
        match certificates.Type_ c with
        | None => Crash nilDereference
        | Some t =>
            if String.eqb t "Approved" then
              match certificates.GetStatus csr with
              | None => Crash nilDereference
              | Some st =>
                  let certificate := certificates.Certificate st in
                  if (1 <? length certificate)%nat then Issued certificate else Retry
              end
            else Retry
        end
    end
  else Retry.

(** Lines 294-318: the poll loop. *)
Fixpoint poll (w : World) (name : string) (fuel : nat) : M bytes :=
  match fuel with
  | O => blocked
  | S fuel' =>
      let* r := GetCertificateSigningRequest w name in
      match r with
      | Err _ => Sleep (5 * Second) ;; poll w name fuel'
      | Ok csr =>
          match inspect csr with
          | Issued certificate => ret certificate
          | Crash msg => halt (Panic msg)
          | Retry => Sleep (5 * Second) ;; poll w name fuel'
          end
      end
  end.

(** Lines 278-318: the signing-request client, start sequence then poll. *)
Definition signingRequestClient (w : World) (name : string)
    (csr : certificates.CertificateSigningRequest) (fuel : nat) : M bytes :=
  submit w name csr ;;
  poll w name fuel.

(** Lines 338-343: the secret handed to the update: the kept object with
    its [StringData] replaced. *)
Definition stringData (pemKeyBytes certificate k8sCrt : bytes) : gmap string string :=
  <["ca.crt" := string_of_list_byte k8sCrt]>
    (<["tls.crt" := string_of_list_byte certificate]>
       (<["tls.key" := string_of_list_byte pemKeyBytes]> ∅)).

Definition withStringData (secret : apiv1.Secret) (sd : gmap string string) : apiv1.Secret :=
  {| apiv1.Metadata := apiv1.Metadata secret;
     apiv1.Data := apiv1.Data secret;
     apiv1.StringData := sd;
     apiv1.Type_ := apiv1.Type_ secret |}.

Definition serviceAccountCA : string :=
  "/var/run/secrets/kubernetes.io/serviceaccount/ca.crt".

(** Lines 320-348: write the certificate in filesystem mode, delete the
    request, update the kept secret if there is one, exit. *)
Definition deliver (w : World) (f : Flags) (certDir : string)
    (secret : option apiv1.Secret) (pemKeyBytes certificate : bytes) : M unit :=
  (if String.eqb (secretName f) "" then
     let certFile := path_Join w certDir "tls.crt" in
     let* err := WriteFile w certFile certificate 420 in
     match err with
     | Some err => halt (Fatal ("unable to write to " +:+ certFile +:+ ": " +:+ err))
     | None => ret tt
     end
   else ret tt) ;;
  DeleteCertificateSigningRequest (certificateSigningRequestName f) ;;
  match secret with
  | Some secret =>
      let* r := ReadFile w serviceAccountCA in
      match r with
      | Err err => halt (Panic err)
      | Ok k8sCrt =>
          UpdateSecret (withStringData secret (stringData pemKeyBytes certificate k8sCrt))
      end
  | None => ret tt
  end ;;
  halt (Exit 0).

(** Lines 81-120: client, sink check, default directory, preflight.  The
    result is the directory and the kept secret. *)
Definition prelude (w : World) (f : Flags) (fuel : nat) : M (string * option apiv1.Secret) :=
  let* client := NewInClusterClient w in
  match client with
  | Err err => halt (Fatal ("unable to create a Kubernetes client: " +:+ err))
  | Ok _ =>
      if (negb (String.eqb (certDir f) "") && negb (String.eqb (secretName f) ""))%bool
      then halt (Fatal "-cert-dir and -secret-name does not make sense together")
      else
        let certDir := if String.eqb (certDir f) "" then "/etc/tls" else certDir f in
        let* secret :=
          (if negb (String.eqb (secretName f) "")
           then let* ks := preflight w f fuel in ret (Some ks)
           else ret None) in
        ret (certDir, secret)
  end.

(** Lines 203-276 and the signing-request protocol: everything after the
    IP addresses are known. *)
Definition issue (w : World) (f : Flags) (fuel : nat) (certDir : string)
    (secret : option apiv1.Secret) (key : PrivateKey) (pemKeyBytes : bytes)
    (labelsMap : gmap string string) (ipaddresses : list net.IP) : M unit :=
  let dnsNames := gatherDNSNames f in
  match certificateRequestTemplate f dnsNames ipaddresses with
  | None => halt (Panic "runtime error: index out of range")
  | Some template =>
      let* certificateRequestBytes := requestPhase w f certDir template key in
      let csr := certificateSigningRequest f labelsMap certificateRequestBytes in
      let* certificate := signingRequestClient w (certificateSigningRequestName f) csr fuel in
      deliver w f certDir secret pemKeyBytes certificate
  end.

Definition main (w : World) (f : Flags) (fuel : nat) : M unit :=
  let* p := prelude w f fuel in
  let certDir := fst p in
  let secret := snd p in
  let* k := keyPhase w f certDir in
  let key := fst k in
  let pemKeyBytes := snd k in
  match gatherLabels f with
  | None => halt (Panic "runtime error: index out of range [1] with length 1")
  | Some labelsMap =>
      match gatherIPs w f with
      | Err msg => halt (Fatal msg)
      | Ok ipaddresses =>
          issue w f fuel certDir secret key pemKeyBytes labelsMap ipaddresses
      end
  end.

(** A run: the trace and how the process ended; [None] when a retry loop
    is still waiting after [fuel] iterations. *)
Definition run (w : World) (f : Flags) (fuel : nat) : list event * option outcome :=
  match main w f fuel initial with
  | (s, Halt o) => (trace s, Some o)
  | (s, _) => (trace s, None)
  end.

(** ** A concrete world to run the program in

    The library functions are replaced by small executable stand-ins; the
    control plane is given by the answers to the numbered [GetSecret] and
    [GetCertificateSigningRequest] calls. *)

Definition sampleKey : PrivateKey :=
  {| N := 3233; E := 17; D := 2753; Primes := [61; 53] |}.

(** The IP literals the examples use; any other literal does not parse. *)
Definition sampleParseIP (s : string) : net.IP :=
  if String.eqb s "10.0.0.5" then net.IPv4 x0a x00 x00 x05
  else if String.eqb s "10.1.2.3" then net.IPv4 x0a x01 x02 x03
  else if String.eqb s "10.96.0.10" then net.IPv4 x0a x60 x00 x0a
  else [].

Definition sampleWorld
    (secrets : nat -> result apiv1.Secret)
    (requests : nat -> result certificates.CertificateSigningRequest) : World :=
  {| k8s_NewInClusterClient := Ok tt;
     core_GetSecret := fun n _ _ => secrets n;
     rsa_GenerateKey := fun _ => Ok sampleKey;
     pkcs8_ConvertPrivateKeyToPKCS8 := fun _ => Ok [x30; x82];
     x509_MarshalPKCS1PrivateKey := fun _ => [x30; x81];
     pem_EncodeToMemory := fun b => list_byte_of_string (pem.Type_ b) ++ pem.Bytes b;
     path_Join := fun d e => d +:+ "/" +:+ e;
     ioutil_WriteFile := fun _ _ _ => None;
     net_ParseIP := sampleParseIP;
     x509_CreateCertificateRequest := fun _ _ => Ok [x30; x80];
     certs_GetCertificateSigningRequest := fun n _ => requests n;
     certs_CreateCertificateSigningRequest := fun csr => Ok csr;
     ioutil_ReadFile := fun _ => Ok [x43; x41] |}.

Definition condition (t : option string) : certificates.CertificateSigningRequestCondition :=
  {| certificates.Type_ := t; certificates.Reason := None; certificates.Message := None |}.

Definition fetched (conditions : list certificates.CertificateSigningRequestCondition)
    (certificate : bytes) : certificates.CertificateSigningRequest :=
  {| certificates.Metadata := None;
     certificates.Spec := None;
     certificates.Status :=
       Some {| certificates.Conditions := conditions;
               certificates.Certificate := certificate |} |}.

(** "CERT" *)
Definition certBytes : bytes := [x43; x45; x52; x54].

(** A control plane that does not know the request at the first lookup,
    reports it pending at the second and approved from the third on. *)
Definition approving (n : nat) : result certificates.CertificateSigningRequest :=
  match n with
  | O => Err "not found"
  | S O => Ok (fetched [] [])
  | _ => Ok (fetched [condition (Some "Approved")] certBytes)
  end.

Definition noSecret (n : nat) : result apiv1.Secret := Err "not found".

Definition secretWith (data : gmap string bytes) : apiv1.Secret :=
  {| apiv1.Metadata :=
       Some {| v1.Name := Some "tls"; v1.Namespace := Some "ns1"; v1.Labels := ∅ |};
     apiv1.Data := data;
     apiv1.StringData := ∅;
     apiv1.Type_ := Some "Opaque" |}.

Definition fsFlags : Flags :=
  {| additionalDNSNames := ""; certDir := ""; clusterDomain := "cluster.local";
     headlessNameAsCN := false; hostname := ""; namespace := "ns1";
     pkcs8Format := false; podIP := "10.0.0.5"; podName := "app"; serviceIPs := "";
     serviceNames := ""; subdomain := ""; labels := ""; secretName := "";
     keysize := 2048; countries := ""; organizations := "";
     organizationalUnits := "" |}.

Definition withPodIP (f : Flags) (ip : string) : Flags :=
  {| additionalDNSNames := additionalDNSNames f; certDir := certDir f;
     clusterDomain := clusterDomain f; headlessNameAsCN := headlessNameAsCN f;
     hostname := hostname f; namespace := namespace f; pkcs8Format := pkcs8Format f;
     podIP := ip; podName := podName f; serviceIPs := serviceIPs f;
     serviceNames := serviceNames f; subdomain := subdomain f; labels := labels f;
     secretName := secretName f; keysize := keysize f; countries := countries f;
     organizations := organizations f; organizationalUnits := organizationalUnits f |}.

Definition withLabels (f : Flags) (l : string) : Flags :=
  {| additionalDNSNames := additionalDNSNames f; certDir := certDir f;
     clusterDomain := clusterDomain f; headlessNameAsCN := headlessNameAsCN f;
     hostname := hostname f; namespace := namespace f; pkcs8Format := pkcs8Format f;
     podIP := podIP f; podName := podName f; serviceIPs := serviceIPs f;
     serviceNames := serviceNames f; subdomain := subdomain f; labels := l;
     secretName := secretName f; keysize := keysize f; countries := countries f;
     organizations := organizations f; organizationalUnits := organizationalUnits f |}.

Definition withSinks (f : Flags) (dir secret : string) : Flags :=
  {| additionalDNSNames := additionalDNSNames f; certDir := dir;
     clusterDomain := clusterDomain f; headlessNameAsCN := headlessNameAsCN f;
     hostname := hostname f; namespace := namespace f; pkcs8Format := pkcs8Format f;
     podIP := podIP f; podName := podName f; serviceIPs := serviceIPs f;
     serviceNames := serviceNames f; subdomain := subdomain f; labels := labels f;
     secretName := secret; keysize := keysize f; countries := countries f;
     organizations := organizations f; organizationalUnits := organizationalUnits f |}.

(** ** Definitions used to state the properties *)

(** The spec's words for the first component of a pod domain name: the IP
    with every dot replaced by a dash, byte by byte. *)
Fixpoint dotsToDashes (s : string) : string :=
  match s with
  | EmptyString => EmptyString
  | String c s' => String (if Ascii.eqb c "." then "-"%char else c) (dotsToDashes s')
  end.

(** [hasByte c s]: the byte [c] occurs in [s]. *)
Fixpoint hasByte (c : ascii) (s : string) : bool :=
  match s with
  | EmptyString => false
  | String a s' => (Ascii.eqb c a || hasByte c s')%bool
  end.

(** [strings.Split] on a one-byte separator, by structural recursion. *)
Fixpoint splitByte (c : ascii) (s : string) : list string :=
  match s with
  | EmptyString => [EmptyString]
  | String a s' =>
      if Ascii.eqb c a then EmptyString :: splitByte c s'
      else match splitByte c s' with
           | field :: rest => String a field :: rest
           | [] => [String a EmptyString]
           end
  end.

(** The entries the label loop can index: empty ones are skipped before
    the split, the others need an ['=']. *)
Definition labelEntryOk (n : string) : bool :=
  (String.eqb n "" || hasByte "=" n)%bool.

(** The non-empty entries of a comma-separated flag. *)
Definition entries (flag : string) : list string :=
  List.filter (fun n => negb (String.eqb n "")) (gostrings.Split flag ",").

(** Flags with a headless name, an additional name and a service. *)
Definition headlessFlags : Flags :=
  {| additionalDNSNames := "extra.example.com"; certDir := "";
     clusterDomain := "d"; headlessNameAsCN := true; hostname := "h";
     namespace := "n"; pkcs8Format := false; podIP := "10.1.2.3"; podName := "app";
     serviceIPs := ""; serviceNames := "web"; subdomain := "s"; labels := "";
     secretName := ""; keysize := 2048; countries := ""; organizations := "";
     organizationalUnits := "" |}.

(** Events of the secret preflight. *)
Definition isSecretWait (e : event) : bool :=
  match e with
  | EvGetSecret _ _ | EvSleep _ => true
  | _ => false
  end.

(** Events that build or sign a certificate request or call the
    certificate-signing-request API. *)
Definition isRequestWork (e : event) : bool :=
  match e with
  | EvCreateCertificateRequest _ _
  | EvDeleteCertificateSigningRequest _
  | EvGetCertificateSigningRequest _
  | EvCreateCertificateSigningRequest _ => true
  | _ => false
  end.

Definition isKeyGeneration (e : event) : bool :=
  match e with
  | EvGenerateKey _ => true
  | _ => false
  end.

(** An IP literal of the flags does not parse: [net.ParseIP] returns nil
    for the pod IP or for a non-empty service IP. *)
Definition unparsable (w : World) (f : Flags) : Prop :=
  net_ParseIP w (podIP f) = []
  \/ exists s, In s (entries (serviceIPs f)) /\ net_ParseIP w s = [].

(** [n] rounds of a failed or pending lookup followed by the wait. *)
Definition rounds (n : nat) (call : event) : list event :=
  concat (replicate n [call; EvSleep (5 * Second)]).

(** The events a phase adds to the trace. *)
Definition adds (s s' : state) (evs : list event) : Prop :=
  trace s' = trace s ++ evs.

(** Events of the prelude and of the key phase. *)
Definition fromPrelude (e : event) : bool :=
  match e with
  | EvNewInClusterClient | EvGetSecret _ _ | EvSleep _ => true
  | _ => false
  end.

Definition fromKeyPhase (e : event) : bool :=
  match e with
  | EvGenerateKey _ | EvWriteFile _ _ _ => true
  | _ => false
  end.

(** Secret-store mode: the flags of the filesystem example with the secret
    [tls] as the target, and a control plane that holds that secret with
    the given data from the first lookup on. *)
Definition secretFlags : Flags := withSinks fsFlags "" "tls".

Definition holding (data : gmap string bytes) (n : nat) : result apiv1.Secret :=
  Ok (secretWith data).

(** The state after [evs] were recorded and [k] more lookups of each kind
    were answered. *)
Definition advance (s : state) (evs : list event) (secrets requests : nat) : state :=
  {| trace := trace s ++ evs;
     secretCalls := secretCalls s + secrets;
     csrCalls := csrCalls s + requests |}.

(** Secret data with the three files, with content and with empty values. *)
Definition provisioned : gmap string bytes :=
  <["ca.crt" := [x03]]> (<["tls.crt" := [x02]]> (<["tls.key" := [x01]]> ∅)).

Definition emptyValues : gmap string bytes :=
  <["ca.crt" := []]> (<["tls.crt" := []]> (<["tls.key" := []]> ∅)).

(** A control plane on which the secret appears at the second lookup. *)
Definition appearing (data : gmap string bytes) (n : nat) : result apiv1.Secret :=
  match n with
  | O => Err "not found"
  | S _ => Ok (secretWith data)
  end.

(** A control plane that answers the poll with a request whose first
    condition carries no type. *)
Definition untyped (n : nat) : result certificates.CertificateSigningRequest :=
  match n with
  | O => Err "not found"
  | S _ => Ok (fetched [condition None] certBytes)
  end.

(** A lookup that makes the poll loop wait: an error, or a request that
    [inspect] sends back for another round. *)
Definition pendingAnswer (r : result certificates.CertificateSigningRequest) : Prop :=
  match r with
  | Err _ => True
  | Ok csr => inspect csr = Retry
  end.

(** [emits P Q m]: every event [m] records satisfies [P], and a value it
    goes on with satisfies [Q]. *)
Definition emits {A : Type} (P : event -> Prop) (Q : A -> Prop) (m : M A) : Prop :=
  forall s s' r,
    m s = (s', r) ->
    (exists evs, adds s s' evs /\ Forall P evs) /\ (forall a, r = Next a -> Q a).

(** What an update of the secret looks like when [secret] is the kept
    object and [pemKeyBytes] the encoded key. *)
Definition updateShape (w : World) (secret : option apiv1.Secret) (pemKeyBytes : bytes)
    (e : event) : Prop :=
  forall u, e = EvUpdateSecret u ->
    exists ks certificate k8sCrt,
      secret = Some ks
      /\ ioutil_ReadFile w serviceAccountCA = Ok k8sCrt
      /\ u = withStringData ks (stringData pemKeyBytes certificate k8sCrt).

(** Secret data with the key file only, and the secret the run of the
    example hands to the update. *)
Definition keyOnly : gmap string bytes := <["tls.key" := [x01]]> ∅.

Definition updatedSecret : apiv1.Secret :=
  withStringData (secretWith keyOnly)
    (stringData (list_byte_of_string "RSA PRIVATE KEY" ++ [x30; x81]) certBytes [x43; x41]).

(** The names of the files a trace writes, in order. *)
Definition writtenFiles (tr : list event) : list string :=
  omap (fun e => match e with EvWriteFile filename _ _ => Some filename | _ => None end) tr.

(** [m] leaves the number of request lookups as it is. *)
Definition keepsRequests {A : Type} (m : M A) : Prop :=
  forall s s' r, m s = (s', r) -> csrCalls s' = csrCalls s.

(** The signing requests a trace submits, in order. *)
Definition created (tr : list event) : list certificates.CertificateSigningRequest :=
  omap (fun e => match e with
                 | EvCreateCertificateSigningRequest csr => Some csr
                 | _ => None
                 end) tr.

Definition isCreate (e : event) : bool :=
  match e with
  | EvCreateCertificateSigningRequest _ => true
  | _ => false
  end.

(** ** Definitions used to state the properties of the remaining code *)

(** A byte sequence without [','] and ['=']: what a label key or value can
    be for the [-labels] syntax to carry it. *)
Definition plain (s : string) : bool :=
  (negb (hasByte "," s) && negb (hasByte "=" s))%bool.

(** The [-labels] text of a list of pairs: [k=v] entries joined by commas. *)
Definition formatLabels (kvs : list (string * string)) : string :=
  String.concat "," (map (fun kv => fst kv +:+ "=" +:+ snd kv) kvs).

(** A pair the [-labels] syntax carries: plain key and value, key not empty. *)
Definition labelPairOk (kv : string * string) : bool :=
  (plain (fst kv) && plain (snd kv) && negb (String.eqb (fst kv) ""))%bool.

(** The directory of the filesystem sink (lines 92-94). *)
Definition outputDir (f : Flags) : string :=
  if String.eqb (certDir f) "" then "/etc/tls" else certDir f.

(** The PEM block of the private key in the selected format (lines
    129-140); [None] when the PKCS#8 conversion fails. *)
Definition keyBlock (w : World) (f : Flags) (key : PrivateKey) : option pem.Block :=
  if pkcs8Format f then
    match pkcs8_ConvertPrivateKeyToPKCS8 w key with
    | Ok pkey => Some {| pem.Type_ := "PRIVATE KEY"; pem.Bytes := pkey |}
    | Err _ => None
    end
  else Some {| pem.Type_ := "RSA PRIVATE KEY";
               pem.Bytes := x509_MarshalPKCS1PrivateKey w key |}.

(** The PEM text of a signed certificate request (line 253). *)
Definition requestPEM (w : World) (der : bytes) : bytes :=
  pem_EncodeToMemory w {| pem.Type_ := "CERTIFICATE REQUEST"; pem.Bytes := der |}.

(** [certificate] was returned by a lookup of the request [name] that the
    poll loop accepts. *)
Definition issuedBy (w : World) (name : string) (certificate : bytes) : Prop :=
  exists n csr,
    certs_GetCertificateSigningRequest w n name = Ok csr
    /\ inspect csr = Issued certificate.

(** The secret the prelude hands on: none in filesystem mode, in
    secret-store mode one that a lookup returned. *)
Definition kept (w : World) (f : Flags) (secret : option apiv1.Secret) : Prop :=
  match secret with
  | None => secretName f = ""
  | Some ks =>
      secretName f <> ""
      /\ exists n, core_GetSecret w n (secretName f) (namespace f) = Ok ks
  end.

(** The request that is signed: the generated key and the template of the
    gathered names and addresses. *)
Definition signedWith (w : World) (f : Flags)
    (template : x509.CertificateRequest) (key : PrivateKey) : Prop :=
  rsa_GenerateKey w (keysize f) = Ok key
  /\ exists ipaddresses,
       gatherIPs w f = Ok ipaddresses
       /\ certificateRequestTemplate f (gatherDNSNames f) ipaddresses = Some template.

(** What an event of a run of [main] with the flags [f] can be. *)
Definition expected (w : World) (f : Flags) (e : event) : Prop :=
  match e with
  | EvNewInClusterClient => True
  | EvGetSecret name ns =>
      secretName f <> "" /\ name = secretName f /\ ns = namespace f
  | EvSleep d => d = 5 * Second
  | EvGenerateKey bits => bits = keysize f
  | EvWriteFile filename data perm =>
      secretName f = "" /\ perm = 420
      /\ ((filename = path_Join w (outputDir f) "tls.key"
           /\ exists key blk,
                rsa_GenerateKey w (keysize f) = Ok key
                /\ keyBlock w f key = Some blk
                /\ data = pem_EncodeToMemory w blk)
          \/ (filename = path_Join w (outputDir f) "tls.csr"
              /\ exists template key der,
                   signedWith w f template key
                   /\ x509_CreateCertificateRequest w template key = Ok der
                   /\ data = requestPEM w der)
          \/ (filename = path_Join w (outputDir f) "tls.crt"
              /\ issuedBy w (certificateSigningRequestName f) data))
  | EvCreateCertificateRequest template key => signedWith w f template key
  | EvDeleteCertificateSigningRequest name => name = certificateSigningRequestName f
  | EvGetCertificateSigningRequest name => name = certificateSigningRequestName f
  | EvCreateCertificateSigningRequest csr =>
      exists labelsMap template key der,
        gatherLabels f = Some labelsMap
        /\ signedWith w f template key
        /\ x509_CreateCertificateRequest w template key = Ok der
        /\ csr = certificateSigningRequest f labelsMap (requestPEM w der)
  | EvReadFile filename => secretName f <> "" /\ filename = serviceAccountCA
  | EvUpdateSecret u =>
      secretName f <> ""
      /\ exists n ks key blk certificate k8sCrt,
           core_GetSecret w n (secretName f) (namespace f) = Ok ks
           /\ rsa_GenerateKey w (keysize f) = Ok key
           /\ keyBlock w f key = Some blk
           /\ issuedBy w (certificateSigningRequestName f) certificate
           /\ ioutil_ReadFile w serviceAccountCA = Ok k8sCrt
           /\ u = withStringData ks
                    (stringData (pem_EncodeToMemory w blk) certificate k8sCrt)
  end.

(** A file event of the filesystem sink: recorded only without a secret
    name. *)
Definition fileEvents (f : Flags) (e : event) : list event :=
  if String.eqb (secretName f) "" then [e] else [].

(** The events of a run from key generation to the end of the poll loop,
    when every step succeeds, the request is not there at the first lookup
    and the certificate comes after [n] waits. *)
Definition issuanceEvents (w : World) (f : Flags) (dir : string) (blk : pem.Block)
    (template : x509.CertificateRequest) (key : PrivateKey) (der : bytes)
    (labelsMap : gmap string string) (n : nat) : list event :=
  [EvGenerateKey (keysize f)]
  ++ fileEvents f (EvWriteFile (path_Join w dir "tls.key") (pem_EncodeToMemory w blk) 420)
  ++ [EvCreateCertificateRequest template key]
  ++ fileEvents f (EvWriteFile (path_Join w dir "tls.csr") (requestPEM w der) 420)
  ++ [EvDeleteCertificateSigningRequest (certificateSigningRequestName f);
      EvGetCertificateSigningRequest (certificateSigningRequestName f);
      EvCreateCertificateSigningRequest
        (certificateSigningRequest f labelsMap (requestPEM w der))]
  ++ rounds n (EvGetCertificateSigningRequest (certificateSigningRequestName f))
  ++ [EvGetCertificateSigningRequest (certificateSigningRequestName f)].

(** What has to go well for a run to reach the output sink. *)
Record Issuance (w : World) (f : Flags) (dir : string) (key : PrivateKey)
    (blk : pem.Block) (labelsMap : gmap string string)
    (template : x509.CertificateRequest) (der : bytes) (n : nat)
    (certificate : bytes) : Prop :=
  { generated : rsa_GenerateKey w (keysize f) = Ok key;
    encoded : keyBlock w f key = Some blk;
    keyWritten :
      secretName f = "" ->
      ioutil_WriteFile w (path_Join w dir "tls.key") (pem_EncodeToMemory w blk) 420 = None;
    labelled : gatherLabels f = Some labelsMap;
    templated :
      exists ipaddresses,
        gatherIPs w f = Ok ipaddresses
        /\ certificateRequestTemplate f (gatherDNSNames f) ipaddresses = Some template;
    signed : x509_CreateCertificateRequest w template key = Ok der;
    requestWritten :
      secretName f = "" ->
      ioutil_WriteFile w (path_Join w dir "tls.csr") (requestPEM w der) 420 = None;
    notFound :
      exists e,
        certs_GetCertificateSigningRequest w 0 (certificateSigningRequestName f) = Err e;
    submitted :
      exists c,
        certs_CreateCertificateSigningRequest w
          (certificateSigningRequest f labelsMap (requestPEM w der)) = Ok c;
    pending :
      forall i, (i < n)%nat ->
        pendingAnswer
          (certs_GetCertificateSigningRequest w (S i) (certificateSigningRequestName f));
    approved :
      exists csr,
        certs_GetCertificateSigningRequest w (S n) (certificateSigningRequestName f) = Ok csr
        /\ inspect csr = Issued certificate }.

(** The request template and the key block of the example runs. *)
Definition sampleTemplate : x509.CertificateRequest :=
  {| x509.Subject :=
       {| pkix.CommonName := "10-0-0-5.ns1.pod.cluster.local";
          pkix.Country := [];
          pkix.Organization := [];
          pkix.OrganizationalUnit := [] |};
     x509.SignatureAlgorithm_ := x509.SHA256WithRSA;
     x509.DNSNames := ["10-0-0-5.ns1.pod.cluster.local"];
     x509.IPAddresses := [net.IPv4 x0a x00 x00 x05] |}.

Definition sampleBlock : pem.Block :=
  {| pem.Type_ := "RSA PRIVATE KEY"; pem.Bytes := [x30; x81] |}.

(** A world with another filesystem. *)
Definition withFiles (w : World)
    (write : string -> bytes -> Z -> option string)
    (read : string -> result bytes) : World :=
  {| k8s_NewInClusterClient := k8s_NewInClusterClient w;
     core_GetSecret := core_GetSecret w;
     rsa_GenerateKey := rsa_GenerateKey w;
     pkcs8_ConvertPrivateKeyToPKCS8 := pkcs8_ConvertPrivateKeyToPKCS8 w;
     x509_MarshalPKCS1PrivateKey := x509_MarshalPKCS1PrivateKey w;
     pem_EncodeToMemory := pem_EncodeToMemory w;
     path_Join := path_Join w;
     ioutil_WriteFile := write;
     net_ParseIP := net_ParseIP w;
     x509_CreateCertificateRequest := x509_CreateCertificateRequest w;
     certs_GetCertificateSigningRequest := certs_GetCertificateSigningRequest w;
     certs_CreateCertificateSigningRequest := certs_CreateCertificateSigningRequest w;
     ioutil_ReadFile := read |}.

(** A filesystem on which the certificate file cannot be written, and one
    without the service-account CA file. *)
Definition fullDisk : World :=
  withFiles (sampleWorld noSecret approving)
    (fun filename _ _ =>
       if String.eqb filename "/etc/tls/tls.crt" then Some "no space left on device"
       else None)
    (fun _ => Ok [x43; x41]).

Definition noCA : World :=
  withFiles (sampleWorld (appearing keyOnly) approving)
    (fun _ _ _ => None)
    (fun _ => Err "no such file or directory").

(** A control plane on which the request stays pending for ever. *)
Definition stalled (n : nat) : result certificates.CertificateSigningRequest :=
  match n with
  | O => Err "not found"
  | S _ => Ok (fetched [condition (Some "Denied")] certBytes)
  end.

(** A world with another key generator and PKCS#8 converter. *)
Definition withKeys (w : World)
    (generate : Z -> result PrivateKey)
    (convert : PrivateKey -> result bytes) : World :=
  {| k8s_NewInClusterClient := k8s_NewInClusterClient w;
     core_GetSecret := core_GetSecret w;
     rsa_GenerateKey := generate;
     pkcs8_ConvertPrivateKeyToPKCS8 := convert;
     x509_MarshalPKCS1PrivateKey := x509_MarshalPKCS1PrivateKey w;
     pem_EncodeToMemory := pem_EncodeToMemory w;
     path_Join := path_Join w;
     ioutil_WriteFile := ioutil_WriteFile w;
     net_ParseIP := net_ParseIP w;
     x509_CreateCertificateRequest := x509_CreateCertificateRequest w;
     certs_GetCertificateSigningRequest := certs_GetCertificateSigningRequest w;
     certs_CreateCertificateSigningRequest := certs_CreateCertificateSigningRequest w;
     ioutil_ReadFile := ioutil_ReadFile w |}.

Definition noEntropy : World :=
  withKeys (sampleWorld noSecret approving)
    (fun _ => Err "too few primes of given length to generate an RSA key")
    (fun _ => Ok [x30; x82]).

(** A world with another client bootstrap and request signer. *)
Definition withCluster (w : World)
    (client : result unit)
    (sign : x509.CertificateRequest -> PrivateKey -> result bytes) : World :=
  {| k8s_NewInClusterClient := client;
     core_GetSecret := core_GetSecret w;
     rsa_GenerateKey := rsa_GenerateKey w;
     pkcs8_ConvertPrivateKeyToPKCS8 := pkcs8_ConvertPrivateKeyToPKCS8 w;
     x509_MarshalPKCS1PrivateKey := x509_MarshalPKCS1PrivateKey w;
     pem_EncodeToMemory := pem_EncodeToMemory w;
     path_Join := path_Join w;
     ioutil_WriteFile := ioutil_WriteFile w;
     net_ParseIP := net_ParseIP w;
     x509_CreateCertificateRequest := sign;
     certs_GetCertificateSigningRequest := certs_GetCertificateSigningRequest w;
     certs_CreateCertificateSigningRequest := certs_CreateCertificateSigningRequest w;
     ioutil_ReadFile := ioutil_ReadFile w |}.

Definition outsideCluster : World :=
  withCluster (sampleWorld noSecret approving)
    (Err "unable to load in-cluster configuration") (fun _ _ => Ok [x30; x80]).

Definition brokenSigner : World :=
  withCluster (sampleWorld noSecret approving)
    (Ok tt) (fun _ _ => Err "x509: unsupported signature algorithm").

(** * Properties *)

(** ** Strings *)

Lemma prefix_byte (c a : ascii) (s : string) :
  String.prefix (String c EmptyString) (String a s) = Ascii.eqb c a.
Proof.
  simpl. destruct (ascii_dec c a) as [->|Hne].
  - rewrite Ascii.eqb_refl. destruct s; reflexivity.
  - symmetry. apply Ascii.eqb_neq. exact Hne.
Qed.

Lemma replaceLoop_dots (fuel : nat) (s : string) (n : Z) :
  (String.length s <= fuel)%nat -> n < 0 ->
  gostrings.replaceLoop fuel s "." "-" n = dotsToDashes s.
Proof.
  revert s n. induction fuel as [|fuel IH]; intros s n Hlen Hn.
  - destruct s; simpl in *; [reflexivity | lia].
  - destruct s as [|c s]; [reflexivity|].
    cbn [gostrings.replaceLoop dotsToDashes].
    destruct (Z.eqb_spec n 0) as [->|_]; [lia|].
    rewrite prefix_byte. rewrite (Ascii.eqb_sym "."%char c).
    simpl in Hlen.
    destruct (Ascii.eqb c ".") eqn:Hc.
    + cbn [String.length gostrings.drop]. rewrite IH by lia. reflexivity.
    + rewrite IH by lia. reflexivity.
Qed.

Lemma Replace_dots (s : string) : gostrings.Replace s "." "-" (-1) = dotsToDashes s.
Proof.
  unfold gostrings.Replace. cbn [String.eqb Ascii.eqb orb Z.eqb].
  change (String.eqb "." "-") with false. cbn.
  apply replaceLoop_dots; lia.
Qed.

Lemma splitLoop_byte (c : ascii) (fuel : nat) (s : string) :
  (String.length s <= fuel)%nat ->
  gostrings.splitLoop fuel s (String c EmptyString) = splitByte c s.
Proof.
  revert s. induction fuel as [|fuel IH]; intros s Hlen.
  - destruct s; simpl in *; [reflexivity | lia].
  - destruct s as [|a s]; [reflexivity|].
    cbn [gostrings.splitLoop splitByte]. rewrite prefix_byte.
    simpl in Hlen. cbn [String.length gostrings.drop].
    rewrite IH by lia. reflexivity.
Qed.

Lemma Split_byte (c : ascii) (s : string) :
  gostrings.Split s (String c EmptyString) = splitByte c s.
Proof. unfold gostrings.Split. apply splitLoop_byte. lia. Qed.

Lemma splitByte_absent (c : ascii) (s : string) :
  hasByte c s = false -> splitByte c s = [s].
Proof.
  induction s as [|a s IH]; [reflexivity|]. simpl.
  destruct (Ascii.eqb c a); [discriminate|]. simpl.
  intros H. rewrite (IH H). reflexivity.
Qed.

Lemma splitByte_present (c : ascii) (s : string) :
  hasByte c s = true -> exists x y rest, splitByte c s = x :: y :: rest.
Proof.
  induction s as [|a s IH]; [discriminate|]. simpl.
  destruct (Ascii.eqb c a); simpl.
  - intros _. destruct (splitByte c s) as [|y rest] eqn:Hs.
    + destruct s; simpl in Hs; [discriminate|].
      destruct (Ascii.eqb c a0); [discriminate|].
      destruct (splitByte c s); discriminate.
    + eauto.
  - intros H. destruct (IH H) as (x & y & rest & ->). eauto.
Qed.

(** An entry survives [s[0], s[1]] exactly when it contains ['=']. *)
Lemma Split_eq_index1 (n : string) :
  is_Some (gostrings.Split n "=" !! 1%nat) <-> hasByte "=" n = true.
Proof.
  rewrite Split_byte. split.
  - intros [y Hy]. destruct (hasByte "=" n) eqn:Hb; [reflexivity|].
    rewrite (splitByte_absent _ _ Hb) in Hy. discriminate.
  - intros Hb. destruct (splitByte_present _ _ Hb) as (x & y & rest & ->).
    simpl. eauto.
Qed.

Lemma splitLoop_index0 (fuel : nat) (s sep : string) :
  is_Some (gostrings.splitLoop fuel s sep !! 0%nat).
Proof.
  destruct fuel as [|fuel]; destruct s as [|a s]; cbn [gostrings.splitLoop];
    try (simpl; eauto; fail).
  destruct (String.prefix sep (String a s)); [simpl; eauto|].
  destruct (gostrings.splitLoop fuel s sep); simpl; eauto.
Qed.

Lemma Split_index0 (n sep : string) : sep <> "" -> is_Some (gostrings.Split n sep !! 0%nat).
Proof.
  intros Hsep. unfold gostrings.Split. destruct sep as [|c sep]; [congruence|].
  apply splitLoop_index0.
Qed.

Lemma labelsLoop_safe_iff (entries : list string) (m : gmap string string) :
  is_Some (labelsLoop entries m) <-> forallb labelEntryOk entries = true.
Proof.
  revert m. induction entries as [|n rest IH]; intros m.
  - simpl. split; eauto.
  - cbn [labelsLoop forallb]. unfold labelEntryOk at 1.
    destruct (String.eqb n "") eqn:Hn; [apply IH|]. cbn [orb].
    destruct (hasByte "=" n) eqn:Hb.
    + apply Split_eq_index1 in Hb as [key Hkey].
      destruct (Split_index0 n "=") as [label Hlabel]; [discriminate|].
      rewrite Hlabel, Hkey. cbn [andb].
      destruct (String.eqb label ""); apply IH.
    + assert (gostrings.Split n "=" !! 1%nat = None) as Hnone.
      { destruct (gostrings.Split n "=" !! 1%nat) eqn:H1; [|reflexivity].
        assert (hasByte "=" n = true) by (apply Split_eq_index1; eauto). congruence. }
      rewrite Hnone. cbn [andb].
      destruct (gostrings.Split n "=" !! 0%nat); split;
        first [intros [? ?]; discriminate | discriminate].
Qed.

Lemma dotsToDashes_length (s : string) :
  String.length (dotsToDashes s) = String.length s.
Proof. induction s as [|c s IH]; simpl; [reflexivity | rewrite IH; reflexivity]. Qed.

Lemma dotsToDashes_no_dot (s : string) : hasByte "." (dotsToDashes s) = false.
Proof.
  induction s as [|c s IH]; [reflexivity|]. cbn [dotsToDashes hasByte]. rewrite IH.
  destruct (Ascii.eqb c ".") eqn:Hc; [reflexivity|].
  rewrite (Ascii.eqb_sym "."%char c), Hc. reflexivity.
Qed.

(** C6: the pod domain name is the IP with dots replaced by dashes followed
    by [.{namespace}.pod.{clusterDomain}], and the service domain name is
    [{name}.{namespace}.svc.{clusterDomain}]; the two examples of the spec
    evaluate as stated. *)
Theorem C6_domain_names :
  (forall ip ns domain : string,
      podDomainName ip ns domain = dotsToDashes ip +:+ "." +:+ ns +:+ ".pod." +:+ domain)
  /\ (forall name ns domain : string,
      serviceDomainName name ns domain = name +:+ "." +:+ ns +:+ ".svc." +:+ domain)
  /\ podDomainName "10.1.2.3" "default" "cluster.local"
     = "10-1-2-3.default.pod.cluster.local"
  /\ serviceDomainName "web" "default" "cluster.local" = "web.default.svc.cluster.local".
Proof.
  repeat split.
  intros ip ns domain. unfold podDomainName. rewrite Replace_dots. reflexivity.
Qed.

(** ** The DNS names and the Common Name *)

Lemma appendLoop_spec (g : string -> string) (l acc : list string) :
  fold_left (fun (dnsNames : list string) n =>
               if String.eqb n "" then dnsNames else dnsNames ++ [g n]) l acc
  = acc ++ map g (List.filter (fun n => negb (String.eqb n "")) l).
Proof.
  revert acc. induction l as [|n l IH]; intros acc; simpl.
  - rewrite app_nil_r. reflexivity.
  - rewrite IH. destruct (String.eqb n ""); simpl; [reflexivity|].
    rewrite <- app_assoc. reflexivity.
Qed.

(** Steps 1-4 of the identity resolver: the default names, then the
    additional names verbatim, then one name per service. *)
Lemma gatherDNSNames_spec (f : Flags) :
  gatherDNSNames f
  = defaultDNSNames (headlessNameAsCN f) (podIP f) (hostname f) (subdomain f)
                    (namespace f) (clusterDomain f)
    ++ entries (additionalDNSNames f)
    ++ map (fun n => serviceDomainName n (namespace f) (clusterDomain f))
           (entries (serviceNames f)).
Proof.
  unfold gatherDNSNames, entries.
  rewrite (appendLoop_spec (fun n => serviceDomainName n (namespace f) (clusterDomain f))).
  rewrite (appendLoop_spec (fun n => n)). rewrite map_id, <- app_assoc. reflexivity.
Qed.

Lemma eqb_empty_false (s : string) : s <> "" -> String.eqb s "" = false.
Proof. intros H. apply String.eqb_neq. exact H. Qed.

(** C5: the DNS list is never empty and the Common Name of the request is
    its index 0; with [headlessNameAsCN] and a derivable headless name that
    name is at index 0 and the pod domain name follows at index 1; without
    the flag the pod domain name is at index 0 and a derivable headless
    name follows at index 1. *)
Theorem C5_common_name (f : Flags) (ipaddresses : list net.IP) :
  let pod := podDomainName (podIP f) (namespace f) (clusterDomain f) in
  let headless :=
    hostname f +:+ "." +:+ subdomain f +:+ "." +:+ namespace f +:+ ".svc."
      +:+ clusterDomain f in
  exists t : x509.CertificateRequest,
    certificateRequestTemplate f (gatherDNSNames f) ipaddresses = Some t
    /\ x509.DNSNames t = gatherDNSNames f
    /\ (1 <= length (x509.DNSNames t))%nat
    /\ x509.DNSNames t !! 0%nat = Some (pkix.CommonName (x509.Subject t))
    /\ (headlessNameAsCN f = true -> hostname f <> "" -> subdomain f <> "" ->
        x509.DNSNames t !! 0%nat = Some headless
        /\ x509.DNSNames t !! 1%nat = Some pod)
    /\ (headlessNameAsCN f = false ->
        x509.DNSNames t !! 0%nat = Some pod
        /\ (hostname f <> "" -> subdomain f <> "" ->
            x509.DNSNames t !! 1%nat = Some headless)).
Proof.
  intros pod headless.
  assert (exists d rest, gatherDNSNames f = d :: rest) as (d & rest & Hd).
  { rewrite gatherDNSNames_spec. unfold defaultDNSNames.
    destruct (negb (String.eqb (hostname f) "") && negb (String.eqb (subdomain f) ""))%bool;
      [destruct (headlessNameAsCN f)|]; simpl; eauto. }
  unfold certificateRequestTemplate. rewrite Hd. simpl.
  eexists. split; [reflexivity|]. simpl.
  split; [reflexivity|]. split; [lia|]. split; [reflexivity|].
  rewrite gatherDNSNames_spec in Hd. unfold defaultDNSNames in Hd.
  split.
  - intros Hcn Hh Hs. unfold podHeadlessDomainName in Hd.
    rewrite Hcn, (eqb_empty_false _ Hh), (eqb_empty_false _ Hs) in Hd.
    simpl in Hd. injection Hd as <- <-. split; reflexivity.
  - intros Hcn. rewrite Hcn in Hd. split.
    + destruct (negb (String.eqb (hostname f) "") && negb (String.eqb (subdomain f) ""))%bool;
        simpl in Hd; injection Hd as <- _; reflexivity.
    + intros Hh Hs. unfold podHeadlessDomainName in Hd.
      rewrite (eqb_empty_false _ Hh), (eqb_empty_false _ Hs) in Hd.
      simpl in Hd. injection Hd as _ <-. reflexivity.
Qed.

Lemma C5_common_name_witness :
  gatherDNSNames headlessFlags
  = ["h.s.n.svc.d"; "10-1-2-3.n.pod.d"; "extra.example.com"; "web.n.svc.d"]
  /\ exists t, certificateRequestTemplate headlessFlags (gatherDNSNames headlessFlags) [] = Some t
               /\ pkix.CommonName (x509.Subject t) = "h.s.n.svc.d".
Proof.
  split; [reflexivity|].
  destruct (C5_common_name headlessFlags []) as (t & Ht & _ & _ & Hcn & Hh & _).
  exists t. split; [exact Ht|].
  destruct Hh as [H0 _]; [reflexivity | discriminate | discriminate |].
  rewrite H0 in Hcn. injection Hcn as <-. reflexivity.
Defined.

(** ** Label parsing *)

(** C8: the label loop indexes [s[1]] safely exactly when every non-empty
    entry contains ['=']; an entry without ['='] splits into a single
    element, so that index 1 is out of range and the run panics. *)
Theorem C8_label_index :
  (forall f : Flags,
      is_Some (gatherLabels f)
      <-> forallb labelEntryOk (gostrings.Split (labels f) ",") = true)
  /\ (forall n : string, hasByte "=" n = false -> gostrings.Split n "=" = [n])
  /\ gostrings.Split "app" "=" !! 1%nat = None
  /\ gatherLabels (withLabels fsFlags "app") = None
  /\ snd (run (sampleWorld noSecret approving) (withLabels fsFlags "app") 1)
     = Some (Panic "runtime error: index out of range [1] with length 1").
Proof.
  split; [intros f; apply labelsLoop_safe_iff|].
  split; [intros n Hn; rewrite Split_byte; apply splitByte_absent; exact Hn|].
  repeat split; reflexivity.
Qed.

(** ** Reasoning about the phases of [main] *)

Ltac unfold_calls :=
  unfold Sleep, NewInClusterClient, GetSecret, GenerateKey,
    WriteFile, CreateCertificateRequest, DeleteCertificateSigningRequest,
    GetCertificateSigningRequest, CreateCertificateSigningRequest, ReadFile,
    UpdateSecret in *;
  unfold bind, ret, halt, blocked, emit in *;
  cbn beta iota in *.

Ltac split_cases :=
  repeat match goal with
    | H : (_, _) = (_, _) |- _ => inversion H; subst; clear H
    | H : context [match ?x with _ => _ end] |- _ => destruct x eqn:?
    | H : context [if ?x then _ else _] |- _ => destruct x eqn:?
    end.

Lemma adds_refl (s : state) : adds s s [].
Proof. unfold adds. rewrite app_nil_r. reflexivity. Qed.

Lemma adds_trans (s1 s2 s3 : state) (e1 e2 : list event) :
  adds s1 s2 e1 -> adds s2 s3 e2 -> adds s1 s3 (e1 ++ e2).
Proof. unfold adds. intros H1 H2. rewrite H2, H1, app_assoc. reflexivity. Qed.

Lemma preflight_adds (w : World) (f : Flags) (fuel : nat) (s s' : state)
    (r : step apiv1.Secret) :
  preflight w f fuel s = (s', r) ->
  exists evs, adds s s' evs /\ Forall (fun e => isSecretWait e = true) evs.
Proof.
  revert s. induction fuel as [|fuel IH]; intros s H; cbn [preflight] in H.
  - unfold_calls. split_cases. exists []. split; [apply adds_refl | constructor].
  - unfold bind at 1 in H. unfold GetSecret in H.
    destruct (core_GetSecret w (secretCalls s) (secretName f) (namespace f)) as [ks|e].
    + exists [EvGetSecret (secretName f) (namespace f)].
      unfold_calls. split_cases; (split; [reflexivity | repeat constructor]).
    + unfold bind at 1 in H. unfold Sleep, emit in H.
      apply IH in H as (evs & Hadds & Hall).
      exists ([EvGetSecret (secretName f) (namespace f); EvSleep (5 * Second)] ++ evs).
      split.
      * unfold adds in *. rewrite Hadds. simpl. rewrite <- !app_assoc. reflexivity.
      * repeat constructor. exact Hall.
Qed.

Lemma preflight_keeps (w : World) (f : Flags) (fuel : nat) (s s' : state)
    (ks : apiv1.Secret) :
  preflight w f fuel s = (s', Next ks) ->
  exists n, core_GetSecret w n (secretName f) (namespace f) = Ok ks
            /\ is_Some (missingFile (apiv1.Data ks)).
Proof.
  revert s. induction fuel as [|fuel IH]; intros s H; cbn [preflight] in H.
  - unfold_calls. split_cases.
  - unfold bind at 1 in H. unfold GetSecret in H.
    destruct (core_GetSecret w (secretCalls s) (secretName f) (namespace f)) as [ks'|e] eqn:Hget.
    + unfold_calls. unfold apiv1.GetData in H. split_cases. eauto.
    + unfold bind at 1 in H. unfold Sleep, emit in H. eapply IH. exact H.
Qed.

Lemma prelude_adds (w : World) (f : Flags) (fuel : nat) (s s' : state)
    (r : step (string * option apiv1.Secret)) :
  prelude w f fuel s = (s', r) ->
  exists evs, adds s s' evs /\ Forall (fun e => fromPrelude e = true) evs.
Proof.
  unfold prelude. intros H.
  unfold bind at 1 in H. unfold NewInClusterClient in H.
  unfold bind at 1 in H. unfold emit, ret in H.
  destruct (k8s_NewInClusterClient w).
  2:{ unfold_calls. split_cases. exists [EvNewInClusterClient].
      split; [reflexivity | repeat constructor]. }
  destruct (negb (String.eqb (certDir f) "") && negb (String.eqb (secretName f) ""))%bool.
  { unfold_calls. split_cases. exists [EvNewInClusterClient].
    split; [reflexivity | repeat constructor]. }
  destruct (negb (String.eqb (secretName f) "")).
  - unfold bind at 1 in H. unfold bind at 1 in H.
    match type of H with context [preflight w f fuel ?s0] =>
      destruct (preflight w f fuel s0) as [s1 r1] eqn:Hp end.
    apply preflight_adds in Hp as (evs & Hadds & Hall).
    exists ([EvNewInClusterClient] ++ evs). split.
    + assert (trace s' = trace s1) as Hs'
          by (unfold_calls; destruct r1; split_cases; reflexivity).
      unfold adds in *. rewrite Hs', Hadds. simpl. rewrite <- app_assoc. reflexivity.
    + constructor; [reflexivity|].
      eapply Forall_impl; [exact Hall|]. intros [] ?; simpl in *; congruence.
  - unfold_calls. split_cases. exists [EvNewInClusterClient].
    split; [reflexivity | repeat constructor].
Qed.

Lemma prelude_keeps (w : World) (f : Flags) (fuel : nat) (s s' : state)
    (dir : string) (ks : apiv1.Secret) :
  prelude w f fuel s = (s', Next (dir, Some ks)) ->
  secretName f <> ""
  /\ exists n, core_GetSecret w n (secretName f) (namespace f) = Ok ks
               /\ is_Some (missingFile (apiv1.Data ks)).
Proof.
  unfold prelude. intros H.
  unfold bind at 1 in H. unfold NewInClusterClient in H.
  unfold bind at 1 in H. unfold emit, ret in H.
  destruct (k8s_NewInClusterClient w); [|discriminate].
  destruct (negb (String.eqb (certDir f) "") && negb (String.eqb (secretName f) ""))%bool;
    [discriminate|].
  destruct (String.eqb (secretName f) "") eqn:Hname; cbn [negb] in H.
  - discriminate.
  - split; [intros Heq; rewrite Heq in Hname; discriminate|].
    unfold bind at 1 in H. unfold bind at 1 in H.
    match type of H with context [preflight w f fuel ?s0] =>
      destruct (preflight w f fuel s0) as [s1 r1] eqn:Hp end.
    destruct r1; try discriminate. injection H as _ _ ->.
    eapply preflight_keeps. exact Hp.
Qed.

Lemma prelude_filesystem (w : World) (f : Flags) (fuel : nat) (s s' : state)
    (p : string * option apiv1.Secret) :
  prelude w f fuel s = (s', Next p) -> secretName f = "" -> snd p = None.
Proof.
  unfold prelude. intros H Hname. rewrite Hname in H. simpl in H.
  rewrite andb_false_r in H. unfold_calls. split_cases. reflexivity.
Qed.

Lemma keyPhase_adds (w : World) (f : Flags) (dir : string) (s s' : state)
    (r : step (PrivateKey * bytes)) :
  keyPhase w f dir s = (s', r) ->
  exists evs, adds s s' evs /\ Forall (fun e => fromKeyPhase e = true) evs
              /\ (forall k, r = Next k -> In (EvGenerateKey (keysize f)) evs).
Proof.
  unfold keyPhase. intros H. unfold_calls.
  destruct (rsa_GenerateKey w (keysize f)) as [key|e].
  2:{ split_cases. eexists [_]. split; [reflexivity|].
      split; [repeat constructor | discriminate]. }
  destruct (pkcs8Format f).
  - destruct (pkcs8_ConvertPrivateKeyToPKCS8 w key).
    2:{ split_cases. eexists [_]. split; [reflexivity|].
        split; [repeat constructor | discriminate]. }
    destruct (String.eqb (secretName f) "").
    + destruct (ioutil_WriteFile w _ _ _); split_cases;
        (eexists [_; _]; split; [unfold adds; simpl; rewrite <- app_assoc; reflexivity|];
         split; [repeat constructor | intros; left; reflexivity]).
    + split_cases. eexists [_]. split; [reflexivity|].
      split; [repeat constructor | intros; left; reflexivity].
  - destruct (String.eqb (secretName f) "").
    + destruct (ioutil_WriteFile w _ _ _); split_cases;
        (eexists [_; _]; split; [unfold adds; simpl; rewrite <- app_assoc; reflexivity|];
         split; [repeat constructor | intros; left; reflexivity]).
    + split_cases. eexists [_]. split; [reflexivity|].
      split; [repeat constructor | intros; left; reflexivity].
Qed.

(** ** Configuration errors *)

(** C7: with both a certificate directory and a secret name the run is
    fatal right after the client is created: nothing is generated, signed,
    written or requested. *)
Theorem C7_both_sinks_fatal (w : World) (f : Flags) (fuel : nat) :
  certDir f <> "" -> secretName f <> "" ->
  exists msg,
    run w f fuel = ([EvNewInClusterClient], Some (Fatal msg))
    /\ (forall u, k8s_NewInClusterClient w = Ok u ->
        msg = "-cert-dir and -secret-name does not make sense together").
Proof.
  intros Hdir Hname. unfold run, main, prelude. unfold_calls. cbn.
  rewrite (eqb_empty_false _ Hdir), (eqb_empty_false _ Hname). cbn.
  destruct (k8s_NewInClusterClient w) as [u|e]; eexists; (split; [reflexivity|]).
  - reflexivity.
  - discriminate.
Qed.

Lemma C7_both_sinks_fatal_witness :
  run (sampleWorld noSecret approving) (withSinks fsFlags "/certs" "tls") 3
  = ([EvNewInClusterClient],
     Some (Fatal "-cert-dir and -secret-name does not make sense together")).
Proof.
  destruct (C7_both_sinks_fatal (sampleWorld noSecret approving)
              (withSinks fsFlags "/certs" "tls") 3) as (msg & Hrun & Hmsg);
    [discriminate | discriminate |].
  rewrite Hrun, (Hmsg tt eq_refl). reflexivity.
Defined.

Lemma invalidIP_nil : invalidIP [] = true.
Proof. reflexivity. Qed.

Lemma serviceIPLoop_unparsable (w : World) (s : string) (l : list string)
    (acc : list net.IP) :
  In s (List.filter (fun n => negb (String.eqb n "")) l) ->
  net_ParseIP w s = [] ->
  serviceIPLoop w l acc = None.
Proof.
  intros Hin Hnil. revert acc. induction l as [|n l IH]; intros acc; [destruct Hin|].
  cbn [serviceIPLoop List.filter] in *.
  destruct (String.eqb n ""); cbn [negb] in Hin; [apply IH; exact Hin|].
  destruct Hin as [->|Hin].
  - rewrite Hnil, invalidIP_nil. reflexivity.
  - destruct (invalidIP (net_ParseIP w n)); [reflexivity | apply IH; exact Hin].
Qed.

Lemma gatherIPs_unparsable (w : World) (f : Flags) :
  unparsable w f ->
  exists msg, gatherIPs w f = Err msg
              /\ (msg = "invalid pod IP address" \/ msg = "invalid service IP address").
Proof.
  unfold gatherIPs. intros [Hpod | (s & Hin & Hnil)].
  - rewrite Hpod, invalidIP_nil. eauto.
  - destruct (invalidIP (net_ParseIP w (podIP f))); [eauto|].
    rewrite (serviceIPLoop_unparsable w s _ _ Hin Hnil). eauto.
Qed.

(** With an unparsable literal [main] is its first two phases, the label
    loop and the fatal error. *)
Lemma main_unparsable (w : World) (f : Flags) (fuel : nat) (msg : string) :
  gatherIPs w f = Err msg ->
  main w f fuel initial
  = match prelude w f fuel initial with
    | (s1, Next p) =>
        match keyPhase w f (fst p) s1 with
        | (s2, Next k) =>
            match gatherLabels f with
            | None => (s2, Halt (Panic "runtime error: index out of range [1] with length 1"))
            | Some _ => (s2, Halt (Fatal msg))
            end
        | (s2, Halt o) => (s2, Halt o)
        | (s2, Blocked) => (s2, Blocked)
        end
    | (s1, Halt o) => (s1, Halt o)
    | (s1, Blocked) => (s1, Blocked)
    end.
Proof.
  intros Hips. unfold main. unfold bind at 1.
  destruct (prelude w f fuel initial) as [s1 [p|o|]]; try reflexivity.
  unfold bind at 1.
  destruct (keyPhase w f (fst p) s1) as [s2 [k|o|]]; try reflexivity.
  rewrite Hips. destruct (gatherLabels f); reflexivity.
Qed.

(** C1, as the code has it: with an unparsable pod or service IP literal no
    run builds or signs a certificate request or calls the
    certificate-signing-request API; a run that gets through the prelude,
    the key phase and the label loop ends in the fatal invalid-IP error,
    and by then the RSA key has been generated. *)
Theorem C1_unparsable_ip (w : World) (f : Flags) (fuel : nat) :
  unparsable w f ->
  Forall (fun e => isRequestWork e = false) (fst (run w f fuel))
  /\ (forall s1 p s2 k labelsMap,
         prelude w f fuel initial = (s1, Next p) ->
         keyPhase w f (fst p) s1 = (s2, Next k) ->
         gatherLabels f = Some labelsMap ->
         exists msg,
           run w f fuel = (trace s2, Some (Fatal msg))
           /\ (msg = "invalid pod IP address" \/ msg = "invalid service IP address")
           /\ In (EvGenerateKey (keysize f)) (trace s2)).
Proof.
  intros Hbad. destruct (gatherIPs_unparsable w f Hbad) as (msg & Hips & Hmsg).
  pose proof (main_unparsable w f fuel msg Hips) as Hmain.
  split.
  - unfold run. rewrite Hmain.
    destruct (prelude w f fuel initial) as [s1 r1] eqn:Hpre.
    apply prelude_adds in Hpre as (e1 & Hadds1 & Hall1).
    assert (Forall (fun e => isRequestWork e = false) (trace s1)) as Hs1.
    { unfold adds in Hadds1. rewrite Hadds1. simpl.
      eapply Forall_impl; [exact Hall1|]. intros [] ?; simpl in *; congruence. }
    destruct r1 as [p|o|]; try exact Hs1.
    destruct (keyPhase w f (fst p) s1) as [s2 r2] eqn:Hkey.
    apply keyPhase_adds in Hkey as (e2 & Hadds2 & Hall2 & _).
    assert (Forall (fun e => isRequestWork e = false) (trace s2)) as Hs2.
    { unfold adds in Hadds2. rewrite Hadds2. apply Forall_app. split; [exact Hs1|].
      eapply Forall_impl; [exact Hall2|]. intros [] ?; simpl in *; congruence. }
    destruct r2 as [k|o|]; try exact Hs2.
    destruct (gatherLabels f); exact Hs2.
  - intros s1 p s2 k labelsMap Hpre Hkey Hlabels. exists msg.
    unfold run. rewrite Hmain, Hpre, Hkey, Hlabels.
    split; [reflexivity|]. split; [exact Hmsg|].
    apply keyPhase_adds in Hkey as (e2 & Hadds2 & _ & Hgen).
    unfold adds in Hadds2. rewrite Hadds2. apply in_or_app. right.
    apply (Hgen k). reflexivity.
Qed.

Lemma C1_unparsable_ip_witness :
  unparsable (sampleWorld noSecret approving) (withPodIP fsFlags "10.0.0.500")
  /\ Forall (fun e => isRequestWork e = false)
            (fst (run (sampleWorld noSecret approving) (withPodIP fsFlags "10.0.0.500") 1))
  /\ exists msg,
       snd (run (sampleWorld noSecret approving) (withPodIP fsFlags "10.0.0.500") 1)
       = Some (Fatal msg)
       /\ In (EvGenerateKey 2048)
             (fst (run (sampleWorld noSecret approving) (withPodIP fsFlags "10.0.0.500") 1)).
Proof.
  assert (unparsable (sampleWorld noSecret approving) (withPodIP fsFlags "10.0.0.500"))
    as Hbad by (left; reflexivity).
  destruct (C1_unparsable_ip _ _ 1 Hbad) as [Hquiet Hfatal].
  split; [exact Hbad|]. split; [exact Hquiet|].
  edestruct Hfatal as (msg & Hrun & _ & Hgen).
  - vm_compute. reflexivity.
  - vm_compute. reflexivity.
  - vm_compute. reflexivity.
  - exists msg. rewrite Hrun. split; [reflexivity | exact Hgen].
Defined.

(** C1 as stated fails: in secret-store mode with the pod IP literal
    [nope], the run fetches the secret from the control plane and generates
    the RSA key before it aborts on the literal. *)
Lemma C1_counterexample :
  net_ParseIP (sampleWorld (holding ∅) approving) (podIP (withPodIP secretFlags "nope")) = []
  /\ run (sampleWorld (holding ∅) approving) (withPodIP secretFlags "nope") 1
     = ([EvNewInClusterClient; EvGetSecret "tls" "ns1"; EvGenerateKey 2048],
        Some (Fatal "invalid pod IP address")).
Proof. split; reflexivity. Qed.

(** ** The secret preflight gate *)

Lemma missingFile_None (data : gmap string bytes) :
  missingFile data = None <-> forall file, In file requiredFiles -> is_Some (data !! file).
Proof.
  unfold missingFile, requiredFiles. cbn [find]. split.
  - intros H file Hin.
    destruct (data !! "tls.key") eqn:H1; [|discriminate].
    destruct (data !! "tls.crt") eqn:H2; [|discriminate].
    destruct (data !! "ca.crt") eqn:H3; [|discriminate].
    destruct Hin as [<-|[<-|[<-|[]]]]; eauto.
  - intros H.
    destruct (H "tls.key") as [? ->]; [simpl; tauto|].
    destruct (H "tls.crt") as [? ->]; [simpl; tauto|].
    destruct (H "ca.crt") as [? ->]; [simpl; tauto|]. reflexivity.
Qed.

Lemma state_ext (s1 s2 : state) :
  trace s1 = trace s2 -> secretCalls s1 = secretCalls s2 -> csrCalls s1 = csrCalls s2 ->
  s1 = s2.
Proof. destruct s1, s2. simpl. intros -> -> ->. reflexivity. Qed.

(** [n] failed lookups, then the secret: the loop has waited [n] times and
    decides on the secret it found. *)
Lemma preflight_found (w : World) (f : Flags) (n : nat) :
  forall (fuel : nat) (s : state) (ks : apiv1.Secret),
    (n < fuel)%nat ->
    (forall i, (i < n)%nat ->
       exists e, core_GetSecret w (secretCalls s + i) (secretName f) (namespace f) = Err e) ->
    core_GetSecret w (secretCalls s + n) (secretName f) (namespace f) = Ok ks ->
    preflight w f fuel s
    = (advance s (rounds n (EvGetSecret (secretName f) (namespace f))
                    ++ [EvGetSecret (secretName f) (namespace f)]) (S n) 0,
       match missingFile (apiv1.Data ks) with
       | Some _ => Next ks
       | None => Halt (Exit 0)
       end).
Proof.
  induction n as [|n IH]; intros fuel s ks Hfuel Hfail Hok.
  - destruct fuel as [|fuel]; [lia|]. cbn [preflight]. unfold_calls.
    rewrite Nat.add_0_r in Hok. rewrite Hok. unfold apiv1.GetData.
    replace (advance s _ 1 0) with
      {| trace := trace s ++ [EvGetSecret (secretName f) (namespace f)];
         secretCalls := S (secretCalls s); csrCalls := csrCalls s |}.
    + destruct (missingFile (apiv1.Data ks)); reflexivity.
    + unfold advance. simpl. f_equal; lia.
  - destruct fuel as [|fuel]; [lia|]. cbn [preflight]. unfold_calls.
    destruct (Hfail 0%nat) as [e He]; [lia|]. rewrite Nat.add_0_r in He. rewrite He.
    rewrite (IH fuel _ ks); cbn [secretCalls csrCalls trace].
    + f_equal. unfold advance, rounds. cbn [trace secretCalls csrCalls replicate concat].
      f_equal; [|lia..]. rewrite <- !app_assoc. reflexivity.
    + lia.
    + intros i Hi. destruct (Hfail (S i)) as [e' He']; [lia|].
      exists e'. rewrite <- He'. f_equal. lia.
    + rewrite <- Hok. f_equal. lia.
Qed.

(** The fast path of the gate: the first secret found has the three keys. *)
Lemma preflight_complete_run (w : World) (f : Flags) (fuel n : nat) (u : unit)
    (ks : apiv1.Secret) :
  k8s_NewInClusterClient w = Ok u ->
  certDir f = "" -> secretName f <> "" ->
  (n < fuel)%nat ->
  (forall i, (i < n)%nat ->
     exists e, core_GetSecret w i (secretName f) (namespace f) = Err e) ->
  core_GetSecret w n (secretName f) (namespace f) = Ok ks ->
  missingFile (apiv1.Data ks) = None ->
  run w f fuel
  = (EvNewInClusterClient
       :: rounds n (EvGetSecret (secretName f) (namespace f))
       ++ [EvGetSecret (secretName f) (namespace f)],
     Some (Exit 0)).
Proof.
  intros Hclient Hdir Hname Hfuel Hfail Hok Hfull.
  unfold run, main, prelude.
  unfold bind at 1. unfold bind at 1. unfold NewInClusterClient.
  unfold bind at 1. unfold emit, ret. rewrite Hclient.
  rewrite Hdir, (eqb_empty_false _ Hname). cbn [String.eqb negb andb].
  unfold bind at 1. unfold bind at 1.
  erewrite (preflight_found w f n fuel _ ks); [|exact Hfuel|exact Hfail|exact Hok].
  rewrite Hfull. reflexivity.
Qed.

Lemma rounds_secret_quiet (n : nat) (name ns : string) :
  Forall (fun e => isKeyGeneration e = false /\ isRequestWork e = false)
         (rounds n (EvGetSecret name ns)).
Proof.
  induction n as [|n IH]; [constructor|].
  unfold rounds. cbn [replicate concat]. repeat constructor. exact IH.
Qed.

(** C4: in secret-store mode, when the secret that is found holds non-empty
    values under [tls.key], [tls.crt] and [ca.crt], the run exits with
    status 0 right after that lookup; no key is generated and the
    certificate-signing-request API is not called. *)
Theorem C4_provisioned_secret_exits (w : World) (f : Flags) (fuel n : nat) (u : unit)
    (ks : apiv1.Secret) :
  k8s_NewInClusterClient w = Ok u ->
  certDir f = "" -> secretName f <> "" ->
  (n < fuel)%nat ->
  (forall i, (i < n)%nat ->
     exists e, core_GetSecret w i (secretName f) (namespace f) = Err e) ->
  core_GetSecret w n (secretName f) (namespace f) = Ok ks ->
  (forall file, In file ["tls.key"; "tls.crt"; "ca.crt"] ->
     exists v, apiv1.Data ks !! file = Some v /\ v <> []) ->
  run w f fuel
  = (EvNewInClusterClient
       :: rounds n (EvGetSecret (secretName f) (namespace f))
       ++ [EvGetSecret (secretName f) (namespace f)],
     Some (Exit 0))
  /\ Forall (fun e => isKeyGeneration e = false /\ isRequestWork e = false)
            (fst (run w f fuel)).
Proof.
  intros Hclient Hdir Hname Hfuel Hfail Hok Hdata.
  assert (missingFile (apiv1.Data ks) = None) as Hfull.
  { apply missingFile_None. intros file Hin.
    destruct (Hdata file Hin) as (v & Hv & _). eauto. }
  rewrite (preflight_complete_run w f fuel n u ks) by assumption.
  split; [reflexivity|]. cbn [fst].
  constructor; [split; reflexivity|].
  apply Forall_app. split; [apply rounds_secret_quiet | repeat constructor].
Qed.

Lemma C4_provisioned_secret_exits_witness :
  run (sampleWorld (appearing provisioned) approving) secretFlags 2
  = ([EvNewInClusterClient; EvGetSecret "tls" "ns1"; EvSleep 5000000000;
      EvGetSecret "tls" "ns1"],
     Some (Exit 0)).
Proof.
  refine (proj1 (C4_provisioned_secret_exits
                   (sampleWorld (appearing provisioned) approving) secretFlags 2 1 tt
                   (secretWith provisioned) _ _ _ _ _ _ _)).
  - reflexivity.
  - reflexivity.
  - discriminate.
  - lia.
  - intros i Hi. destruct i; [eexists; reflexivity | lia].
  - reflexivity.
  - intros file [<-|[<-|[<-|[]]]]; eexists; (split; [vm_compute; reflexivity | discriminate]).
Defined.

(** C9: the gate looks at the keys only: whenever the secret that is found
    has [tls.key], [tls.crt] and [ca.crt] among the keys of its data, the
    run exits with status 0 right after that lookup, whatever the values
    are, the empty byte string included. *)
Theorem C9_presence_only (w : World) (f : Flags) (fuel n : nat) (u : unit)
    (ks : apiv1.Secret) :
  k8s_NewInClusterClient w = Ok u ->
  certDir f = "" -> secretName f <> "" ->
  (n < fuel)%nat ->
  (forall i, (i < n)%nat ->
     exists e, core_GetSecret w i (secretName f) (namespace f) = Err e) ->
  core_GetSecret w n (secretName f) (namespace f) = Ok ks ->
  (forall file, In file ["tls.key"; "tls.crt"; "ca.crt"] ->
     is_Some (apiv1.Data ks !! file)) ->
  run w f fuel
  = (EvNewInClusterClient
       :: rounds n (EvGetSecret (secretName f) (namespace f))
       ++ [EvGetSecret (secretName f) (namespace f)],
     Some (Exit 0)).
Proof.
  intros Hclient Hdir Hname Hfuel Hfail Hok Hkeys.
  apply (preflight_complete_run w f fuel n u ks); try assumption.
  apply missingFile_None. exact Hkeys.
Qed.

Lemma C9_presence_only_witness :
  (forall file, In file ["tls.key"; "tls.crt"; "ca.crt"] -> emptyValues !! file = Some [])
  /\ run (sampleWorld (holding emptyValues) approving) secretFlags 1
     = ([EvNewInClusterClient; EvGetSecret "tls" "ns1"], Some (Exit 0)).
Proof.
  assert (forall file, In file ["tls.key"; "tls.crt"; "ca.crt"] ->
                       emptyValues !! file = Some []) as Hempty.
  { intros file [<-|[<-|[<-|[]]]]; vm_compute; reflexivity. }
  split; [exact Hempty|].
  refine (C9_presence_only (sampleWorld (holding emptyValues) approving) secretFlags 1 0 tt
            (secretWith emptyValues) _ _ _ _ _ _ _).
  - reflexivity.
  - reflexivity.
  - discriminate.
  - lia.
  - intros i Hi. lia.
  - reflexivity.
  - intros file Hin. simpl. rewrite (Hempty file Hin). eauto.
Defined.

(** ** The signing-request client *)

(** The client deletes the request of the given name, whatever is
    there, and looks it up.  When the lookup succeeds it goes on to the
    poll loop with nothing created; when it fails it creates the request
    and then polls; when the creation fails the run is fatal there, with no
    further call. *)
Lemma start_sequence (w : World) (name : string)
    (csr : certificates.CertificateSigningRequest) (fuel : nat) (s : state) :
  signingRequestClient w name csr fuel s
  = match certs_GetCertificateSigningRequest w (csrCalls s) name with
    | Ok _ =>
        poll w name fuel
             (advance s [EvDeleteCertificateSigningRequest name;
                         EvGetCertificateSigningRequest name] 0 1)
    | Err _ =>
        let s' := advance s [EvDeleteCertificateSigningRequest name;
                             EvGetCertificateSigningRequest name;
                             EvCreateCertificateSigningRequest csr] 0 1 in
        match certs_CreateCertificateSigningRequest w csr with
        | Ok _ => poll w name fuel s'
        | Err err =>
            (s', Halt (Fatal ("unable to create the certificate signing request: " +:+ err)))
        end
    end.
Proof.
  unfold signingRequestClient, submit. unfold_calls. cbn [trace secretCalls csrCalls].
  destruct (certs_GetCertificateSigningRequest w (csrCalls s) name) as [found|e].
  - f_equal. apply state_ext; cbn; rewrite <- ?app_assoc; [reflexivity | lia | lia].
  - destruct (certs_CreateCertificateSigningRequest w csr) as [created|err]; cbn zeta;
      f_equal; apply state_ext; cbn; rewrite <- ?app_assoc; [reflexivity | lia | lia
                                                            |reflexivity | lia | lia].
Qed.

(** The poll loop returns on a fetched request exactly when the request has
    a first condition of type [Approved] and more than one byte of
    certificate. *)
Lemma inspect_Issued_iff (csr : certificates.CertificateSigningRequest)
    (certificate : bytes) :
  inspect csr = Issued certificate
  <-> exists st c rest,
        certificates.Status csr = Some st
        /\ certificates.Conditions st = c :: rest
        /\ certificates.Type_ c = Some "Approved"
        /\ certificates.Certificate st = certificate
        /\ (1 < length certificate)%nat.
Proof.
  unfold inspect, certificates.GetConditions, certificates.GetStatus.
  destruct (certificates.Status csr) as [st|].
  2:{ simpl. split; [discriminate | intros (? & ? & ? & ? & _); discriminate]. }
  destruct (certificates.Conditions st) as [|c rest] eqn:Hc.
  { simpl. split; [discriminate | intros (? & ? & ? & [= <-] & ? & _); congruence]. }
  change (0 <? length (c :: rest))%nat with true.
  change ((c :: rest) !! 0%nat) with (Some c). cbn match.
  destruct (certificates.Type_ c) as [t|] eqn:Ht.
  2:{ split; [discriminate|].
      intros (? & ? & ? & [= <-] & Hc' & Ht' & _). congruence. }
  destruct (String.eqb_spec t "Approved") as [->|Hne].
  - destruct (Nat.ltb_spec 1 (length (certificates.Certificate st))) as [Hlen|Hlen].
    + split.
      * intros [= <-]. exists st, c, rest. auto.
      * intros (? & ? & ? & [= <-] & _ & _ & <- & _). reflexivity.
    + split; [discriminate|].
      intros (? & ? & ? & [= <-] & _ & _ & <- & ?). lia.
  - split; [discriminate|].
    intros (? & ? & ? & [= <-] & Hc' & Ht' & _). congruence.
Qed.

(** It waits on a request without conditions, with a first condition of
    another type, or with an approved first condition and at most one byte
    of certificate. *)
Lemma inspect_Retry_iff (csr : certificates.CertificateSigningRequest) :
  inspect csr = Retry
  <-> certificates.GetConditions (certificates.GetStatus csr) = []
      \/ exists st c rest t,
           certificates.Status csr = Some st
           /\ certificates.Conditions st = c :: rest
           /\ certificates.Type_ c = Some t
           /\ (t <> "Approved" \/ (length (certificates.Certificate st) <= 1)%nat).
Proof.
  unfold inspect, certificates.GetConditions, certificates.GetStatus.
  destruct (certificates.Status csr) as [st|].
  2:{ simpl. split; [auto | reflexivity]. }
  destruct (certificates.Conditions st) as [|c rest] eqn:Hc.
  { simpl. split; [auto | reflexivity]. }
  change (0 <? length (c :: rest))%nat with true.
  change ((c :: rest) !! 0%nat) with (Some c). cbn match.
  destruct (certificates.Type_ c) as [t|] eqn:Ht.
  2:{ split; [discriminate|].
      intros [? | (? & ? & ? & ? & [= <-] & Hc' & Ht' & _)]; congruence. }
  destruct (String.eqb_spec t "Approved") as [->|Hne].
  - destruct (Nat.ltb_spec 1 (length (certificates.Certificate st))) as [Hlen|Hlen].
    + split; [discriminate|].
      intros [? | (? & ? & ? & ? & [= <-] & Hc' & Ht' & [Hn|Hn])];
        [discriminate | congruence | lia].
    + split; [|reflexivity]. intros _. right. exists st, c, rest, "Approved". auto.
  - split; [|reflexivity]. intros _. right. exists st, c, rest, t. auto.
Qed.

(** It panics exactly on a request whose first condition has no type. *)
Lemma inspect_Crash_iff (csr : certificates.CertificateSigningRequest) (msg : string) :
  inspect csr = Crash msg
  <-> msg = nilDereference
      /\ exists st c rest,
           certificates.Status csr = Some st
           /\ certificates.Conditions st = c :: rest
           /\ certificates.Type_ c = None.
Proof.
  unfold inspect, certificates.GetConditions, certificates.GetStatus.
  destruct (certificates.Status csr) as [st|].
  2:{ simpl. split; [discriminate | intros (_ & ? & ? & ? & ? & _); discriminate]. }
  destruct (certificates.Conditions st) as [|c rest] eqn:Hc.
  { simpl. split; [discriminate | intros (_ & ? & ? & ? & [= <-] & ? & _); congruence]. }
  change (0 <? length (c :: rest))%nat with true.
  change ((c :: rest) !! 0%nat) with (Some c). cbn match.
  destruct (certificates.Type_ c) as [t|] eqn:Ht.
  - split.
    + destruct (String.eqb t "Approved"); [|discriminate].
      destruct (1 <? length (certificates.Certificate st))%nat; discriminate.
    + intros (_ & ? & ? & ? & [= <-] & Hc' & Ht'). congruence.
  - split.
    + intros [= <-]. split; [reflexivity|]. exists st, c, rest. auto.
    + intros [-> _]. reflexivity.
Qed.

(** [n] lookups that make the loop wait, then a request that is issued:
    the loop returns its certificate after [n] waits of five seconds. *)
Lemma poll_issued_after (w : World) (name : string) (n : nat) :
  forall (fuel : nat) (s : state) (csr : certificates.CertificateSigningRequest)
         (certificate : bytes),
    (n < fuel)%nat ->
    (forall i, (i < n)%nat ->
       pendingAnswer (certs_GetCertificateSigningRequest w (csrCalls s + i) name)) ->
    certs_GetCertificateSigningRequest w (csrCalls s + n) name = Ok csr ->
    inspect csr = Issued certificate ->
    poll w name fuel s
    = (advance s (rounds n (EvGetCertificateSigningRequest name)
                    ++ [EvGetCertificateSigningRequest name]) 0 (S n),
       Next certificate).
Proof.
  induction n as [|n IH]; intros fuel s csr certificate Hfuel Hwait Hok Hissued.
  - destruct fuel as [|fuel]; [lia|]. cbn [poll]. unfold_calls.
    rewrite Nat.add_0_r in Hok. rewrite Hok, Hissued. f_equal.
    apply state_ext; cbn; [reflexivity | lia | lia].
  - destruct fuel as [|fuel]; [lia|].
    assert (poll w name (S fuel) s
            = poll w name fuel
                (advance s [EvGetCertificateSigningRequest name; EvSleep (5 * Second)] 0 1))
      as ->.
    { cbn [poll]. unfold_calls. pose proof (Hwait 0%nat ltac:(lia)) as H0.
      rewrite Nat.add_0_r in H0. unfold pendingAnswer in H0.
      destruct (certs_GetCertificateSigningRequest w (csrCalls s) name) as [c|e];
        [rewrite H0|]; f_equal; apply state_ext; cbn; rewrite <- ?app_assoc;
        first [reflexivity | lia]. }
    rewrite (IH fuel _ csr certificate); cbn [csrCalls advance].
    + f_equal. apply state_ext; cbn; [|lia|lia].
      unfold rounds. cbn [replicate concat]. rewrite <- !app_assoc. reflexivity.
    + lia.
    + intros i Hi. replace (csrCalls s + 1 + i)%nat with (csrCalls s + S i)%nat by lia.
      apply Hwait. lia.
    + replace (csrCalls s + 1 + n)%nat with (csrCalls s + S n)%nat by lia. exact Hok.
    + exact Hissued.
Qed.

(** No number of rounds ends the wait: as long as the lookups fail or stay
    pending the loop is still waiting, after any number of iterations. *)
Lemma poll_waits (w : World) (name : string) (fuel : nat) :
  forall s : state,
    (forall i, (i < fuel)%nat ->
       pendingAnswer (certs_GetCertificateSigningRequest w (csrCalls s + i) name)) ->
    poll w name fuel s
    = (advance s (rounds fuel (EvGetCertificateSigningRequest name)) 0 fuel, Blocked).
Proof.
  induction fuel as [|fuel IH]; intros s Hwait.
  - cbn [poll]. unfold blocked. f_equal.
    apply state_ext; cbn; [rewrite app_nil_r; reflexivity | lia | lia].
  - assert (poll w name (S fuel) s
            = poll w name fuel
                (advance s [EvGetCertificateSigningRequest name; EvSleep (5 * Second)] 0 1))
      as ->.
    { cbn [poll]. unfold_calls. pose proof (Hwait 0%nat ltac:(lia)) as H0.
      rewrite Nat.add_0_r in H0. unfold pendingAnswer in H0.
      destruct (certs_GetCertificateSigningRequest w (csrCalls s) name) as [c|e];
        [rewrite H0|]; f_equal; apply state_ext; cbn; rewrite <- ?app_assoc;
        first [reflexivity | lia]. }
    rewrite IH; cbn [csrCalls advance].
    + f_equal. apply state_ext; cbn; [|lia|lia].
      unfold rounds. cbn [replicate concat]. rewrite <- !app_assoc. reflexivity.
    + intros i Hi. replace (csrCalls s + 1 + i)%nat with (csrCalls s + S i)%nat by lia.
      apply Hwait. lia.
Qed.

(** The threshold of line 305 is two bytes: an approved request with a
    one-byte certificate is sent back for another round. *)
Example one_byte_certificate_retried :
  inspect (fetched [condition (Some "Approved")] [x2d]) = Retry
  /\ inspect (fetched [condition (Some "Approved")] [x2d; x2d]) = Issued [x2d; x2d]
  /\ inspect (fetched [condition (Some "Denied")] certBytes) = Retry
  /\ inspect (fetched [] certBytes) = Retry.
Proof. repeat split; reflexivity. Qed.

(** C3 at the input on which the code leaves it: a fetched request whose
    first condition has no type is neither returned nor retried; the
    dereference of the nil type pointer (line 303) panics. *)
Theorem C3_untyped_condition_panics :
  inspect (fetched [condition None] certBytes) = Crash nilDereference
  /\ poll (sampleWorld noSecret untyped) "app-ns1" 3 (advance initial [] 0 1)
     = (advance initial [EvGetCertificateSigningRequest "app-ns1"] 0 2,
        Halt (Panic nilDereference))
  /\ snd (run (sampleWorld noSecret untyped) fsFlags 3) = Some (Panic nilDereference).
Proof. repeat split; reflexivity. Qed.

(** ** A small program logic for the trace *)

Section Emits.
Context {A B : Type} (P : event -> Prop).

Lemma emits_ret (Q : A -> Prop) (a : A) : Q a -> emits P Q (ret a).
Proof.
  intros Ha s s' r [= <- <-]. split.
  - exists []. split; [apply adds_refl | constructor].
  - intros a' [= <-]. exact Ha.
Qed.

Lemma emits_halt (Q : A -> Prop) (o : outcome) : emits P Q (halt o).
Proof.
  intros s s' r [= <- <-]. split.
  - exists []. split; [apply adds_refl | constructor].
  - discriminate.
Qed.

Lemma emits_blocked (Q : A -> Prop) : emits P Q blocked.
Proof.
  intros s s' r [= <- <-]. split.
  - exists []. split; [apply adds_refl | constructor].
  - discriminate.
Qed.

Lemma emits_bind (Q : A -> Prop) (R : B -> Prop) (m : M A) (k : A -> M B) :
  emits P Q m -> (forall a, Q a -> emits P R (k a)) -> emits P R (bind m k).
Proof.
  intros Hm Hk s s' r H. unfold bind in H.
  destruct (m s) as [s1 r1] eqn:Hms.
  destruct (Hm _ _ _ Hms) as [(e1 & Hadds1 & Hall1) Hq].
  destruct r1 as [a|o|].
  - destruct (Hk a (Hq a eq_refl) _ _ _ H) as [(e2 & Hadds2 & Hall2) Hr].
    split; [|exact Hr]. exists (e1 ++ e2).
    split; [eapply adds_trans; eassumption | apply Forall_app; auto].
  - injection H as <- <-. split; [eauto | discriminate].
  - injection H as <- <-. split; [eauto | discriminate].
Qed.

Lemma emits_weaken (Q Q' : A -> Prop) (m : M A) :
  emits P Q m -> (forall a, Q a -> Q' a) -> emits P Q' m.
Proof.
  intros Hm Himp s s' r H. destruct (Hm _ _ _ H) as [He Hq].
  split; [exact He | intros a Ha; apply Himp, Hq, Ha].
Qed.
End Emits.

Lemma emits_emit (P : event -> Prop) (e : event) :
  P e -> emits P (fun _ => True) (emit e).
Proof.
  intros He s s' r [= <- <-]. split; [|trivial].
  exists [e]. split; [reflexivity | repeat constructor; exact He].
Qed.

Lemma emits_call {A : Type} (P : event -> Prop) (e : event) (a : A) :
  P e -> emits P (fun r => r = a) (emit e ;; ret a).
Proof.
  intros He. eapply emits_bind; [apply emits_emit; exact He|].
  intros _ _. apply emits_ret. reflexivity.
Qed.

Lemma emits_GetCertificateSigningRequest (P : event -> Prop) (w : World) (name : string) :
  P (EvGetCertificateSigningRequest name) ->
  emits P (fun _ => True) (GetCertificateSigningRequest w name).
Proof.
  intros He s s' r [= <- <-]. split; [|trivial].
  eexists [_]. split; [reflexivity | repeat constructor; exact He].
Qed.

Lemma poll_emits (P : event -> Prop) (w : World) (name : string) (fuel : nat) :
  P (EvGetCertificateSigningRequest name) -> P (EvSleep (5 * Second)) ->
  emits P (fun _ => True) (poll w name fuel).
Proof.
  intros Hget Hsleep. induction fuel as [|fuel IH]; cbn [poll].
  - apply emits_blocked.
  - eapply emits_bind; [apply emits_GetCertificateSigningRequest; exact Hget|].
    intros [csr|e] _.
    + destruct (inspect csr).
      * apply emits_ret. trivial.
      * eapply emits_bind; [apply emits_emit; exact Hsleep | intros; exact IH].
      * apply emits_halt.
    + eapply emits_bind; [apply emits_emit; exact Hsleep | intros; exact IH].
Qed.

Lemma requestPhase_emits (P : event -> Prop) (w : World) (f : Flags) (dir : string)
    (template : x509.CertificateRequest) (key : PrivateKey) :
  P (EvCreateCertificateRequest template key) ->
  (forall filename data perm, P (EvWriteFile filename data perm)) ->
  emits P (fun _ => True) (requestPhase w f dir template key).
Proof.
  intros Hsign Hwrite. unfold requestPhase, CreateCertificateRequest.
  eapply emits_bind; [apply emits_call; exact Hsign|].
  intros [certificateRequest|err] _; [|apply emits_halt].
  eapply emits_bind with (Q := fun _ => True); [|intros; apply emits_ret; trivial].
  destruct (String.eqb (secretName f) ""); [|apply emits_ret; trivial].
  unfold WriteFile.
  eapply emits_bind; [apply emits_call; apply Hwrite|].
  intros [err|] _; [apply emits_halt | apply emits_ret; trivial].
Qed.

Lemma signingRequestClient_emits (P : event -> Prop) (w : World) (name : string)
    (csr : certificates.CertificateSigningRequest) (fuel : nat) :
  P (EvDeleteCertificateSigningRequest name) ->
  P (EvGetCertificateSigningRequest name) ->
  P (EvCreateCertificateSigningRequest csr) ->
  P (EvSleep (5 * Second)) ->
  emits P (fun _ => True) (signingRequestClient w name csr fuel).
Proof.
  intros Hdelete Hget Hcreate Hsleep.
  unfold signingRequestClient, submit, DeleteCertificateSigningRequest,
    CreateCertificateSigningRequest.
  eapply emits_bind with (Q := fun _ => True).
  - eapply emits_bind; [apply emits_emit; exact Hdelete|].
    intros _ _.
    eapply emits_bind; [apply emits_GetCertificateSigningRequest; exact Hget|].
    intros [found|e] _; [apply emits_ret; trivial|].
    eapply emits_bind; [apply emits_call; exact Hcreate|].
    intros [created|err] _; [apply emits_ret; trivial | apply emits_halt].
  - intros _ _. apply poll_emits; assumption.
Qed.

Lemma deliver_emits (P : event -> Prop) (w : World) (f : Flags) (dir : string)
    (secret : option apiv1.Secret) (pemKeyBytes certificate : bytes) :
  (forall filename data perm, P (EvWriteFile filename data perm)) ->
  P (EvDeleteCertificateSigningRequest (certificateSigningRequestName f)) ->
  P (EvReadFile serviceAccountCA) ->
  (forall ks k8sCrt,
      secret = Some ks -> ioutil_ReadFile w serviceAccountCA = Ok k8sCrt ->
      P (EvUpdateSecret (withStringData ks (stringData pemKeyBytes certificate k8sCrt)))) ->
  emits P (fun _ : unit => True) (deliver w f dir secret pemKeyBytes certificate).
Proof.
  intros Hwrite Hdelete Hread Hupdate.
  unfold deliver, WriteFile, DeleteCertificateSigningRequest, ReadFile, UpdateSecret.
  eapply emits_bind with (Q := fun _ => True).
  { destruct (String.eqb (secretName f) ""); [|apply emits_ret; trivial].
    eapply emits_bind; [apply emits_call; apply Hwrite|].
    intros [err|] _; [apply emits_halt | apply emits_ret; trivial]. }
  intros _ _.
  eapply emits_bind; [apply emits_emit; exact Hdelete|].
  intros _ _.
  eapply emits_bind with (Q := fun _ => True); [|intros; apply emits_halt].
  destruct secret as [ks|]; [|apply emits_ret; trivial].
  eapply emits_bind; [apply emits_call; exact Hread|].
  intros r ->.
  destruct (ioutil_ReadFile w serviceAccountCA) as [k8sCrt|err] eqn:Hr; [|apply emits_halt].
  apply emits_emit. apply Hupdate; reflexivity.
Qed.

(** The phases after the IP addresses never update a secret, except for the
    one update of [deliver]. *)
Lemma issue_emits (w : World) (f : Flags) (fuel : nat) (dir : string)
    (secret : option apiv1.Secret) (key : PrivateKey) (pemKeyBytes : bytes)
    (labelsMap : gmap string string) (ipaddresses : list net.IP) :
  emits (updateShape w secret pemKeyBytes) (fun _ => True)
        (issue w f fuel dir secret key pemKeyBytes labelsMap ipaddresses).
Proof.
  assert (forall e, isRequestWork e = true \/ fromKeyPhase e = true \/ isSecretWait e = true ->
                    updateShape w secret pemKeyBytes e) as Hother.
  { intros e He u ->. simpl in He. intuition discriminate. }
  unfold issue. destruct (certificateRequestTemplate _ _ _) as [template|];
    [|apply emits_halt].
  eapply emits_bind.
  { apply requestPhase_emits; intros; apply Hother; simpl; auto. }
  intros certificateRequestBytes _.
  eapply emits_bind.
  { apply signingRequestClient_emits; apply Hother; simpl; auto. }
  intros certificate _.
  apply deliver_emits; try (intros; apply Hother; simpl; auto; fail).
  - intros u; discriminate.
  - intros ks k8sCrt -> Hread u [= <-]. exists ks, certificate, k8sCrt. auto.
Qed.

Lemma stringData_dom (pemKeyBytes certificate k8sCrt : bytes) :
  dom (stringData pemKeyBytes certificate k8sCrt)
  = ({["tls.key"; "tls.crt"; "ca.crt"]} : gset string).
Proof.
  unfold stringData. rewrite !dom_insert_L, dom_empty_L. set_solver.
Qed.

Lemma stringData_lookup (pemKeyBytes certificate k8sCrt : bytes) :
  stringData pemKeyBytes certificate k8sCrt !! "tls.key"
    = Some (string_of_list_byte pemKeyBytes)
  /\ stringData pemKeyBytes certificate k8sCrt !! "tls.crt"
    = Some (string_of_list_byte certificate)
  /\ stringData pemKeyBytes certificate k8sCrt !! "ca.crt"
    = Some (string_of_list_byte k8sCrt).
Proof.
  unfold stringData. split; [|split].
  - rewrite !lookup_insert_ne by discriminate. apply lookup_insert_eq.
  - rewrite lookup_insert_ne by discriminate. apply lookup_insert_eq.
  - apply lookup_insert_eq.
Qed.

(** Every update of a secret that a run records is the update of
    [deliver], applied to the secret the preflight kept. *)
Lemma main_updates (w : World) (f : Flags) (fuel : nat) (s' : state) (r : step unit)
    (u : apiv1.Secret) :
  main w f fuel initial = (s', r) ->
  In (EvUpdateSecret u) (trace s') ->
  exists n ks pemKeyBytes certificate k8sCrt,
    secretName f <> ""
    /\ core_GetSecret w n (secretName f) (namespace f) = Ok ks
    /\ ioutil_ReadFile w serviceAccountCA = Ok k8sCrt
    /\ u = withStringData ks (stringData pemKeyBytes certificate k8sCrt).
Proof.
  unfold main. intros H Hin. unfold bind at 1 in H.
  destruct (prelude w f fuel initial) as [s1 r1] eqn:Hpre.
  pose proof (prelude_adds _ _ _ _ _ _ Hpre) as (e1 & Hadds1 & Hall1).
  assert (~ In (EvUpdateSecret u) (trace s1)) as Hs1.
  { unfold adds in Hadds1. rewrite Hadds1. simpl. intros Hin1.
    rewrite List.Forall_forall in Hall1. apply Hall1 in Hin1. discriminate. }
  destruct r1 as [[dir secret]|o|]; [|injection H as <- <-; tauto..].
  unfold bind at 1 in H. cbn [fst snd] in H.
  destruct (keyPhase w f dir s1) as [s2 r2] eqn:Hkey.
  pose proof (keyPhase_adds _ _ _ _ _ _ Hkey) as (e2 & Hadds2 & Hall2 & _).
  assert (~ In (EvUpdateSecret u) (trace s2)) as Hs2.
  { unfold adds in Hadds2. rewrite Hadds2. intros Hin2.
    apply in_app_or in Hin2 as [Hin2|Hin2]; [tauto|].
    rewrite List.Forall_forall in Hall2. apply Hall2 in Hin2. discriminate. }
  destruct r2 as [[key pemKeyBytes]|o|]; [|injection H as <- <-; tauto..].
  cbn [fst snd] in H.
  destruct (gatherLabels f) as [labelsMap|]; [|injection H as <- <-; tauto].
  destruct (gatherIPs w f) as [ipaddresses|msg]; [|injection H as <- <-; tauto].
  destruct (issue_emits w f fuel dir secret key pemKeyBytes labelsMap ipaddresses _ _ _ H)
    as [(e3 & Hadds3 & Hall3) _].
  unfold adds in Hadds3. rewrite Hadds3 in Hin.
  apply in_app_or in Hin as [Hin|Hin]; [tauto|].
  rewrite List.Forall_forall in Hall3.
  destruct (Hall3 _ Hin u eq_refl) as (ks & certificate & k8sCrt & -> & Hread & ->).
  destruct (prelude_keeps _ _ _ _ _ _ _ Hpre) as (Hname & n & Hget & _).
  exists n, ks, pemKeyBytes, certificate, k8sCrt. auto.
Qed.

(** C10: the secret handed to the final update is the object the preflight
    kept, with [StringData] replaced by a map of exactly the three entries
    [tls.key], [tls.crt] and [ca.crt]; its metadata, its data map and its
    type are those of the kept object. *)
Theorem C10_update_frame (w : World) (f : Flags) (fuel : nat) (u : apiv1.Secret) :
  In (EvUpdateSecret u) (fst (run w f fuel)) ->
  exists n ks pemKeyBytes certificate k8sCrt,
    secretName f <> ""
    /\ core_GetSecret w n (secretName f) (namespace f) = Ok ks
    /\ ioutil_ReadFile w serviceAccountCA = Ok k8sCrt
    /\ apiv1.Metadata u = apiv1.Metadata ks
    /\ apiv1.Data u = apiv1.Data ks
    /\ apiv1.Type_ u = apiv1.Type_ ks
    /\ dom (apiv1.StringData u) = ({["tls.key"; "tls.crt"; "ca.crt"]} : gset string)
    /\ apiv1.StringData u !! "tls.key" = Some (string_of_list_byte pemKeyBytes)
    /\ apiv1.StringData u !! "tls.crt" = Some (string_of_list_byte certificate)
    /\ apiv1.StringData u !! "ca.crt" = Some (string_of_list_byte k8sCrt).
Proof.
  unfold run. intros Hin.
  destruct (main w f fuel initial) as [s' r] eqn:Hmain.
  assert (In (EvUpdateSecret u) (trace s')) as Hin' by (destruct r as [|[]|]; exact Hin).
  destruct (main_updates w f fuel s' r u Hmain Hin')
    as (n & ks & pemKeyBytes & certificate & k8sCrt & Hname & Hget & Hread & ->).
  exists n, ks, pemKeyBytes, certificate, k8sCrt.
  destruct (stringData_lookup pemKeyBytes certificate k8sCrt) as (Hk & Hc & Ha).
  repeat (split; [first [assumption | reflexivity | apply stringData_dom]|]).
  exact Ha.
Qed.

Lemma C10_update_frame_witness :
  In (EvUpdateSecret updatedSecret)
     (fst (run (sampleWorld (holding keyOnly) approving) secretFlags 5))
  /\ apiv1.Data updatedSecret = keyOnly
  /\ dom (apiv1.StringData updatedSecret) = ({["tls.key"; "tls.crt"; "ca.crt"]} : gset string).
Proof.
  assert (In (EvUpdateSecret updatedSecret)
             (fst (run (sampleWorld (holding keyOnly) approving) secretFlags 5))) as Hin.
  { vm_compute. repeat (first [left; reflexivity | right]). }
  destruct (C10_update_frame _ _ _ _ Hin)
    as (n & ks & pemKeyBytes & certificate & k8sCrt & _ & _ & _ & _ & _ & _ & Hdom & _).
  split; [exact Hin|]. split; [reflexivity | exact Hdom].
Defined.

(** ** Runs of the examples *)

(** The end-to-end scenario of the specification: pod [app] in [ns1] with
    IP 10.0.0.5, a control plane that approves with the bytes of "CERT". *)
Example end_to_end_filesystem :
  gatherDNSNames fsFlags = ["10-0-0-5.ns1.pod.cluster.local"]
  /\ certificateSigningRequestName fsFlags = "app-ns1"
  /\ snd (run (sampleWorld noSecret approving) fsFlags 3) = Some (Exit 0)
  /\ writtenFiles (fst (run (sampleWorld noSecret approving) fsFlags 3))
     = ["/etc/tls/tls.key"; "/etc/tls/tls.csr"; "/etc/tls/tls.crt"]
  /\ snd (run (sampleWorld noSecret approving) fsFlags 1) = None.
Proof. repeat split; reflexivity. Qed.

Example Split_examples :
  gostrings.Split "a=b,,c" "," = ["a=b"; ""; "c"]
  /\ gostrings.Split "" "," = [""]
  /\ gostrings.Split "a=b=c" "=" = ["a"; "b"; "c"]
  /\ gostrings.Replace "1.2.3.4" "." "-" 2 = "1-2-3.4".
Proof. repeat split; reflexivity. Qed.

Example IP_examples :
  invalidIP (net.IPv4 x0a x00 x00 x05) = false
  /\ net.To4 (net.IPv4 x0a x00 x00 x05) = [x0a; x00; x00; x05]
  /\ net.To16 [x0a; x00; x00; x05] = net.IPv4 x0a x00 x00 x05
  /\ invalidIP [] = true.
Proof. repeat split; reflexivity. Qed.

(** ** No duplicate submission *)

Lemma keeps_ret {A : Type} (a : A) : keepsRequests (ret a).
Proof. intros s s' r [= <- <-]. reflexivity. Qed.

Lemma keeps_halt {A : Type} (o : outcome) : keepsRequests (@halt A o).
Proof. intros s s' r [= <- <-]. reflexivity. Qed.

Lemma keeps_blocked {A : Type} : keepsRequests (@blocked A).
Proof. intros s s' r [= <- <-]. reflexivity. Qed.

Lemma keeps_emit (e : event) : keepsRequests (emit e).
Proof. intros s s' r [= <- <-]. reflexivity. Qed.

Lemma keeps_GetSecret (w : World) (name ns : string) : keepsRequests (GetSecret w name ns).
Proof. intros s s' r [= <- <-]. reflexivity. Qed.

Lemma keeps_bind {A B : Type} (m : M A) (k : A -> M B) :
  keepsRequests m -> (forall a, keepsRequests (k a)) -> keepsRequests (bind m k).
Proof.
  intros Hm Hk s s' r H. unfold bind in H.
  destruct (m s) as [s1 [a|o|]] eqn:Hms.
  - rewrite (Hk a _ _ _ H). exact (Hm _ _ _ Hms).
  - injection H as <- <-. exact (Hm _ _ _ Hms).
  - injection H as <- <-. exact (Hm _ _ _ Hms).
Qed.

Ltac keeps :=
  repeat first
    [ apply keeps_ret | apply keeps_halt | apply keeps_blocked | apply keeps_emit
    | apply keeps_GetSecret | assumption
    | apply keeps_bind; [|intros ?]
    | match goal with
      | |- keepsRequests (match ?x with _ => _ end) => destruct x
      | |- keepsRequests (if ?x then _ else _) => destruct x
      end ].

Lemma preflight_keepsRequests (w : World) (f : Flags) (fuel : nat) :
  keepsRequests (preflight w f fuel).
Proof.
  induction fuel as [|fuel IH]; cbn [preflight]; unfold Sleep, apiv1.GetData; keeps.
Qed.

Lemma prelude_keepsRequests (w : World) (f : Flags) (fuel : nat) :
  keepsRequests (prelude w f fuel).
Proof.
  pose proof (preflight_keepsRequests w f fuel).
  unfold prelude, NewInClusterClient. keeps.
Qed.

Lemma keyPhase_keepsRequests (w : World) (f : Flags) (dir : string) :
  keepsRequests (keyPhase w f dir).
Proof. unfold keyPhase, GenerateKey, WriteFile. keeps. Qed.

Lemma requestPhase_keepsRequests (w : World) (f : Flags) (dir : string)
    (template : x509.CertificateRequest) (key : PrivateKey) :
  keepsRequests (requestPhase w f dir template key).
Proof. unfold requestPhase, CreateCertificateRequest, WriteFile. keeps. Qed.

Lemma created_app (a b : list event) : created (a ++ b) = created a ++ created b.
Proof. apply omap_app. Qed.

Lemma created_none (evs : list event) :
  Forall (fun e => isCreate e = false) evs -> created evs = [].
Proof.
  induction 1 as [|e evs He _ IH]; [reflexivity|].
  unfold created in *. cbn [omap list_omap]. destruct e; try discriminate; exact IH.
Qed.

Lemma created_adds (s s' : state) (evs : list event) :
  adds s s' evs -> Forall (fun e => isCreate e = false) evs ->
  created (trace s') = created (trace s).
Proof.
  unfold adds. intros -> Hall.
  rewrite created_app, (created_none _ Hall), app_nil_r. reflexivity.
Qed.

(** A run submits at most the request it built, only after the first
    lookup of its name failed, and a failed submission is the end of it. *)
Lemma main_created (w : World) (f : Flags) (fuel : nat) (s' : state) (r : step unit) :
  main w f fuel initial = (s', r) ->
  created (trace s') = []
  \/ exists csr e,
       created (trace s') = [csr]
       /\ certs_GetCertificateSigningRequest w 0 (certificateSigningRequestName f) = Err e
       /\ (forall err, certs_CreateCertificateSigningRequest w csr = Err err ->
           r = Halt (Fatal ("unable to create the certificate signing request: " +:+ err))).
Proof.
  assert (forall e, fromPrelude e = true \/ fromKeyPhase e = true
                    \/ (isRequestWork e = true /\ isCreate e = false)
                    \/ isSecretWait e = true -> isCreate e = false) as Hclass.
  { intros [] He; simpl in *; intuition discriminate. }
  unfold main. intros H. unfold bind at 1 in H.
  destruct (prelude w f fuel initial) as [s1 r1] eqn:Hpre.
  pose proof (prelude_keepsRequests _ _ _ _ _ _ Hpre) as Hc1.
  apply prelude_adds in Hpre as (e1 & Hadds1 & Hall1).
  assert (created (trace s1) = []) as Hs1.
  { rewrite (created_adds _ _ _ Hadds1); [reflexivity|].
    eapply Forall_impl; [exact Hall1|]. intros; apply Hclass; auto. }
  destruct r1 as [[dir secret]|o|]; [|injection H as <- <-; auto..].
  unfold bind at 1 in H. cbn [fst snd] in H.
  destruct (keyPhase w f dir s1) as [s2 r2] eqn:Hkey.
  pose proof (keyPhase_keepsRequests _ _ _ _ _ _ Hkey) as Hc2.
  apply keyPhase_adds in Hkey as (e2 & Hadds2 & Hall2 & _).
  assert (created (trace s2) = []) as Hs2.
  { rewrite (created_adds _ _ _ Hadds2); [exact Hs1|].
    eapply Forall_impl; [exact Hall2|]. intros; apply Hclass; auto. }
  destruct r2 as [[key pemKeyBytes]|o|]; [|injection H as <- <-; auto..].
  cbn [fst snd] in H.
  destruct (gatherLabels f) as [labelsMap|]; [|injection H as <- <-; auto].
  destruct (gatherIPs w f) as [ipaddresses|msg]; [|injection H as <- <-; auto].
  unfold issue in H.
  destruct (certificateRequestTemplate _ _ _) as [template|];
    [|injection H as <- <-; auto].
  unfold bind at 1 in H.
  destruct (requestPhase w f dir template key s2) as [s3 r3] eqn:Hreq.
  pose proof (requestPhase_keepsRequests _ _ _ _ _ _ _ _ Hreq) as Hc3.
  apply (requestPhase_emits (fun e => isCreate e = false)) in Hreq
    as [(e3 & Hadds3 & Hall3) _]; [|reflexivity..].
  assert (created (trace s3) = []) as Hs3
      by (rewrite (created_adds _ _ _ Hadds3 Hall3); exact Hs2).
  destruct r3 as [certificateRequestBytes|o|]; [|injection H as <- <-; auto..].
  unfold bind at 1 in H. rewrite start_sequence in H.
  assert (csrCalls s3 = 0%nat) as Hzero by (rewrite Hc3, Hc2, Hc1; reflexivity).
  rewrite Hzero in H.
  set (name := certificateSigningRequestName f) in *.
  set (csr := certificateSigningRequest f labelsMap certificateRequestBytes) in *.
  assert (forall s4 s5 r5,
             (let (s, r) := poll w name fuel s4 in
              match r with
              | Next certificate => deliver w f dir secret pemKeyBytes certificate s
              | Halt o => (s, Halt o)
              | Blocked => (s, Blocked)
              end) = (s5, r5) ->
             created (trace s5) = created (trace s4)) as Hrest.
  { intros s4 s5 r5 H5.
    destruct (poll w name fuel s4) as [s6 r6] eqn:Hpoll.
    apply (poll_emits (fun e => isCreate e = false)) in Hpoll
      as [(e6 & Hadds6 & Hall6) _]; [|reflexivity..].
    pose proof (created_adds _ _ _ Hadds6 Hall6) as H6.
    destruct r6 as [certificate|o|]; [|injection H5 as <- <-; exact H6..].
    apply (deliver_emits (fun e => isCreate e = false)) in H5
      as [(e7 & Hadds7 & Hall7) _]; [|reflexivity..].
    rewrite (created_adds _ _ _ Hadds7 Hall7). exact H6. }
  destruct (certs_GetCertificateSigningRequest w 0 name) as [found|e] eqn:Hget.
  - left. rewrite (Hrest _ _ _ H).
    unfold advance. cbn [trace]. rewrite created_app, Hs3. reflexivity.
  - right. exists csr, e. cbn zeta in H.
    destruct (certs_CreateCertificateSigningRequest w csr) as [ok|err0] eqn:Hcreate.
    + rewrite (Hrest _ _ _ H).
      unfold advance. cbn [trace]. rewrite created_app, Hs3.
      split; [reflexivity|]. split; [reflexivity | discriminate].
    + injection H as <- <-. unfold advance. cbn [trace]. rewrite created_app, Hs3.
      split; [reflexivity|]. split; [reflexivity|]. intros err [= <-]. reflexivity.
Qed.

(** C2: the client deletes the request of the deterministic name, whatever
    is there, and looks it up; a successful lookup leads straight to the
    poll loop with nothing submitted, a failed one to the submission and
    then the poll loop, and a failed submission ends the run with a fatal
    error.  Over a whole run: at most one request is ever submitted, only
    after the first lookup failed, and the run is fatal when that
    submission fails. *)
Theorem C2_start_sequence :
  (forall (w : World) (name : string) (csr : certificates.CertificateSigningRequest)
          (fuel : nat) (s : state),
      signingRequestClient w name csr fuel s
      = match certs_GetCertificateSigningRequest w (csrCalls s) name with
        | Ok _ =>
            poll w name fuel
                 (advance s [EvDeleteCertificateSigningRequest name;
                             EvGetCertificateSigningRequest name] 0 1)
        | Err _ =>
            let s' := advance s [EvDeleteCertificateSigningRequest name;
                                 EvGetCertificateSigningRequest name;
                                 EvCreateCertificateSigningRequest csr] 0 1 in
            match certs_CreateCertificateSigningRequest w csr with
            | Ok _ => poll w name fuel s'
            | Err err =>
                (s', Halt (Fatal ("unable to create the certificate signing request: "
                                    +:+ err)))
            end
        end)
  /\ (forall (w : World) (f : Flags) (fuel : nat),
        created (fst (run w f fuel)) = []
        \/ exists csr e,
             created (fst (run w f fuel)) = [csr]
             /\ certs_GetCertificateSigningRequest w 0 (certificateSigningRequestName f)
                = Err e
             /\ (forall err,
                    certs_CreateCertificateSigningRequest w csr = Err err ->
                    snd (run w f fuel)
                    = Some (Fatal ("unable to create the certificate signing request: "
                                     +:+ err)))).
Proof.
  split; [exact start_sequence|].
  intros w f fuel. unfold run.
  destruct (main w f fuel initial) as [s' r] eqn:Hmain.
  destruct (main_created w f fuel s' r Hmain) as [Hnone | (csr & e & Hone & Hget & Hfatal)].
  - left. destruct r as [|o|]; exact Hnone.
  - right. exists csr, e.
    split; [destruct r as [|o|]; exact Hone|]. split; [exact Hget|].
    intros err Herr. rewrite (Hfatal err Herr). reflexivity.
Qed.

(** A control plane that already knows the request and leaves it pending:
    nothing is submitted and the run is still polling. *)
Example resumed_run_submits_nothing :
  created (fst (run (sampleWorld noSecret (fun _ => Ok (fetched [] []))) fsFlags 4)) = []
  /\ snd (run (sampleWorld noSecret (fun _ => Ok (fetched [] []))) fsFlags 4) = None
  /\ length (created (fst (run (sampleWorld noSecret approving) fsFlags 4))) = 1%nat.
Proof. repeat split; reflexivity. Qed.

(** * Further properties of the code *)

(** ** The identity resolver *)

Lemma append_nonempty_r (a b : string) : b <> "" -> a +:+ b <> "".
Proof. intros Hb. destruct a; simpl; [exact Hb | discriminate]. Qed.

Lemma podDomainName_nonempty (ip ns domain : string) : podDomainName ip ns domain <> "".
Proof. unfold podDomainName. apply append_nonempty_r. discriminate. Qed.

Lemma serviceDomainName_nonempty (name ns domain : string) :
  serviceDomainName name ns domain <> "".
Proof. unfold serviceDomainName. apply append_nonempty_r. discriminate. Qed.

Lemma entries_nonempty (flag n : string) : In n (entries flag) -> n <> "".
Proof.
  unfold entries. intros Hin. apply filter_In in Hin as [_ Hn].
  intros ->. discriminate.
Qed.

(** X1: the DNS names of the request are, in this order, the default names,
    the non-empty entries of [-additional-dnsnames] as they are written, and
    [{name}.{namespace}.svc.{clusterDomain}] for each non-empty entry of
    [-service-names]. *)
Theorem X1_dns_names_order (f : Flags) :
  gatherDNSNames f
  = defaultDNSNames (headlessNameAsCN f) (podIP f) (hostname f) (subdomain f)
                    (namespace f) (clusterDomain f)
    ++ entries (additionalDNSNames f)
    ++ map (fun n => serviceDomainName n (namespace f) (clusterDomain f))
           (entries (serviceNames f)).
Proof. apply gatherDNSNames_spec. Qed.

(** X2: no DNS name of the request is the empty string, whatever the
    flags: empty list entries are skipped and the headless name is only
    built from a non-empty hostname and subdomain. *)
Theorem X2_no_empty_dns_name (f : Flags) (n : string) :
  In n (gatherDNSNames f) -> n <> "".
Proof.
  rewrite gatherDNSNames_spec. intros Hin.
  apply in_app_or in Hin as [Hin|Hin].
  - unfold defaultDNSNames in Hin.
    destruct (String.eqb (hostname f) "") eqn:Hh; cbn [negb andb] in Hin.
    { destruct Hin as [<-|[]]. apply podDomainName_nonempty. }
    destruct (String.eqb (subdomain f) "") eqn:Hs; cbn [negb andb] in Hin.
    { destruct Hin as [<-|[]]. apply podDomainName_nonempty. }
    assert (podHeadlessDomainName (hostname f) (subdomain f) (namespace f) (clusterDomain f)
            <> "") as Hheadless.
    { unfold podHeadlessDomainName. rewrite Hh, Hs. cbn [orb].
      apply append_nonempty_r. discriminate. }
    destruct (headlessNameAsCN f); simpl in Hin;
      destruct Hin as [<-|[<-|[]]]; first [exact Hheadless | apply podDomainName_nonempty].
  - apply in_app_or in Hin as [Hin|Hin].
    + eapply entries_nonempty. exact Hin.
    + apply in_map_iff in Hin as (x & <- & _). apply serviceDomainName_nonempty.
Qed.

Lemma X2_no_empty_dns_name_witness :
  In "web.n.svc.d" (gatherDNSNames headlessFlags) /\ "web.n.svc.d" <> "".
Proof.
  assert (In "web.n.svc.d" (gatherDNSNames headlessFlags)) as Hin
      by (vm_compute; tauto).
  split; [exact Hin | exact (X2_no_empty_dns_name headlessFlags _ Hin)].
Defined.

Lemma serviceIPLoop_spec (w : World) (l : list string) (acc : list net.IP) :
  serviceIPLoop w l acc
  = if forallb (fun s => negb (invalidIP (net_ParseIP w s)))
               (List.filter (fun n => negb (String.eqb n "")) l)
    then Some (acc ++ map (net_ParseIP w) (List.filter (fun n => negb (String.eqb n "")) l))
    else None.
Proof.
  revert acc. induction l as [|s l IH]; intros acc.
  - simpl. rewrite app_nil_r. reflexivity.
  - cbn [serviceIPLoop List.filter]. destruct (String.eqb s ""); cbn [negb]; [apply IH|].
    cbn [forallb map]. destruct (invalidIP (net_ParseIP w s)); cbn [negb andb]; [reflexivity|].
    rewrite IH. rewrite <- app_assoc. reflexivity.
Qed.

(** X3: the IP addresses of the request are the parsed pod IP followed by
    the parsed non-empty entries of [-service-ips], in the order of the
    flag, and they are produced exactly when every one of these literals
    passes the validity check. *)
Theorem X3_ip_addresses (w : World) (f : Flags) (ipaddresses : list net.IP) :
  gatherIPs w f = Ok ipaddresses
  <-> invalidIP (net_ParseIP w (podIP f)) = false
      /\ forallb (fun s => negb (invalidIP (net_ParseIP w s))) (entries (serviceIPs f)) = true
      /\ ipaddresses
         = net_ParseIP w (podIP f) :: map (net_ParseIP w) (entries (serviceIPs f)).
Proof.
  unfold gatherIPs, entries. rewrite serviceIPLoop_spec.
  destruct (invalidIP (net_ParseIP w (podIP f))).
  { split; [discriminate | intros [? _]; discriminate]. }
  destruct (forallb _ _).
  - split.
    + intros [= <-]. auto.
    + intros (_ & _ & ->). reflexivity.
  - split; [discriminate | intros (_ & ? & _); discriminate].
Qed.

(** ** The label flag *)

Lemma hasByte_app (c : ascii) (a b : string) :
  hasByte c (a +:+ b) = (hasByte c a || hasByte c b)%bool.
Proof.
  induction a as [|x a IH]; [reflexivity|]. simpl. rewrite IH, orb_assoc. reflexivity.
Qed.

Lemma splitByte_app_sep (c : ascii) (a b : string) :
  hasByte c a = false -> splitByte c (a +:+ String c b) = a :: splitByte c b.
Proof.
  induction a as [|x a IH]; intros Ha.
  - simpl. rewrite Ascii.eqb_refl. reflexivity.
  - simpl in Ha. apply orb_false_iff in Ha as [Hx Ha].
    simpl. rewrite Hx, (IH Ha). reflexivity.
Qed.

Lemma splitByte_concat (c : ascii) (parts : list string) :
  parts <> [] -> Forall (fun p => hasByte c p = false) parts ->
  splitByte c (String.concat (String c EmptyString) parts) = parts.
Proof.
  intros Hne Hall. induction Hall as [|p parts Hp Hall IH]; [congruence|].
  destruct parts as [|q parts].
  - simpl. apply splitByte_absent. exact Hp.
  - change (String.concat (String c "") (p :: q :: parts))
      with (p +:+ String c (String.concat (String c "") (q :: parts))).
    rewrite (splitByte_app_sep _ _ _ Hp), IH by discriminate. reflexivity.
Qed.

Lemma plain_spec (s : string) :
  plain s = true -> hasByte "," s = false /\ hasByte "=" s = false.
Proof.
  unfold plain. intros H. apply andb_true_iff in H as [H1 H2].
  split; [destruct (hasByte "," s) | destruct (hasByte "=" s)]; auto; discriminate.
Qed.

Lemma labelsLoop_formatted (kvs : list (string * string)) (m : gmap string string) :
  forallb labelPairOk kvs = true ->
  labelsLoop (map (fun kv => fst kv +:+ "=" +:+ snd kv) kvs) m
  = Some (fold_left (fun (m : gmap string string) kv => <[fst kv := snd kv]> m) kvs m).
Proof.
  revert m. induction kvs as [|[k v] kvs IH]; intros m Hok; [reflexivity|].
  cbn [forallb] in Hok. apply andb_true_iff in Hok as [Hkv Hok].
  unfold labelPairOk in Hkv. cbn [fst snd] in Hkv.
  apply andb_true_iff in Hkv as [Hkv Hk]. apply andb_true_iff in Hkv as [Hpk Hpv].
  apply plain_spec in Hpk as [_ Hk_eq]. apply plain_spec in Hpv as [_ Hv_eq].
  cbn [map labelsLoop fold_left fst snd].
  assert (String.eqb (k +:+ "=" +:+ v) "" = false) as ->.
  { apply String.eqb_neq. apply append_nonempty_r. discriminate. }
  rewrite Split_byte.
  change (k +:+ "=" +:+ v) with (k +:+ String "=" v).
  rewrite (splitByte_app_sep _ _ _ Hk_eq), (splitByte_absent _ _ Hv_eq).
  cbn [lookup list_lookup]. destruct (String.eqb k ""); [discriminate|].
  apply IH. exact Hok.
Qed.

Lemma fold_insert_list_to_map (kvs : list (string * string)) :
  fold_left (fun (m : gmap string string) kv => <[fst kv := snd kv]> m) kvs ∅
  = list_to_map (reverse kvs).
Proof.
  induction kvs as [|kv kvs IH] using rev_ind; [reflexivity|].
  rewrite fold_left_app, reverse_app. cbn [fold_left]. rewrite IH.
  destruct kv as [k v]. reflexivity.
Qed.

(** X4: the label flag carries any list of labels: for pairs whose keys and
    values contain neither [','] nor ['='] and whose keys are not empty,
    the text [k1=v1,k2=v2,...] is parsed into the map of these pairs, a
    later pair overriding an earlier one with the same key. *)
Theorem X4_labels_round_trip (f : Flags) (kvs : list (string * string)) :
  forallb labelPairOk kvs = true ->
  labels f = formatLabels kvs ->
  gatherLabels f = Some (list_to_map (reverse kvs)).
Proof.
  intros Hok Hlabels. unfold gatherLabels. rewrite Hlabels.
  destruct kvs as [|kv kvs]; [reflexivity|].
  unfold formatLabels. rewrite Split_byte, splitByte_concat.
  - rewrite (labelsLoop_formatted _ _ Hok). f_equal. apply fold_insert_list_to_map.
  - discriminate.
  - apply Forall_forall. intros p Hin. apply list_elem_of_In, in_map_iff in Hin as ([k v] & <- & Hin).
    rewrite forallb_forall in Hok. specialize (Hok _ Hin).
    unfold labelPairOk in Hok. cbn [fst snd] in *.
    apply andb_true_iff in Hok as [Hok _]. apply andb_true_iff in Hok as [Hpk Hpv].
    apply plain_spec in Hpk as [Hk _]. apply plain_spec in Hpv as [Hv _].
    rewrite !hasByte_app, Hk, Hv. reflexivity.
Qed.

Lemma X4_labels_round_trip_witness :
  exists m : gmap string string,
    gatherLabels (withLabels fsFlags "app=web,tier=db,app=api") = Some m
    /\ m !! "app" = Some "api" /\ m !! "tier" = Some "db" /\ m !! "zone" = None.
Proof.
  exists (list_to_map (reverse [("app", "web"); ("tier", "db"); ("app", "api")])).
  split; [|repeat split; reflexivity].
  apply (X4_labels_round_trip (withLabels fsFlags "app=web,tier=db,app=api")
           [("app", "web"); ("tier", "db"); ("app", "api")]); reflexivity.
Defined.

Lemma labelsLoop_no_empty_key (l : list string) (m m' : gmap string string) :
  m !! "" = None -> labelsLoop l m = Some m' -> m' !! "" = None.
Proof.
  revert m. induction l as [|n l IH]; intros m Hm H; cbn [labelsLoop] in H.
  - injection H as <-. exact Hm.
  - destruct (String.eqb n ""); [eapply IH; eassumption|].
    destruct (gostrings.Split n "=" !! 0%nat) as [label|]; [|discriminate].
    destruct (gostrings.Split n "=" !! 1%nat) as [key|]; [|discriminate].
    destruct (String.eqb_spec label "") as [->|Hne]; [eapply IH; eassumption|].
    eapply IH; [|exact H]. rewrite lookup_insert_ne by exact Hne. exact Hm.
Qed.

(** X5: the empty string is never a label key, and an empty [-labels] flag
    gives the empty map: entries such as [=v] are dropped after the split. *)
Theorem X5_no_empty_label_key (f : Flags) (labelsMap : gmap string string) :
  gatherLabels f = Some labelsMap ->
  labelsMap !! "" = None /\ (labels f = "" -> labelsMap = ∅).
Proof.
  unfold gatherLabels. intros H. split.
  - eapply labelsLoop_no_empty_key; [|exact H]. apply lookup_empty.
  - intros Hempty. rewrite Hempty in H. cbn in H. congruence.
Qed.

Lemma X5_no_empty_label_key_witness :
  exists m : gmap string string,
    gatherLabels (withLabels fsFlags "=x,,a=b") = Some m /\ m !! "" = None
    /\ m !! "a" = Some "b".
Proof.
  eexists. split; [vm_compute; reflexivity|].
  split; [|reflexivity].
  refine (proj1 (X5_no_empty_label_key (withLabels fsFlags "=x,,a=b") _ _)).
  vm_compute. reflexivity.
Defined.

(** ** What the phases record and hand on *)

Lemma emits_GetSecret (P : event -> Prop) (w : World) (name ns : string) :
  P (EvGetSecret name ns) ->
  emits P (fun r => exists n, r = core_GetSecret w n name ns) (GetSecret w name ns).
Proof.
  intros He s s' r [= <- <-]. split.
  - eexists [_]. split; [reflexivity | repeat constructor; exact He].
  - intros a [= <-]. eauto.
Qed.

Lemma emits_lookup (P : event -> Prop) (w : World) (name : string) :
  P (EvGetCertificateSigningRequest name) ->
  emits P (fun r => exists n, r = certs_GetCertificateSigningRequest w n name)
        (GetCertificateSigningRequest w name).
Proof.
  intros He s s' r [= <- <-]. split.
  - eexists [_]. split; [reflexivity | repeat constructor; exact He].
  - intros a [= <-]. eauto.
Qed.

Lemma preflight_emits (P : event -> Prop) (w : World) (f : Flags) (fuel : nat) :
  P (EvGetSecret (secretName f) (namespace f)) -> P (EvSleep (5 * Second)) ->
  emits P (fun ks => exists n, core_GetSecret w n (secretName f) (namespace f) = Ok ks)
        (preflight w f fuel).
Proof.
  intros Hget Hsleep. induction fuel as [|fuel IH]; cbn [preflight].
  - apply emits_blocked.
  - eapply emits_bind; [apply emits_GetSecret; exact Hget|].
    intros r [n ->].
    destruct (core_GetSecret w n (secretName f) (namespace f)) as [ks|e] eqn:Hn.
    + destruct (missingFile _); [apply emits_ret; eauto | apply emits_halt].
    + eapply emits_bind; [apply emits_emit; exact Hsleep | intros; exact IH].
Qed.

Lemma prelude_emits (P : event -> Prop) (w : World) (f : Flags) (fuel : nat) :
  P EvNewInClusterClient ->
  (secretName f <> "" -> P (EvGetSecret (secretName f) (namespace f))) ->
  (secretName f <> "" -> P (EvSleep (5 * Second))) ->
  emits P (fun p => fst p = outputDir f /\ kept w f (snd p)) (prelude w f fuel).
Proof.
  intros Hnew Hget Hsleep. unfold prelude, NewInClusterClient.
  eapply emits_bind; [apply emits_call; exact Hnew|].
  intros r ->. destruct (k8s_NewInClusterClient w); [|apply emits_halt].
  destruct (negb _ && negb _)%bool; [apply emits_halt|].
  destruct (String.eqb_spec (secretName f) "") as [Hname|Hname]; cbn [negb].
  - eapply emits_bind; [apply emits_ret with (Q := fun s => s = None); reflexivity|].
    intros secret ->. apply emits_ret. split; [reflexivity | exact Hname].
  - eapply emits_bind with (Q := fun s => kept w f s).
    + eapply emits_bind; [apply preflight_emits; auto|].
      intros ks Hks. apply emits_ret. split; [exact Hname | exact Hks].
    + intros secret Hs. apply emits_ret. split; [reflexivity | exact Hs].
Qed.

Lemma keyPhase_emits (P : event -> Prop) (w : World) (f : Flags) (dir : string) :
  P (EvGenerateKey (keysize f)) ->
  (secretName f = "" ->
   forall key blk,
     rsa_GenerateKey w (keysize f) = Ok key -> keyBlock w f key = Some blk ->
     P (EvWriteFile (path_Join w dir "tls.key") (pem_EncodeToMemory w blk) 420)) ->
  emits P (fun k => rsa_GenerateKey w (keysize f) = Ok (fst k)
                    /\ exists blk, keyBlock w f (fst k) = Some blk
                                   /\ snd k = pem_EncodeToMemory w blk)
        (keyPhase w f dir).
Proof.
  intros Hgen Hwrite. unfold keyPhase, GenerateKey, WriteFile.
  eapply emits_bind; [apply emits_call; exact Hgen|].
  intros r ->. destruct (rsa_GenerateKey w (keysize f)) as [key|err] eqn:Hkey;
    [|apply emits_halt].
  eapply emits_bind
    with (Q := fun enc => keyBlock w f key
                          = Some {| pem.Type_ := fst enc; pem.Bytes := snd enc |}).
  { unfold keyBlock. destruct (pkcs8Format f).
    - destruct (pkcs8_ConvertPrivateKeyToPKCS8 w key);
        [apply emits_ret; reflexivity | apply emits_halt].
    - apply emits_ret. reflexivity. }
  intros enc Henc.
  eapply emits_bind with (Q := fun _ => True).
  { destruct (String.eqb_spec (secretName f) "") as [Hname|Hname];
      [|apply emits_ret; trivial].
    eapply emits_bind; [apply emits_call; apply (Hwrite Hname key); [reflexivity | exact Henc]|].
    intros [err|] _; [apply emits_halt | apply emits_ret; trivial]. }
  intros _ _. apply emits_ret. cbn [fst snd]. split; [reflexivity|]. eauto.
Qed.

Lemma requestPhase_emits_pem (P : event -> Prop) (w : World) (f : Flags) (dir : string)
    (template : x509.CertificateRequest) (key : PrivateKey) :
  P (EvCreateCertificateRequest template key) ->
  (secretName f = "" ->
   forall der,
     x509_CreateCertificateRequest w template key = Ok der ->
     P (EvWriteFile (path_Join w dir "tls.csr") (requestPEM w der) 420)) ->
  emits P (fun pemBytes => exists der,
               x509_CreateCertificateRequest w template key = Ok der
               /\ pemBytes = requestPEM w der)
        (requestPhase w f dir template key).
Proof.
  intros Hsign Hwrite. unfold requestPhase, CreateCertificateRequest, WriteFile.
  eapply emits_bind; [apply emits_call; exact Hsign|].
  intros r ->.
  destruct (x509_CreateCertificateRequest w template key) as [der|err] eqn:Hder;
    [|apply emits_halt].
  eapply emits_bind with (Q := fun _ => True).
  { destruct (String.eqb_spec (secretName f) "") as [Hname|Hname];
      [|apply emits_ret; trivial].
    eapply emits_bind; [apply emits_call; apply (Hwrite Hname der); reflexivity|].
    intros [err|] _; [apply emits_halt | apply emits_ret; trivial]. }
  intros _ _. apply emits_ret. exists der. split; reflexivity.
Qed.

Lemma poll_emits_issued (P : event -> Prop) (w : World) (name : string) (fuel : nat) :
  P (EvGetCertificateSigningRequest name) -> P (EvSleep (5 * Second)) ->
  emits P (issuedBy w name) (poll w name fuel).
Proof.
  intros Hget Hsleep. induction fuel as [|fuel IH]; cbn [poll].
  - apply emits_blocked.
  - eapply emits_bind; [apply emits_lookup; exact Hget|].
    intros r [n ->].
    destruct (certs_GetCertificateSigningRequest w n name) as [csr|e] eqn:Hn.
    + destruct (inspect csr) eqn:Hcsr.
      * apply emits_ret. exists n, csr. auto.
      * eapply emits_bind; [apply emits_emit; exact Hsleep | intros; exact IH].
      * apply emits_halt.
    + eapply emits_bind; [apply emits_emit; exact Hsleep | intros; exact IH].
Qed.

Lemma signingRequestClient_emits_issued (P : event -> Prop) (w : World) (name : string)
    (csr : certificates.CertificateSigningRequest) (fuel : nat) :
  P (EvDeleteCertificateSigningRequest name) ->
  P (EvGetCertificateSigningRequest name) ->
  P (EvCreateCertificateSigningRequest csr) ->
  P (EvSleep (5 * Second)) ->
  emits P (issuedBy w name) (signingRequestClient w name csr fuel).
Proof.
  intros Hdelete Hget Hcreate Hsleep. unfold signingRequestClient.
  eapply emits_bind with (Q := fun _ => True).
  - unfold submit, DeleteCertificateSigningRequest, CreateCertificateSigningRequest.
    eapply emits_bind; [apply emits_emit; exact Hdelete|].
    intros _ _.
    eapply emits_bind; [apply emits_lookup; exact Hget|].
    intros [found|e] _; [apply emits_ret; trivial|].
    eapply emits_bind; [apply emits_call; exact Hcreate|].
    intros [created|err] _; [apply emits_ret; trivial | apply emits_halt].
  - intros _ _. apply poll_emits_issued; assumption.
Qed.

Lemma deliver_emits_mode (P : event -> Prop) (w : World) (f : Flags) (dir : string)
    (secret : option apiv1.Secret) (pemKeyBytes certificate : bytes) :
  (secretName f = "" -> P (EvWriteFile (path_Join w dir "tls.crt") certificate 420)) ->
  P (EvDeleteCertificateSigningRequest (certificateSigningRequestName f)) ->
  (forall ks, secret = Some ks -> P (EvReadFile serviceAccountCA)) ->
  (forall ks k8sCrt,
      secret = Some ks -> ioutil_ReadFile w serviceAccountCA = Ok k8sCrt ->
      P (EvUpdateSecret (withStringData ks (stringData pemKeyBytes certificate k8sCrt)))) ->
  emits P (fun _ : unit => True) (deliver w f dir secret pemKeyBytes certificate).
Proof.
  intros Hwrite Hdelete Hread Hupdate.
  unfold deliver, WriteFile, DeleteCertificateSigningRequest, ReadFile, UpdateSecret.
  eapply emits_bind with (Q := fun _ => True).
  { destruct (String.eqb_spec (secretName f) "") as [Hname|Hname];
      [|apply emits_ret; trivial].
    eapply emits_bind; [apply emits_call; exact (Hwrite Hname)|].
    intros [err|] _; [apply emits_halt | apply emits_ret; trivial]. }
  intros _ _.
  eapply emits_bind; [apply emits_emit; exact Hdelete|].
  intros _ _.
  eapply emits_bind with (Q := fun _ => True); [|intros; apply emits_halt].
  destruct secret as [ks|]; [|apply emits_ret; trivial].
  eapply emits_bind; [apply emits_call; exact (Hread ks eq_refl)|].
  intros r ->.
  destruct (ioutil_ReadFile w serviceAccountCA) as [k8sCrt|err] eqn:Hr; [|apply emits_halt].
  apply emits_emit. apply Hupdate; reflexivity.
Qed.

(** Every event of [main] is one of the expected ones. *)
Lemma main_expected (w : World) (f : Flags) (fuel : nat) :
  emits (expected w f) (fun _ => True) (main w f fuel).
Proof.
  unfold main.
  eapply emits_bind; [apply prelude_emits; simpl; auto|].
  intros [dir secret] [Hdir Hkept]. cbn [fst snd] in *. subst dir.
  eapply emits_bind.
  { apply keyPhase_emits; [reflexivity|].
    intros Hname key blk Hkey Hblk. simpl.
    split; [exact Hname|]. split; [reflexivity|]. left. split; [reflexivity|]. eauto. }
  intros [key pemKeyBytes] (Hgen & blk & Hblk & Hpem). cbn [fst snd] in *. subst pemKeyBytes.
  destruct (gatherLabels f) as [labelsMap|] eqn:Hlabels; [|apply emits_halt].
  destruct (gatherIPs w f) as [ipaddresses|msg] eqn:Hips; [|apply emits_halt].
  unfold issue.
  destruct (certificateRequestTemplate f (gatherDNSNames f) ipaddresses)
    as [template|] eqn:Htemplate; [|apply emits_halt].
  assert (signedWith w f template key) as Hsigned by (split; eauto).
  eapply emits_bind.
  { apply requestPhase_emits_pem; [exact Hsigned|].
    intros Hname der Hder. simpl.
    split; [exact Hname|]. split; [reflexivity|]. right. left.
    split; [reflexivity|]. exists template, key, der. auto. }
  intros pemBytes (der & Hder & ->).
  eapply emits_bind.
  { apply signingRequestClient_emits_issued; simpl; try reflexivity.
    exists labelsMap, template, key, der. auto. }
  intros certificate Hissued.
  apply deliver_emits_mode.
  - intros Hname. simpl. split; [exact Hname|]. split; [reflexivity|]. right. right.
    split; [reflexivity | exact Hissued].
  - reflexivity.
  - intros ks ->. destruct Hkept as [Hname _]. simpl. auto.
  - intros ks k8sCrt -> Hread. destruct Hkept as [Hname [n Hn]]. simpl.
    split; [exact Hname|]. exists n, ks, key, blk, certificate, k8sCrt.
    repeat (split; [assumption|]). reflexivity.
Qed.

Lemma run_expected (w : World) (f : Flags) (fuel : nat) (e : event) :
  In e (fst (run w f fuel)) -> expected w f e.
Proof.
  unfold run. destruct (main w f fuel initial) as [s' r] eqn:Hmain.
  destruct (main_expected w f fuel _ _ _ Hmain) as [(evs & Hadds & Hall) _].
  unfold adds in Hadds. simpl in Hadds.
  intros Hin. assert (In e evs) as Hin' by (destruct r; rewrite <- Hadds; exact Hin).
  rewrite List.Forall_forall in Hall. exact (Hall e Hin').
Qed.

(** ** What a run never does *)

(** X6: every wait of a run, in the secret preflight and in the poll loop
    alike, is a sleep of exactly five seconds. *)
Theorem X6_every_wait_is_five_seconds (w : World) (f : Flags) (fuel : nat) (d : Z) :
  In (EvSleep d) (fst (run w f fuel)) -> d = 5 * 1000000000.
Proof. intros Hin. exact (run_expected w f fuel _ Hin). Qed.

Lemma X6_every_wait_is_five_seconds_witness :
  In (EvSleep 5000000000) (fst (run (sampleWorld noSecret approving) fsFlags 3))
  /\ 5000000000 = 5 * 1000000000.
Proof.
  assert (In (EvSleep 5000000000) (fst (run (sampleWorld noSecret approving) fsFlags 3)))
    as Hin by (vm_compute; repeat (first [left; reflexivity | right])).
  split; [exact Hin | exact (X6_every_wait_is_five_seconds _ _ _ _ Hin)].
Defined.

(** X7: with a secret name set, no run writes a file; without one, a run
    writes nothing but [tls.key], [tls.csr] and [tls.crt] in the
    certificate directory ([/etc/tls] when the flag is empty), each with
    mode 0644. *)
Theorem X7_files_written (w : World) (f : Flags) (fuel : nat)
    (filename : string) (data : bytes) (perm : Z) :
  In (EvWriteFile filename data perm) (fst (run w f fuel)) ->
  secretName f = ""
  /\ perm = 420
  /\ exists file,
       In file ["tls.key"; "tls.csr"; "tls.crt"]
       /\ filename = path_Join w (if String.eqb (certDir f) "" then "/etc/tls" else certDir f)
                               file.
Proof.
  intros Hin. destruct (run_expected w f fuel _ Hin) as (Hname & Hperm & Hfile).
  split; [exact Hname|]. split; [exact Hperm|].
  destruct Hfile as [[-> _]|[[-> _]|[-> _]]]; eexists; (split; [|reflexivity]); simpl; auto.
Qed.

Lemma X7_files_written_witness :
  In (EvWriteFile "/etc/tls/tls.crt" certBytes 420)
     (fst (run (sampleWorld noSecret approving) fsFlags 3))
  /\ secretName fsFlags = "".
Proof.
  assert (In (EvWriteFile "/etc/tls/tls.crt" certBytes 420)
             (fst (run (sampleWorld noSecret approving) fsFlags 3)))
    as Hin by (vm_compute; repeat (first [left; reflexivity | right])).
  split; [exact Hin | exact (proj1 (X7_files_written _ _ _ _ _ _ Hin))].
Defined.

(** X8: without a secret name, no run looks up or updates a secret or
    reads the service-account CA file. *)
Theorem X8_filesystem_mode_leaves_secrets (w : World) (f : Flags) (fuel : nat) (e : event) :
  secretName f = "" ->
  In e (fst (run w f fuel)) ->
  match e with
  | EvGetSecret _ _ | EvReadFile _ | EvUpdateSecret _ => False
  | _ => True
  end.
Proof.
  intros Hname Hin. pose proof (run_expected w f fuel _ Hin) as He.
  destruct e; simpl in He; try exact I; destruct He as [Hne _]; exact (Hne Hname).
Qed.

Lemma X8_filesystem_mode_leaves_secrets_witness :
  Forall (fun e => match e with
                   | EvGetSecret _ _ | EvReadFile _ | EvUpdateSecret _ => False
                   | _ => True
                   end)
         (fst (run (sampleWorld noSecret approving) fsFlags 3)).
Proof.
  apply List.Forall_forall. intros e Hin.
  exact (X8_filesystem_mode_leaves_secrets _ fsFlags 3 e eq_refl Hin).
Defined.

(** ** What a run sends and stores *)

(** X9: every delete and lookup of a signing request addresses the name
    [{podName}-{namespace}], and a submitted request carries that name, the
    parsed labels, the group [system:authenticated], the four key usages
    and the PEM text of a request the signer returned. *)
Theorem X9_signing_request_calls (w : World) (f : Flags) (fuel : nat) :
  (forall name,
      In (EvDeleteCertificateSigningRequest name) (fst (run w f fuel))
      \/ In (EvGetCertificateSigningRequest name) (fst (run w f fuel)) ->
      name = podName f +:+ "-" +:+ namespace f)
  /\ (forall csr,
         In (EvCreateCertificateSigningRequest csr) (fst (run w f fuel)) ->
         exists labelsMap spec template key der,
           gatherLabels f = Some labelsMap
           /\ certificates.Metadata csr
              = Some {| v1.Name := Some (podName f +:+ "-" +:+ namespace f);
                        v1.Namespace := None;
                        v1.Labels := labelsMap |}
           /\ certificates.Spec csr = Some spec
           /\ certificates.Groups spec = ["system:authenticated"]
           /\ certificates.KeyUsage spec
              = ["digital signature"; "key encipherment"; "server auth"; "client auth"]
           /\ x509_CreateCertificateRequest w template key = Ok der
           /\ certificates.Request spec
              = pem_EncodeToMemory w {| pem.Type_ := "CERTIFICATE REQUEST";
                                        pem.Bytes := der |}).
Proof.
  split.
  - intros name [Hin|Hin]; exact (run_expected w f fuel _ Hin).
  - intros csr Hin.
    destruct (run_expected w f fuel _ Hin)
      as (labelsMap & template & key & der & Hlabels & _ & Hder & ->).
    eexists labelsMap, _, template, key, der.
    split; [exact Hlabels|]. split; [reflexivity|]. split; [reflexivity|].
    split; [reflexivity|]. split; [reflexivity|]. split; [exact Hder | reflexivity].
Qed.

Lemma template_fields (f : Flags) (dnsNames : list string) (ipaddresses : list net.IP)
    (t : x509.CertificateRequest) :
  certificateRequestTemplate f dnsNames ipaddresses = Some t ->
  x509.DNSNames t = dnsNames
  /\ x509.IPAddresses t = ipaddresses
  /\ dnsNames !! 0%nat = Some (pkix.CommonName (x509.Subject t))
  /\ pkix.Country (x509.Subject t) = subjectField (countries f)
  /\ pkix.Organization (x509.Subject t) = subjectField (organizations f)
  /\ pkix.OrganizationalUnit (x509.Subject t) = subjectField (organizationalUnits f).
Proof.
  unfold certificateRequestTemplate.
  destruct (dnsNames !! 0%nat) as [cn|]; [|discriminate].
  intros [= <-]. cbn. repeat split; reflexivity.
Qed.

(** X10: whatever a run has signed is signed with the key that was
    generated at the size of [-keysize], and is the request for the
    gathered DNS names and IP addresses with the first DNS name as Common
    Name. *)
Theorem X10_signed_request (w : World) (f : Flags) (fuel : nat)
    (t : x509.CertificateRequest) (key : PrivateKey) :
  In (EvCreateCertificateRequest t key) (fst (run w f fuel)) ->
  rsa_GenerateKey w (keysize f) = Ok key
  /\ x509.DNSNames t = gatherDNSNames f
  /\ gatherIPs w f = Ok (x509.IPAddresses t)
  /\ gatherDNSNames f !! 0%nat = Some (pkix.CommonName (x509.Subject t)).
Proof.
  intros Hin.
  destruct (run_expected w f fuel _ Hin) as (Hgen & ipaddresses & Hips & Ht).
  destruct (template_fields _ _ _ _ Ht) as (Hdns & Hip & Hcn & _).
  split; [exact Hgen|]. split; [exact Hdns|]. split; [rewrite Hip; exact Hips | exact Hcn].
Qed.

Lemma X10_signed_request_witness :
  exists t,
    In (EvCreateCertificateRequest t sampleKey)
       (fst (run (sampleWorld noSecret approving) fsFlags 3))
    /\ x509.DNSNames t = ["10-0-0-5.ns1.pod.cluster.local"]
    /\ x509.IPAddresses t = [net.IPv4 x0a x00 x00 x05].
Proof.
  assert (exists t, In (EvCreateCertificateRequest t sampleKey)
                       (fst (run (sampleWorld noSecret approving) fsFlags 3)))
    as [t Hin].
  { eexists. vm_compute. right. right. right. left. reflexivity. }
  exists t. split; [exact Hin|].
  destruct (X10_signed_request _ _ _ _ _ Hin) as (_ & Hdns & Hips & _).
  split; [exact Hdns|].
  assert (Ok (x509.IPAddresses t) = Ok [net.IPv4 x0a x00 x00 x05]) as Heq
      by (rewrite <- Hips; reflexivity).
  injection Heq as ->. reflexivity.
Defined.

Lemma keyBlock_type (w : World) (f : Flags) (key : PrivateKey) (blk : pem.Block) :
  keyBlock w f key = Some blk ->
  if pkcs8Format f
  then pem.Type_ blk = "PRIVATE KEY"
       /\ pkcs8_ConvertPrivateKeyToPKCS8 w key = Ok (pem.Bytes blk)
  else pem.Type_ blk = "RSA PRIVATE KEY"
       /\ pem.Bytes blk = x509_MarshalPKCS1PrivateKey w key.
Proof.
  unfold keyBlock. destruct (pkcs8Format f).
  - destruct (pkcs8_ConvertPrivateKeyToPKCS8 w key); [|discriminate].
    intros [= <-]. split; reflexivity.
  - intros [= <-]. split; reflexivity.
Qed.

(** X11: the three values a run stores in the secret are the PEM text of
    the generated key ([PRIVATE KEY] with the PKCS#8 bytes under [-pkcs8],
    [RSA PRIVATE KEY] with the PKCS#1 bytes otherwise), a certificate that a
    lookup of the request returned approved and longer than one byte, and
    the content of the service-account CA file. *)
Theorem X11_stored_values (w : World) (f : Flags) (fuel : nat) (u : apiv1.Secret) :
  In (EvUpdateSecret u) (fst (run w f fuel)) ->
  exists key blk certificate k8sCrt,
    rsa_GenerateKey w (keysize f) = Ok key
    /\ (if pkcs8Format f
        then pem.Type_ blk = "PRIVATE KEY"
             /\ pkcs8_ConvertPrivateKeyToPKCS8 w key = Ok (pem.Bytes blk)
        else pem.Type_ blk = "RSA PRIVATE KEY"
             /\ pem.Bytes blk = x509_MarshalPKCS1PrivateKey w key)
    /\ apiv1.StringData u !! "tls.key"
       = Some (string_of_list_byte (pem_EncodeToMemory w blk))
    /\ issuedBy w (certificateSigningRequestName f) certificate
    /\ apiv1.StringData u !! "tls.crt" = Some (string_of_list_byte certificate)
    /\ ioutil_ReadFile w serviceAccountCA = Ok k8sCrt
    /\ apiv1.StringData u !! "ca.crt" = Some (string_of_list_byte k8sCrt).
Proof.
  intros Hin.
  destruct (run_expected w f fuel _ Hin)
    as (_ & n & ks & key & blk & certificate & k8sCrt
        & _ & Hgen & Hblk & Hissued & Hread & ->).
  exists key, blk, certificate, k8sCrt.
  destruct (stringData_lookup (pem_EncodeToMemory w blk) certificate k8sCrt)
    as (Hk & Hc & Ha).
  split; [exact Hgen|]. split; [exact (keyBlock_type _ _ _ _ Hblk)|].
  split; [exact Hk|]. split; [exact Hissued|]. split; [exact Hc|].
  split; [exact Hread | exact Ha].
Qed.

Lemma X11_stored_values_witness :
  In (EvUpdateSecret updatedSecret)
     (fst (run (sampleWorld (holding keyOnly) approving) secretFlags 5))
  /\ apiv1.StringData updatedSecret !! "tls.crt" = Some "CERT".
Proof.
  assert (In (EvUpdateSecret updatedSecret)
             (fst (run (sampleWorld (holding keyOnly) approving) secretFlags 5))) as Hin.
  { vm_compute. repeat (first [left; reflexivity | right]). }
  split; [exact Hin|].
  destruct (X11_stored_values _ _ _ _ Hin) as (key & blk & certificate & k8sCrt & _).
  reflexivity.
Defined.

(** X12: in filesystem mode the certificate file holds a certificate that a
    lookup of the request returned approved and longer than one byte, the
    key file the PEM text of the generated key, and the request file the
    PEM text of the signed request; nothing else is written. *)
Theorem X12_file_contents (w : World) (f : Flags) (fuel : nat)
    (filename : string) (data : bytes) (perm : Z) :
  In (EvWriteFile filename data perm) (fst (run w f fuel)) ->
  (filename = path_Join w (outputDir f) "tls.key"
   /\ exists key blk,
        rsa_GenerateKey w (keysize f) = Ok key
        /\ keyBlock w f key = Some blk
        /\ data = pem_EncodeToMemory w blk)
  \/ (filename = path_Join w (outputDir f) "tls.csr"
      /\ exists template key der,
           x509_CreateCertificateRequest w template key = Ok der
           /\ data = pem_EncodeToMemory w {| pem.Type_ := "CERTIFICATE REQUEST";
                                             pem.Bytes := der |})
  \/ (filename = path_Join w (outputDir f) "tls.crt"
      /\ exists n csr,
           certs_GetCertificateSigningRequest w n (certificateSigningRequestName f) = Ok csr
           /\ inspect csr = Issued data).
Proof.
  intros Hin. destruct (run_expected w f fuel _ Hin) as (_ & _ & Hfile).
  destruct Hfile as [Hkey|[(Hname & t & key & der & _ & Hder & Hdata)|Hcrt]].
  - left. exact Hkey.
  - right. left. split; [exact Hname|]. exists t, key, der. auto.
  - right. right. exact Hcrt.
Qed.

Lemma X12_file_contents_witness :
  In (EvWriteFile "/etc/tls/tls.crt" certBytes 420)
     (fst (run (sampleWorld noSecret approving) fsFlags 3))
  /\ exists n csr, approving n = Ok csr /\ inspect csr = Issued certBytes.
Proof.
  assert (In (EvWriteFile "/etc/tls/tls.crt" certBytes 420)
             (fst (run (sampleWorld noSecret approving) fsFlags 3)))
    as Hin by (vm_compute; repeat (first [left; reflexivity | right])).
  split; [exact Hin|].
  destruct (X12_file_contents _ _ _ _ _ _ Hin) as [[Hname _]|[[Hname _]|[_ Hissued]]].
  - vm_compute in Hname. discriminate.
  - vm_compute in Hname. discriminate.
  - exact Hissued.
Defined.

(** ** Whole runs *)

Lemma advance_advance (s : state) (e1 e2 : list event) (a1 a2 b1 b2 : nat) :
  advance (advance s e1 a1 b1) e2 a2 b2 = advance s (e1 ++ e2) (a1 + a2) (b1 + b2).
Proof.
  unfold advance. cbn [trace secretCalls csrCalls].
  f_equal; [rewrite app_assoc; reflexivity | lia | lia].
Qed.

Lemma advance_id (s : state) : advance s [] 0 0 = s.
Proof. apply state_ext; cbn; [apply app_nil_r | lia | lia]. Qed.

Lemma emit_advance (s : state) (e : event) :
  {| trace := trace s ++ [e]; secretCalls := secretCalls s; csrCalls := csrCalls s |}
  = advance s [e] 0 0.
Proof. apply state_ext; cbn; [reflexivity | lia | lia]. Qed.

Lemma keyPhase_ok (w : World) (f : Flags) (dir : string) (s : state)
    (key : PrivateKey) (blk : pem.Block) :
  rsa_GenerateKey w (keysize f) = Ok key ->
  keyBlock w f key = Some blk ->
  (secretName f = "" ->
   ioutil_WriteFile w (path_Join w dir "tls.key") (pem_EncodeToMemory w blk) 420 = None) ->
  keyPhase w f dir s
  = (advance s
       ([EvGenerateKey (keysize f)]
        ++ fileEvents f (EvWriteFile (path_Join w dir "tls.key")
                                      (pem_EncodeToMemory w blk) 420)) 0 0,
     Next (key, pem_EncodeToMemory w blk)).
Proof.
  intros Hgen Hblk Hwrite. unfold keyPhase, fileEvents. unfold_calls. rewrite Hgen.
  unfold keyBlock in Hblk.
  destruct (pkcs8Format f);
    [destruct (pkcs8_ConvertPrivateKeyToPKCS8 w key); [|discriminate]|];
    injection Hblk as <-; cbn [fst snd];
    (destruct (String.eqb_spec (secretName f) "") as [Hname|Hname];
     [rewrite (Hwrite Hname)|]; f_equal;
     apply state_ext; cbn; rewrite <- ?app_assoc; first [reflexivity | lia]).
Qed.

Lemma requestPhase_ok (w : World) (f : Flags) (dir : string) (s : state)
    (template : x509.CertificateRequest) (key : PrivateKey) (der : bytes) :
  x509_CreateCertificateRequest w template key = Ok der ->
  (secretName f = "" ->
   ioutil_WriteFile w (path_Join w dir "tls.csr") (requestPEM w der) 420 = None) ->
  requestPhase w f dir template key s
  = (advance s
       ([EvCreateCertificateRequest template key]
        ++ fileEvents f (EvWriteFile (path_Join w dir "tls.csr") (requestPEM w der) 420))
       0 0,
     Next (requestPEM w der)).
Proof.
  intros Hder Hwrite. unfold requestPhase, fileEvents, requestPEM in *. unfold_calls.
  rewrite Hder.
  destruct (String.eqb_spec (secretName f) "") as [Hname|Hname].
  - rewrite (Hwrite Hname). f_equal.
    apply state_ext; cbn; rewrite <- ?app_assoc; [reflexivity | lia | lia].
  - f_equal. apply state_ext; cbn; [reflexivity | lia | lia].
Qed.

Lemma signingRequestClient_ok (w : World) (name : string)
    (csr : certificates.CertificateSigningRequest) (fuel n : nat) (s : state)
    (certificate : bytes) :
  (exists e, certs_GetCertificateSigningRequest w (csrCalls s) name = Err e) ->
  (exists c, certs_CreateCertificateSigningRequest w csr = Ok c) ->
  (forall i, (i < n)%nat ->
     pendingAnswer (certs_GetCertificateSigningRequest w (csrCalls s + S i) name)) ->
  (exists found,
      certs_GetCertificateSigningRequest w (csrCalls s + S n) name = Ok found
      /\ inspect found = Issued certificate) ->
  (n < fuel)%nat ->
  signingRequestClient w name csr fuel s
  = (advance s
       ([EvDeleteCertificateSigningRequest name; EvGetCertificateSigningRequest name;
         EvCreateCertificateSigningRequest csr]
        ++ rounds n (EvGetCertificateSigningRequest name)
        ++ [EvGetCertificateSigningRequest name]) 0 (n + 2),
     Next certificate).
Proof.
  intros [e He] [c Hc] Hpending (found & Hfound & Hissued) Hfuel.
  rewrite start_sequence, He, Hc. cbn zeta.
  rewrite (poll_issued_after w name n fuel _ found certificate Hfuel).
  - rewrite advance_advance. f_equal. f_equal. lia.
  - intros i Hi. cbn [advance csrCalls].
    replace (csrCalls s + 1 + i)%nat with (csrCalls s + S i)%nat by lia. auto.
  - cbn [advance csrCalls].
    replace (csrCalls s + 1 + n)%nat with (csrCalls s + S n)%nat by lia. exact Hfound.
  - exact Hissued.
Qed.

(** A run in which everything up to the certificate goes well is at the
    output sink with the expected trace. *)
Lemma main_reaches_deliver (w : World) (f : Flags) (fuel : nat) (s1 : state)
    (dir : string) (secret : option apiv1.Secret) (key : PrivateKey) (blk : pem.Block)
    (labelsMap : gmap string string) (template : x509.CertificateRequest) (der : bytes)
    (n : nat) (certificate : bytes) :
  prelude w f fuel initial = (s1, Next (dir, secret)) ->
  Issuance w f dir key blk labelsMap template der n certificate ->
  (n < fuel)%nat ->
  main w f fuel initial
  = deliver w f dir secret (pem_EncodeToMemory w blk) certificate
      (advance s1 (issuanceEvents w f dir blk template key der labelsMap n) 0 (n + 2)).
Proof.
  intros Hpre [Hgen Hblk Hkw Hlabels (ips & Hips & Ht) Hder Hrw Hnf Hsub Hpend Happ] Hfuel.
  pose proof (prelude_keepsRequests _ _ _ _ _ _ Hpre) as Hcalls. cbn in Hcalls.
  unfold main. unfold bind at 1. rewrite Hpre. cbn [fst snd].
  unfold bind at 1. rewrite (keyPhase_ok w f dir s1 key blk Hgen Hblk Hkw). cbn [fst snd].
  rewrite Hlabels, Hips. unfold issue. rewrite Ht.
  unfold bind at 1. rewrite (requestPhase_ok w f dir _ template key der Hder Hrw).
  unfold bind at 1.
  rewrite (signingRequestClient_ok w _ _ fuel n _ certificate).
  - rewrite !advance_advance. unfold issuanceEvents.
    rewrite <- !app_assoc. reflexivity.
  - cbn [advance csrCalls]. rewrite Hcalls. exact Hnf.
  - exact Hsub.
  - intros i Hi. cbn [advance csrCalls]. rewrite Hcalls. apply Hpend. exact Hi.
  - cbn [advance csrCalls]. rewrite Hcalls. exact Happ.
  - exact Hfuel.
Qed.

Lemma prelude_filesystem_ok (w : World) (f : Flags) (fuel : nat) (s : state) (u : unit) :
  secretName f = "" -> k8s_NewInClusterClient w = Ok u ->
  prelude w f fuel s = (advance s [EvNewInClusterClient] 0 0, Next (outputDir f, None)).
Proof.
  intros Hname Hclient. unfold prelude, outputDir. unfold_calls.
  rewrite Hclient, Hname. cbn [String.eqb negb andb]. rewrite andb_false_r.
  f_equal. apply state_ext; cbn; [reflexivity | lia | lia].
Qed.

Lemma prelude_secret_ok (w : World) (f : Flags) (fuel m : nat) (u : unit)
    (ks : apiv1.Secret) :
  certDir f = "" -> secretName f <> "" -> k8s_NewInClusterClient w = Ok u ->
  (m < fuel)%nat ->
  (forall i, (i < m)%nat ->
     exists e, core_GetSecret w i (secretName f) (namespace f) = Err e) ->
  core_GetSecret w m (secretName f) (namespace f) = Ok ks ->
  (exists file, In file ["tls.key"; "tls.crt"; "ca.crt"] /\ apiv1.Data ks !! file = None) ->
  prelude w f fuel initial
  = (advance initial
       ([EvNewInClusterClient]
        ++ rounds m (EvGetSecret (secretName f) (namespace f))
        ++ [EvGetSecret (secretName f) (namespace f)]) (S m) 0,
     Next (outputDir f, Some ks)).
Proof.
  intros Hdir Hname Hclient Hfuel Hfail Hok (file & Hin & Hmissing).
  destruct (missingFile (apiv1.Data ks)) as [file'|] eqn:Hmf.
  2:{ destruct (proj1 (missingFile_None _) Hmf file Hin) as [v Hv]. congruence. }
  unfold prelude, outputDir.
  unfold bind at 1. unfold NewInClusterClient. unfold bind at 1. unfold emit, ret.
  rewrite Hclient, Hdir, (eqb_empty_false _ Hname). cbn [String.eqb negb andb].
  unfold bind at 1. unfold bind at 1.
  erewrite (preflight_found w f m fuel _ ks).
  2: exact Hfuel. 2: exact Hfail. 2: exact Hok.
  rewrite Hmf. reflexivity.
Qed.

Lemma deliver_filesystem (w : World) (f : Flags) (dir : string)
    (pemKeyBytes certificate : bytes) (s : state) :
  secretName f = "" ->
  deliver w f dir None pemKeyBytes certificate s
  = match ioutil_WriteFile w (path_Join w dir "tls.crt") certificate 420 with
    | None =>
        (advance s [EvWriteFile (path_Join w dir "tls.crt") certificate 420;
                    EvDeleteCertificateSigningRequest (certificateSigningRequestName f)]
                 0 0,
         Halt (Exit 0))
    | Some err =>
        (advance s [EvWriteFile (path_Join w dir "tls.crt") certificate 420] 0 0,
         Halt (Fatal ("unable to write to " +:+ path_Join w dir "tls.crt" +:+ ": " +:+ err)))
    end.
Proof.
  intros Hname. unfold deliver. unfold_calls. rewrite Hname. cbn [String.eqb].
  destruct (ioutil_WriteFile w _ _ _); f_equal;
    apply state_ext; cbn; rewrite <- ?app_assoc; first [reflexivity | lia].
Qed.

Lemma deliver_secret (w : World) (f : Flags) (dir : string) (ks : apiv1.Secret)
    (pemKeyBytes certificate : bytes) (s : state) :
  secretName f <> "" ->
  deliver w f dir (Some ks) pemKeyBytes certificate s
  = match ioutil_ReadFile w serviceAccountCA with
    | Ok k8sCrt =>
        (advance s [EvDeleteCertificateSigningRequest (certificateSigningRequestName f);
                    EvReadFile serviceAccountCA;
                    EvUpdateSecret
                      (withStringData ks (stringData pemKeyBytes certificate k8sCrt))]
                 0 0,
         Halt (Exit 0))
    | Err err =>
        (advance s [EvDeleteCertificateSigningRequest (certificateSigningRequestName f);
                    EvReadFile serviceAccountCA] 0 0,
         Halt (Panic err))
    end.
Proof.
  intros Hname. unfold deliver. unfold_calls. rewrite (eqb_empty_false _ Hname).
  destruct (ioutil_ReadFile w serviceAccountCA); f_equal;
    apply state_ext; cbn; rewrite <- ?app_assoc; first [reflexivity | lia].
Qed.

Lemma run_of_main (w : World) (f : Flags) (fuel : nat) (s : state) (o : outcome) :
  main w f fuel initial = (s, Halt o) -> run w f fuel = (trace s, Some o).
Proof. unfold run. intros ->. reflexivity. Qed.

(** X13: a run in filesystem mode in which every step succeeds, the request
    is not found at the first lookup and the certificate is issued after
    [n] waits: the key is generated and written, the request signed and
    written, the stale request deleted and looked up, the new one
    submitted and polled, the certificate written, the request deleted, and
    the process exits with status 0. *)
Theorem X13_filesystem_run (w : World) (f : Flags) (fuel n : nat) (u : unit)
    (key : PrivateKey) (blk : pem.Block) (labelsMap : gmap string string)
    (template : x509.CertificateRequest) (der certificate : bytes) :
  secretName f = "" ->
  k8s_NewInClusterClient w = Ok u ->
  Issuance w f (outputDir f) key blk labelsMap template der n certificate ->
  ioutil_WriteFile w (path_Join w (outputDir f) "tls.crt") certificate 420 = None ->
  (n < fuel)%nat ->
  let name := certificateSigningRequestName f in
  run w f fuel
  = ([EvNewInClusterClient;
      EvGenerateKey (keysize f);
      EvWriteFile (path_Join w (outputDir f) "tls.key") (pem_EncodeToMemory w blk) 420;
      EvCreateCertificateRequest template key;
      EvWriteFile (path_Join w (outputDir f) "tls.csr") (requestPEM w der) 420;
      EvDeleteCertificateSigningRequest name;
      EvGetCertificateSigningRequest name;
      EvCreateCertificateSigningRequest
        (certificateSigningRequest f labelsMap (requestPEM w der))]
     ++ rounds n (EvGetCertificateSigningRequest name)
     ++ [EvGetCertificateSigningRequest name;
         EvWriteFile (path_Join w (outputDir f) "tls.crt") certificate 420;
         EvDeleteCertificateSigningRequest name],
     Some (Exit 0)).
Proof.
  intros Hname Hclient Hissuance Hwrite Hfuel name.
  erewrite run_of_main.
  2:{ rewrite (main_reaches_deliver w f fuel _ _ None key blk labelsMap template der n
                 certificate (prelude_filesystem_ok w f fuel initial u Hname Hclient)
                 Hissuance Hfuel).
      rewrite (deliver_filesystem _ _ _ _ _ _ Hname), Hwrite. reflexivity. }
  f_equal. rewrite !advance_advance. cbn [advance trace initial app].
  unfold issuanceEvents, fileEvents. rewrite Hname. cbn [String.eqb app].
  rewrite <- !app_assoc. reflexivity.
Qed.

(** X14: when the certificate file cannot be written the run is fatal
    there: the signing request, deleted once before the submission, is not
    deleted again and stays on the control plane. *)
Theorem X14_certificate_write_failure (w : World) (f : Flags) (fuel n : nat) (u : unit)
    (key : PrivateKey) (blk : pem.Block) (labelsMap : gmap string string)
    (template : x509.CertificateRequest) (der certificate : bytes) (err : string) :
  secretName f = "" ->
  k8s_NewInClusterClient w = Ok u ->
  Issuance w f (outputDir f) key blk labelsMap template der n certificate ->
  ioutil_WriteFile w (path_Join w (outputDir f) "tls.crt") certificate 420 = Some err ->
  (n < fuel)%nat ->
  snd (run w f fuel)
  = Some (Fatal ("unable to write to " +:+ path_Join w (outputDir f) "tls.crt"
                   +:+ ": " +:+ err))
  /\ exists before,
       fst (run w f fuel)
       = before ++ [EvWriteFile (path_Join w (outputDir f) "tls.crt") certificate 420]
       /\ List.filter
            (fun e => match e with
                      | EvDeleteCertificateSigningRequest _ => true
                      | _ => false
                      end) (fst (run w f fuel))
          = [EvDeleteCertificateSigningRequest (certificateSigningRequestName f)].
Proof.
  intros Hname Hclient Hissuance Hwrite Hfuel.
  erewrite run_of_main.
  2:{ rewrite (main_reaches_deliver w f fuel _ _ None key blk labelsMap template der n
                 certificate (prelude_filesystem_ok w f fuel initial u Hname Hclient)
                 Hissuance Hfuel).
      rewrite (deliver_filesystem _ _ _ _ _ _ Hname), Hwrite. reflexivity. }
  split; [reflexivity|]. cbn [fst].
  rewrite !advance_advance. cbn [advance trace initial app].
  exists (EvNewInClusterClient
            :: issuanceEvents w f (outputDir f) blk template key der labelsMap n).
  split; [reflexivity|].
  unfold issuanceEvents, fileEvents. rewrite Hname. cbn [String.eqb app].
  cbn [List.filter app]. rewrite ?List.filter_app. cbn [List.filter app].
  assert (forall k name, List.filter
            (fun e => match e with
                      | EvDeleteCertificateSigningRequest _ => true
                      | _ => false
                      end) (rounds k (EvGetCertificateSigningRequest name)) = []) as ->.
  { intros k name0. induction k as [|k IH]; [reflexivity|].
    unfold rounds in *. cbn [replicate concat app List.filter]. exact IH. }
  reflexivity.
Qed.

Lemma sample_issuance (w : World) (f : Flags) :
  rsa_GenerateKey w = (fun _ => Ok sampleKey) ->
  x509_MarshalPKCS1PrivateKey w = (fun _ => [x30; x81]) ->
  (forall file data,
      In file ["tls.key"; "tls.csr"] ->
      ioutil_WriteFile w (path_Join w (outputDir f) file) data 420 = None) ->
  net_ParseIP w = sampleParseIP ->
  x509_CreateCertificateRequest w = (fun _ _ => Ok [x30; x80]) ->
  certs_GetCertificateSigningRequest w = (fun n _ => approving n) ->
  certs_CreateCertificateSigningRequest w = (fun csr => Ok csr) ->
  pkcs8Format f = false -> labels f = "" -> podIP f = "10.0.0.5" -> serviceIPs f = "" ->
  gatherDNSNames f = ["10-0-0-5.ns1.pod.cluster.local"] ->
  countries f = "" -> organizations f = "" -> organizationalUnits f = "" ->
  Issuance w f (outputDir f) sampleKey sampleBlock ∅ sampleTemplate [x30; x80] 1 certBytes.
Proof.
  intros Hgen Hmarshal Hw Hparse Hsign Hget Hcreate
         Hpkcs Hlabels Hip Hsips Hdns Hc Ho Hou.
  constructor.
  - rewrite Hgen. reflexivity.
  - unfold keyBlock. rewrite Hpkcs, Hmarshal. reflexivity.
  - intros _. apply Hw. simpl. auto.
  - unfold gatherLabels. rewrite Hlabels. reflexivity.
  - exists [net.IPv4 x0a x00 x00 x05]. unfold gatherIPs. rewrite Hparse, Hip, Hsips.
    split; [reflexivity|]. unfold certificateRequestTemplate. rewrite Hdns, Hc, Ho, Hou.
    reflexivity.
  - rewrite Hsign. reflexivity.
  - intros _. apply Hw. simpl. auto.
  - rewrite Hget. eexists. reflexivity.
  - rewrite Hcreate. eexists. reflexivity.
  - intros i Hi. rewrite Hget. assert (i = 0%nat) as -> by lia. reflexivity.
  - rewrite Hget. eexists. split; reflexivity.
Qed.

Lemma X13_filesystem_run_witness :
  snd (run (sampleWorld noSecret approving) fsFlags 3) = Some (Exit 0)
  /\ writtenFiles (fst (run (sampleWorld noSecret approving) fsFlags 3))
     = ["/etc/tls/tls.key"; "/etc/tls/tls.csr"; "/etc/tls/tls.crt"].
Proof.
  rewrite (X13_filesystem_run (sampleWorld noSecret approving) fsFlags 3 1 tt
             sampleKey sampleBlock ∅ sampleTemplate [x30; x80] certBytes).
  - split; reflexivity.
  - reflexivity.
  - reflexivity.
  - apply sample_issuance;
      first [reflexivity | intros file data [<-|[<-|[]]]; reflexivity].
  - reflexivity.
  - lia.
Defined.

Lemma X14_certificate_write_failure_witness :
  snd (run fullDisk fsFlags 3)
  = Some (Fatal "unable to write to /etc/tls/tls.crt: no space left on device").
Proof.
  refine (proj1 (X14_certificate_write_failure fullDisk fsFlags 3 1 tt
                   sampleKey sampleBlock ∅ sampleTemplate [x30; x80] certBytes
                   "no space left on device" _ _ _ _ _)).
  - reflexivity.
  - reflexivity.
  - apply sample_issuance;
      first [reflexivity | intros file data [<-|[<-|[]]]; reflexivity].
  - reflexivity.
  - lia.
Defined.

(** X15: a run in secret-store mode in which every step succeeds: the
    secret is awaited and kept, the key generated, the request signed,
    submitted and polled, the request deleted, the CA file read and the
    kept secret updated with the three values; no file is written and the
    process exits with status 0. *)
Theorem X15_secret_run (w : World) (f : Flags) (fuel m n : nat) (u : unit)
    (ks : apiv1.Secret) (key : PrivateKey) (blk : pem.Block)
    (labelsMap : gmap string string) (template : x509.CertificateRequest)
    (der certificate k8sCrt : bytes) :
  certDir f = "" -> secretName f <> "" ->
  k8s_NewInClusterClient w = Ok u ->
  (m < fuel)%nat ->
  (forall i, (i < m)%nat ->
     exists e, core_GetSecret w i (secretName f) (namespace f) = Err e) ->
  core_GetSecret w m (secretName f) (namespace f) = Ok ks ->
  (exists file, In file ["tls.key"; "tls.crt"; "ca.crt"] /\ apiv1.Data ks !! file = None) ->
  Issuance w f (outputDir f) key blk labelsMap template der n certificate ->
  (n < fuel)%nat ->
  ioutil_ReadFile w serviceAccountCA = Ok k8sCrt ->
  let name := certificateSigningRequestName f in
  run w f fuel
  = ([EvNewInClusterClient]
     ++ rounds m (EvGetSecret (secretName f) (namespace f))
     ++ [EvGetSecret (secretName f) (namespace f);
         EvGenerateKey (keysize f);
         EvCreateCertificateRequest template key;
         EvDeleteCertificateSigningRequest name;
         EvGetCertificateSigningRequest name;
         EvCreateCertificateSigningRequest
           (certificateSigningRequest f labelsMap (requestPEM w der))]
     ++ rounds n (EvGetCertificateSigningRequest name)
     ++ [EvGetCertificateSigningRequest name;
         EvDeleteCertificateSigningRequest name;
         EvReadFile serviceAccountCA;
         EvUpdateSecret
           (withStringData ks
              (stringData (pem_EncodeToMemory w blk) certificate k8sCrt))],
     Some (Exit 0)).
Proof.
  intros Hdir Hname Hclient Hm Hfail Hok Hmissing Hissuance Hn Hread name.
  erewrite run_of_main.
  2:{ rewrite (main_reaches_deliver w f fuel _ _ (Some ks) key blk labelsMap template der n
                 certificate
                 (prelude_secret_ok w f fuel m u ks Hdir Hname Hclient Hm Hfail Hok Hmissing)
                 Hissuance Hn).
      rewrite (deliver_secret _ _ _ _ _ _ _ Hname), Hread. reflexivity. }
  f_equal. rewrite !advance_advance. cbn [advance trace initial app].
  unfold issuanceEvents, fileEvents. rewrite (eqb_empty_false _ Hname). cbn [app].
  rewrite <- !app_assoc. reflexivity.
Qed.

Lemma X15_secret_run_witness :
  snd (run (sampleWorld (appearing keyOnly) approving) secretFlags 3) = Some (Exit 0)
  /\ writtenFiles (fst (run (sampleWorld (appearing keyOnly) approving) secretFlags 3)) = []
  /\ last (fst (run (sampleWorld (appearing keyOnly) approving) secretFlags 3))
     = Some (EvUpdateSecret updatedSecret).
Proof.
  rewrite (X15_secret_run (sampleWorld (appearing keyOnly) approving) secretFlags 3 1 1 tt
             (secretWith keyOnly) sampleKey sampleBlock ∅ sampleTemplate [x30; x80]
             certBytes [x43; x41]).
  - repeat split; reflexivity.
  - reflexivity.
  - discriminate.
  - reflexivity.
  - lia.
  - intros i Hi. assert (i = 0%nat) as -> by lia. eexists. reflexivity.
  - reflexivity.
  - exists "tls.crt". split; [simpl; auto | reflexivity].
  - apply sample_issuance;
      first [reflexivity | intros file data [<-|[<-|[]]]; reflexivity].
  - lia.
  - reflexivity.
Defined.

(** X16: when the service-account CA file cannot be read in secret-store
    mode the process panics after it has deleted the signing request: the
    secret is not updated and the issued certificate is lost. *)
Theorem X16_ca_read_failure (w : World) (f : Flags) (fuel m n : nat) (u : unit)
    (ks : apiv1.Secret) (key : PrivateKey) (blk : pem.Block)
    (labelsMap : gmap string string) (template : x509.CertificateRequest)
    (der certificate : bytes) (err : string) :
  certDir f = "" -> secretName f <> "" ->
  k8s_NewInClusterClient w = Ok u ->
  (m < fuel)%nat ->
  (forall i, (i < m)%nat ->
     exists e, core_GetSecret w i (secretName f) (namespace f) = Err e) ->
  core_GetSecret w m (secretName f) (namespace f) = Ok ks ->
  (exists file, In file ["tls.key"; "tls.crt"; "ca.crt"] /\ apiv1.Data ks !! file = None) ->
  Issuance w f (outputDir f) key blk labelsMap template der n certificate ->
  (n < fuel)%nat ->
  ioutil_ReadFile w serviceAccountCA = Err err ->
  snd (run w f fuel) = Some (Panic err)
  /\ (exists before,
         fst (run w f fuel)
         = before ++ [EvDeleteCertificateSigningRequest (certificateSigningRequestName f);
                      EvReadFile serviceAccountCA])
  /\ forall secret, ~ In (EvUpdateSecret secret) (fst (run w f fuel)).
Proof.
  intros Hdir Hname Hclient Hm Hfail Hok Hmissing Hissuance Hn Hread.
  assert (forall secret, ~ In (EvUpdateSecret secret) (fst (run w f fuel))) as Hnone.
  { intros secret Hin.
    destruct (main_updates w f fuel) with (u := secret) (s' := fst (main w f fuel initial))
                                          (r := snd (main w f fuel initial))
      as (_ & _ & _ & _ & k8sCrt & _ & _ & Hread' & _).
    - destruct (main w f fuel initial); reflexivity.
    - unfold run in Hin. destruct (main w f fuel initial) as [s' [|o|]]; exact Hin.
    - congruence. }
  split; [|split; [|exact Hnone]].
  - erewrite run_of_main; [reflexivity|].
    rewrite (main_reaches_deliver w f fuel _ _ (Some ks) key blk labelsMap template der n
               certificate
               (prelude_secret_ok w f fuel m u ks Hdir Hname Hclient Hm Hfail Hok Hmissing)
               Hissuance Hn).
    rewrite (deliver_secret _ _ _ _ _ _ _ Hname), Hread. reflexivity.
  - erewrite run_of_main.
    2:{ rewrite (main_reaches_deliver w f fuel _ _ (Some ks) key blk labelsMap template der n
                   certificate
                   (prelude_secret_ok w f fuel m u ks Hdir Hname Hclient Hm Hfail Hok
                      Hmissing)
                   Hissuance Hn).
        rewrite (deliver_secret _ _ _ _ _ _ _ Hname), Hread. reflexivity. }
    cbn [fst]. rewrite !advance_advance. cbn [advance trace initial].
    rewrite app_nil_l, !app_assoc. eexists. reflexivity.
Qed.

Lemma X16_ca_read_failure_witness :
  snd (run noCA secretFlags 3) = Some (Panic "no such file or directory").
Proof.
  refine (proj1 (X16_ca_read_failure noCA secretFlags 3 1 1 tt (secretWith keyOnly)
                   sampleKey sampleBlock ∅ sampleTemplate [x30; x80] certBytes
                   "no such file or directory" _ _ _ _ _ _ _ _ _ _)).
  - reflexivity.
  - discriminate.
  - reflexivity.
  - lia.
  - intros i Hi. assert (i = 0%nat) as -> by lia. eexists. reflexivity.
  - reflexivity.
  - exists "tls.crt". split; [simpl; auto | reflexivity].
  - apply sample_issuance;
      first [reflexivity | intros file data [<-|[<-|[]]]; reflexivity].
  - lia.
  - reflexivity.
Defined.

(** ** Waiting *)

Lemma preflight_waits (w : World) (f : Flags) (fuel : nat) :
  forall s : state,
    (forall i, (i < fuel)%nat ->
       exists e, core_GetSecret w (secretCalls s + i) (secretName f) (namespace f) = Err e) ->
    preflight w f fuel s
    = (advance s (rounds fuel (EvGetSecret (secretName f) (namespace f))) fuel 0, Blocked).
Proof.
  induction fuel as [|fuel IH]; intros s Hfail.
  - cbn [preflight]. unfold blocked. f_equal.
    apply state_ext; cbn; [rewrite app_nil_r; reflexivity | lia | lia].
  - cbn [preflight]. unfold_calls.
    destruct (Hfail 0%nat) as [e He]; [lia|]. rewrite Nat.add_0_r in He. rewrite He.
    rewrite IH; cbn [secretCalls csrCalls trace].
    + f_equal. apply state_ext; cbn; [|lia|lia].
      unfold rounds. cbn [replicate concat]. rewrite <- !app_assoc. reflexivity.
    + intros i Hi. destruct (Hfail (S i)) as [e' He']; [lia|].
      exists e'. rewrite <- He'. f_equal. lia.
Qed.

(** X17: in secret-store mode the secret is awaited, never created: as long
    as the lookups fail, the run does nothing but look the secret up and
    sleep, and it is still waiting after any number of rounds. *)
Theorem X17_secret_awaited (w : World) (f : Flags) (fuel : nat) (u : unit) :
  certDir f = "" -> secretName f <> "" ->
  k8s_NewInClusterClient w = Ok u ->
  (forall i, (i < fuel)%nat ->
     exists e, core_GetSecret w i (secretName f) (namespace f) = Err e) ->
  run w f fuel
  = (EvNewInClusterClient :: rounds fuel (EvGetSecret (secretName f) (namespace f)), None).
Proof.
  intros Hdir Hname Hclient Hfail.
  unfold run, main, prelude.
  unfold bind at 1. unfold bind at 1. unfold NewInClusterClient.
  unfold bind at 1. unfold emit, ret. rewrite Hclient.
  rewrite Hdir, (eqb_empty_false _ Hname). cbn [String.eqb negb andb].
  unfold bind at 1. unfold bind at 1.
  rewrite preflight_waits by exact Hfail. reflexivity.
Qed.

Lemma X17_secret_awaited_witness :
  run (sampleWorld noSecret approving) secretFlags 2
  = ([EvNewInClusterClient;
      EvGetSecret "tls" "ns1"; EvSleep 5000000000;
      EvGetSecret "tls" "ns1"; EvSleep 5000000000], None).
Proof.
  refine (X17_secret_awaited (sampleWorld noSecret approving) secretFlags 2 tt _ _ _ _).
  - reflexivity.
  - discriminate.
  - reflexivity.
  - intros i _. eexists. reflexivity.
Defined.

(** X18: the poll loop has no attempt limit: as long as the lookups fail or
    return a request that is not yet issued, it looks the request up and
    sleeps, and it is still waiting after any number of rounds. *)
Theorem X18_poll_never_gives_up (w : World) (name : string) (fuel : nat) (s : state) :
  (forall i, (i < fuel)%nat ->
     match certs_GetCertificateSigningRequest w (csrCalls s + i) name with
     | Err _ => True
     | Ok csr => inspect csr = Retry
     end) ->
  poll w name fuel s
  = ({| trace := trace s ++ rounds fuel (EvGetCertificateSigningRequest name);
        secretCalls := secretCalls s;
        csrCalls := csrCalls s + fuel |}, Blocked).
Proof.
  intros Hwait. rewrite poll_waits by exact Hwait.
  f_equal. apply state_ext; cbn; [reflexivity | lia | lia].
Qed.

Lemma X18_poll_never_gives_up_witness :
  snd (poll (sampleWorld noSecret stalled) "app-ns1" 7 (advance initial [] 0 1)) = Blocked
  /\ snd (run (sampleWorld noSecret stalled) fsFlags 7) = None.
Proof.
  split; [|reflexivity].
  rewrite (X18_poll_never_gives_up (sampleWorld noSecret stalled) "app-ns1" 7
             (advance initial [] 0 1)); [reflexivity|].
  intros i _. reflexivity.
Defined.

(** X19: what the poll loop does with a fetched request: it returns the
    certificate exactly when the first condition has the type [Approved]
    and the certificate is longer than one byte; it waits exactly when
    there is no condition, or the first condition has another type, or the
    certificate has at most one byte; it panics exactly when the first
    condition has no type. *)
Theorem X19_inspect_cases (csr : certificates.CertificateSigningRequest) :
  (forall certificate,
      inspect csr = Issued certificate
      <-> exists st c rest,
            certificates.Status csr = Some st
            /\ certificates.Conditions st = c :: rest
            /\ certificates.Type_ c = Some "Approved"
            /\ certificates.Certificate st = certificate
            /\ (1 < length certificate)%nat)
  /\ (inspect csr = Retry
      <-> certificates.GetConditions (certificates.GetStatus csr) = []
          \/ exists st c rest t,
               certificates.Status csr = Some st
               /\ certificates.Conditions st = c :: rest
               /\ certificates.Type_ c = Some t
               /\ (t <> "Approved" \/ (length (certificates.Certificate st) <= 1)%nat))
  /\ (forall msg,
         inspect csr = Crash msg
         <-> msg = nilDereference
             /\ exists st c rest,
                  certificates.Status csr = Some st
                  /\ certificates.Conditions st = c :: rest
                  /\ certificates.Type_ c = None).
Proof.
  split; [intros certificate; apply inspect_Issued_iff|].
  split; [apply inspect_Retry_iff | intros msg; apply inspect_Crash_iff].
Qed.

(** ** Key failures *)

(** X20: in filesystem mode a failure to generate the key is a fatal error
    and a failure of the PKCS#8 conversion a panic; either way the run ends
    right after the key generation, with nothing written and no request
    signed or submitted. *)
Theorem X20_key_failures (w : World) (f : Flags) (fuel : nat) (u : unit) :
  secretName f = "" ->
  k8s_NewInClusterClient w = Ok u ->
  (forall err,
      rsa_GenerateKey w (keysize f) = Err err ->
      run w f fuel
      = ([EvNewInClusterClient; EvGenerateKey (keysize f)],
         Some (Fatal ("unable to genarate the private key: " +:+ err))))
  /\ (forall key err,
         rsa_GenerateKey w (keysize f) = Ok key ->
         pkcs8Format f = true ->
         pkcs8_ConvertPrivateKeyToPKCS8 w key = Err err ->
         run w f fuel
         = ([EvNewInClusterClient; EvGenerateKey (keysize f)], Some (Panic err))).
Proof.
  intros Hname Hclient. split.
  - intros err Hgen. unfold run, main. unfold bind at 1.
    rewrite (prelude_filesystem_ok w f fuel initial u Hname Hclient).
    unfold bind at 1. unfold keyPhase. unfold_calls. rewrite Hgen. reflexivity.
  - intros key err Hgen Hpkcs Hconv. unfold run, main. unfold bind at 1.
    rewrite (prelude_filesystem_ok w f fuel initial u Hname Hclient).
    unfold bind at 1. unfold keyPhase. unfold_calls. rewrite Hgen, Hpkcs, Hconv.
    reflexivity.
Qed.

Lemma X20_key_failures_witness :
  run noEntropy fsFlags 3
  = ([EvNewInClusterClient; EvGenerateKey 2048],
     Some (Fatal ("unable to genarate the private key: "
                    +:+ "too few primes of given length to generate an RSA key"))).
Proof.
  refine (proj1 (X20_key_failures noEntropy fsFlags 3 tt _ _) _ _); reflexivity.
Defined.

(** ** Subject fields *)

Lemma Split_nonempty (s sep : string) : sep <> "" -> gostrings.Split s sep <> [].
Proof.
  intros Hsep Hnil. destruct (Split_index0 s sep Hsep) as [x Hx].
  rewrite Hnil in Hx. discriminate.
Qed.

(** X21: the country, organization and organizational-unit fields of every
    request a run signs are empty lists exactly when the flag is empty (no
    entry with an empty string is made up), and the comma-separated
    entries of the flag otherwise. *)
Theorem X21_subject_fields (w : World) (f : Flags) (fuel : nat)
    (t : x509.CertificateRequest) (key : PrivateKey) :
  In (EvCreateCertificateRequest t key) (fst (run w f fuel)) ->
  let field (flag : string) (value : list string) :=
    (flag = "" <-> value = [])
    /\ (flag <> "" -> value = gostrings.Split flag ",") in
  field (countries f) (pkix.Country (x509.Subject t))
  /\ field (organizations f) (pkix.Organization (x509.Subject t))
  /\ field (organizationalUnits f) (pkix.OrganizationalUnit (x509.Subject t)).
Proof.
  intros Hin field.
  destruct (run_expected w f fuel _ Hin) as (_ & ipaddresses & _ & Ht).
  destruct (template_fields _ _ _ _ Ht) as (_ & _ & _ & -> & -> & ->).
  assert (forall flag, field flag (subjectField flag)) as Hfield.
  { intros flag. unfold field, subjectField. destruct flag as [|c flag].
    - split; [split; reflexivity | congruence].
    - cbn [String.length Nat.ltb Nat.leb]. split; [|reflexivity].
      split; [discriminate|]. intros Hnil.
      exfalso. exact (Split_nonempty _ "," ltac:(discriminate) Hnil). }
  repeat split; apply Hfield.
Qed.

Lemma X21_subject_fields_witness :
  exists t,
    In (EvCreateCertificateRequest t sampleKey)
       (fst (run (sampleWorld noSecret approving) fsFlags 3))
    /\ pkix.Country (x509.Subject t) = [].
Proof.
  assert (exists t, In (EvCreateCertificateRequest t sampleKey)
                       (fst (run (sampleWorld noSecret approving) fsFlags 3)))
    as [t Hin].
  { eexists. vm_compute. right. right. right. left. reflexivity. }
  exists t. split; [exact Hin|].
  destruct (X21_subject_fields _ _ _ _ _ Hin) as ([[Hempty _] _] & _).
  apply Hempty. reflexivity.
Defined.

(** ** Failures before the control plane is asked for a certificate *)

(** X22: when the in-cluster client cannot be created the run is fatal at
    once, whatever the flags: nothing is looked up, generated or written. *)
Theorem X22_client_failure (w : World) (f : Flags) (fuel : nat) (err : string) :
  k8s_NewInClusterClient w = Err err ->
  run w f fuel
  = ([EvNewInClusterClient],
     Some (Fatal ("unable to create a Kubernetes client: " +:+ err))).
Proof.
  intros Hclient. unfold run, main, prelude. unfold_calls. rewrite Hclient. reflexivity.
Qed.

Lemma X22_client_failure_witness :
  run outsideCluster secretFlags 3
  = ([EvNewInClusterClient],
     Some (Fatal ("unable to create a Kubernetes client: "
                    +:+ "unable to load in-cluster configuration"))).
Proof. exact (X22_client_failure outsideCluster secretFlags 3 _ eq_refl). Defined.

(** X23: in filesystem mode, when the request cannot be signed the run is
    fatal there: the key file is already written, and the control plane has
    not been asked to delete, look up or create a signing request. *)
Theorem X23_signing_failure (w : World) (f : Flags) (fuel : nat) (u : unit)
    (key : PrivateKey) (blk : pem.Block) (labelsMap : gmap string string)
    (ipaddresses : list net.IP) (template : x509.CertificateRequest) (err : string) :
  secretName f = "" ->
  k8s_NewInClusterClient w = Ok u ->
  rsa_GenerateKey w (keysize f) = Ok key ->
  keyBlock w f key = Some blk ->
  ioutil_WriteFile w (path_Join w (outputDir f) "tls.key") (pem_EncodeToMemory w blk) 420
  = None ->
  gatherLabels f = Some labelsMap ->
  gatherIPs w f = Ok ipaddresses ->
  certificateRequestTemplate f (gatherDNSNames f) ipaddresses = Some template ->
  x509_CreateCertificateRequest w template key = Err err ->
  run w f fuel
  = ([EvNewInClusterClient;
      EvGenerateKey (keysize f);
      EvWriteFile (path_Join w (outputDir f) "tls.key") (pem_EncodeToMemory w blk) 420;
      EvCreateCertificateRequest template key],
     Some (Fatal ("unable to generate the certificate request: " +:+ err))).
Proof.
  intros Hname Hclient Hgen Hblk Hwrite Hlabels Hips Ht Hsign.
  unfold run, main. unfold bind at 1.
  rewrite (prelude_filesystem_ok w f fuel initial u Hname Hclient). cbn [fst snd].
  unfold bind at 1.
  rewrite (keyPhase_ok w f (outputDir f) _ key blk Hgen Hblk (fun _ => Hwrite)).
  cbn [fst snd]. rewrite Hlabels, Hips. unfold issue. rewrite Ht.
  unfold bind at 1. unfold requestPhase. unfold_calls. rewrite Hsign.
  unfold fileEvents. rewrite Hname. reflexivity.
Qed.

Lemma X23_signing_failure_witness :
  snd (run brokenSigner fsFlags 3)
  = Some (Fatal ("unable to generate the certificate request: "
                   +:+ "x509: unsupported signature algorithm"))
  /\ Forall (fun e => match e with
                      | EvDeleteCertificateSigningRequest _
                      | EvGetCertificateSigningRequest _
                      | EvCreateCertificateSigningRequest _ => False
                      | _ => True
                      end) (fst (run brokenSigner fsFlags 3)).
Proof.
  rewrite (X23_signing_failure brokenSigner fsFlags 3 tt sampleKey sampleBlock ∅
             [net.IPv4 x0a x00 x00 x05] sampleTemplate
             "x509: unsupported signature algorithm");
    try reflexivity.
  split; [reflexivity | repeat constructor].
Defined.
